(** * Network capture parser: a shallow embedding of [app/utils/parser.py]

    The development follows the Python module function by function.
    Text is a [string] of one-byte characters read as the code points
    0..255; Python integers are [Z] ([int] of a text has the
    interpreter's default limit of 4300 digits; the integers that
    reach [str] are taken to be within it, as all those that the
    module computes are); Python floats are binary64 values kept as exact dyadic numbers; exceptions
    are the [Raise] results of an error monad; dictionaries are
    association lists in insertion order, whose keys differ
    ([distinct_keys], a hypothesis where a proof needs it).  The template engine
    [ntc_templates.parse.parse_output] is outside the module and is a
    parameter of the functions that call it.

    Of [app/routers/parser.py] the development has what the views
    compute from one stored document and the extension test of the
    upload, with [os.path] as on a POSIX system and a file name that
    is a text; the database, the files and the responses are left
    out.  Of the earlier module [parser.py] it has the platform
    table. *)

From Stdlib Require Import String Ascii List ZArith Lia Bool DecimalString
  Sorted.
Import ListNotations.

Open Scope string_scope.
Open Scope Z_scope.

(** ** Exceptions *)

Inductive exn : Type :=
| IndexError
| ValueError
| TypeError
| OverflowError
| ZeroDivisionError.

Inductive outcome (A : Type) : Type :=
| Ok (a : A)
| Raise (e : exn).

Arguments Ok {A} a.
Arguments Raise {A} e.

Definition bind {A B : Type} (r : outcome A) (k : A -> outcome B) : outcome B :=
  match r with
  | Ok a => k a
  | Raise e => Raise e
  end.

Notation "x <- r ;; k" := (bind r (fun x => k))
  (at level 61, r at next level, right associativity).

(** ** Characters and strings, as [str] has them *)

Module PyStr.

Definition code (c : ascii) : N := N_of_ascii c.

Definition in_range (lo hi : N) (c : ascii) : bool :=
  (N.leb lo (code c) && N.leb (code c) hi)%bool.

(** The class [0-9] of a regular expression, and [str.isdecimal]. *)
Definition is_ascii_digit (c : ascii) : bool := in_range 48 57 c.

(** [str.isdigit] on one character: the ten digits and the superscripts
    two, three and one of Latin-1, which [int] and [float] refuse. *)
Definition isdigit_char (c : ascii) : bool :=
  (is_ascii_digit c || N.eqb (code c) 178 || N.eqb (code c) 179
   || N.eqb (code c) 185)%bool.

(** [str.isspace] on one character, the set [str.strip] removes. *)
Definition isspace_char (c : ascii) : bool :=
  (in_range 9 13 c || in_range 28 32 c || N.eqb (code c) 133
   || N.eqb (code c) 160)%bool.

(** The lower-case form of one character: the letters A..Z and the
    capital letters of Latin-1 (192..222 without the times sign). *)
Definition lower_char (c : ascii) : ascii :=
  if (in_range 65 90 c
      || (in_range 192 222 c && negb (N.eqb (code c) 215)))%bool
  then ascii_of_N (code c + 32)
  else c.

Fixpoint lower (s : string) : string :=
  match s with
  | EmptyString => EmptyString
  | String c t => String (lower_char c) (lower t)
  end.

Fixpoint rev_onto (s acc : string) : string :=
  match s with
  | EmptyString => acc
  | String c t => rev_onto t (String c acc)
  end.

Definition rev (s : string) : string := rev_onto s EmptyString.

Fixpoint all_chars (p : ascii -> bool) (s : string) : bool :=
  match s with
  | EmptyString => true
  | String c t => (p c && all_chars p t)%bool
  end.

Fixpoint filter_chars (p : ascii -> bool) (s : string) : string :=
  match s with
  | EmptyString => EmptyString
  | String c t => if p c then String c (filter_chars p t) else filter_chars p t
  end.

(** [s.isdigit()]: at least one character, all of them digits. *)
Definition isdigit (s : string) : bool :=
  match s with
  | EmptyString => false
  | _ => all_chars isdigit_char s
  end.

Fixpoint lstrip_by (p : ascii -> bool) (s : string) : string :=
  match s with
  | EmptyString => EmptyString
  | String c t => if p c then lstrip_by p t else s
  end.

Definition strip_by (p : ascii -> bool) (s : string) : string :=
  rev (lstrip_by p (rev (lstrip_by p s))).

(** [s.strip()]. *)
Definition strip (s : string) : string := strip_by isspace_char s.

(** [s[n:]] for [n >= 0]. *)
Fixpoint drop (n : nat) (s : string) : string :=
  match n, s with
  | O, _ => s
  | S n', EmptyString => EmptyString
  | S n', String _ t => drop n' t
  end.

(** [list(s)]: the one-character strings of [s]. *)
Fixpoint chars (s : string) : list string :=
  match s with
  | EmptyString => []
  | String c t => String c EmptyString :: chars t
  end.

(** [c in s] for a character [c]. *)
Fixpoint has_char (c : ascii) (s : string) : bool :=
  match s with
  | EmptyString => false
  | String d t => (Ascii.eqb c d || has_char c t)%bool
  end.

(** [s.split("\n", maxsplit)]: cut at the first [maxsplit] newlines. *)
Fixpoint split_nl (maxsplit : nat) (s : string) : list string :=
  match s with
  | EmptyString => [EmptyString]
  | String c t =>
      match maxsplit with
      | O => [s]
      | S m =>
          if Ascii.eqb c "010"%char then EmptyString :: split_nl m t
          else
            match split_nl maxsplit t with
            | [] => [String c EmptyString]
            | piece :: rest => String c piece :: rest
            end
      end
  end.

(** [s.rsplit("\n", maxsplit)]: the same cut counted from the right. *)
Definition rsplit_nl (maxsplit : nat) (s : string) : list string :=
  List.rev (map rev (split_nl maxsplit (rev s))).

(** The characters that end a line for [str.splitlines], below 256. *)
Definition is_linebreak (c : ascii) : bool :=
  (in_range 10 13 c || in_range 28 30 c || N.eqb (code c) 133)%bool.

(** [s.splitlines()]: lines without their ends; a carriage return
    followed by a newline is one line end, and a final line end opens
    no empty line. *)
Fixpoint splitlines (s : string) : list string :=
  match s with
  | EmptyString => []
  | String c t =>
      if is_linebreak c then
        match c, t with
        | "013"%char, String "010"%char t' => EmptyString :: splitlines t'
        | _, _ => EmptyString :: splitlines t
        end
      else
        match splitlines t with
        | [] => [String c EmptyString]
        | line :: rest => String c line :: rest
        end
  end.

End PyStr.


(** ** Integers and their text *)

Module PyInt.

(** [str(n)]. *)
Definition to_text (n : Z) : string := NilZero.string_of_int (Z.to_int n).

Definition digit_value (c : ascii) : Z := Z.of_N (PyStr.code c) - 48.

(** The digits of an integer literal after its first one: a single
    underscore may stand between two digits. *)
Fixpoint more_digits (acc : Z) (s : string) : option Z :=
  match s with
  | EmptyString => Some acc
  | String c t =>
      if PyStr.is_ascii_digit c then more_digits (acc * 10 + digit_value c) t
      else if Ascii.eqb c "_"%char then
        match t with
        | String d t' =>
            if PyStr.is_ascii_digit d
            then more_digits (acc * 10 + digit_value d) t'
            else None
        | EmptyString => None
        end
      else None
  end.

Definition unsigned (s : string) : option Z :=
  match s with
  | String c t =>
      if PyStr.is_ascii_digit c then more_digits (digit_value c) t else None
  | EmptyString => None
  end.

(** The blanks [int] accepts around a literal: of the characters
    [str.isspace] knows, the separators 28..31 are refused. *)
Definition blank (c : ascii) : bool :=
  (PyStr.in_range 9 13 c || N.eqb (PyStr.code c) 32
   || N.eqb (PyStr.code c) 133 || N.eqb (PyStr.code c) 160)%bool.

(** The most digits a text may have for [int] to convert it: the
    interpreter's default, [sys.get_int_max_str_digits()]. *)
Definition max_str_digits : Z := 4300.

(** The digits of a text, leading zeros included; blanks, the sign and
    underscores do not count. *)
Definition digit_count (s : string) : Z :=
  Z.of_nat (String.length (PyStr.filter_chars PyStr.is_ascii_digit s)).

(** [int(s)] for a string: blanks, an optional sign, decimal digits,
    4300 of them at most.  [None] is the [ValueError]. *)
Definition of_text (s : string) : option Z :=
  if digit_count s <=? max_str_digits then
    match PyStr.strip_by blank s with
    | String "-"%char t => option_map Z.opp (unsigned t)
    | String "+"%char t => unsigned t
    | t => unsigned t
    end
  else None.

End PyInt.

(** ** Floats: binary64 values as exact dyadic numbers *)

Module PyFloat.

(** A finite non-zero float is [m * 2 ^ e] with [m] odd, so that equal
    values have equal writings; zeros and infinities carry their sign.
    The operations of this module never produce a NaN. *)
Inductive t : Type :=
| Zero (neg : bool)
| Fin (neg : bool) (m : positive) (e : Z)
| Inf (neg : bool).

(** [x * 2 ^ k] for [k >= 0], and [x] otherwise. *)
Definition shl (x k : Z) : Z := x * 2 ^ Z.max 0 k.

Definition shl10 (x k : Z) : Z := x * 10 ^ Z.max 0 k.

(** The integer nearest to [n / d], ties to the even one ([d > 0]). *)
Definition half_even (n d : Z) : Z :=
  let q := n / d in
  match 2 * (n mod d) ?= d with
  | Lt => q
  | Gt => q + 1
  | Eq => if Z.even q then q else q + 1
  end.

Fixpoint odd_part (m : positive) (e : Z) : positive * Z :=
  match m with
  | xO m' => odd_part m' (e + 1)
  | _ => (m, e)
  end.

Definition of_scaled (neg : bool) (m e : Z) : t :=
  match m with
  | Zpos p => let '(p', e') := odd_part p e in Fin neg p' e'
  | _ => Zero neg
  end.

(** The binary64 value nearest to [n / d] ([n >= 0], [d > 0]), ties to
    even: 53 bits of precision, steps of [2 ^ -1074] near zero, and
    [Inf] from [2 ^ 1024] on. *)
Definition nearest (neg : bool) (n d : Z) : t :=
  if n =? 0 then Zero neg
  else
    let k := Z.log2 n - Z.log2 d in
    let top := if shl d k <=? shl n (- k) then k else k - 1 in
    let q := Z.max (top - 52) (-1074) in
    let m := half_even (shl n (- q)) (shl d q) in
    if (m =? 0) then Zero neg
    else if 1024 <=? Z.log2 m + q then Inf neg
    else of_scaled neg m q.

(** [a / b] on integers: the correctly rounded quotient. *)
Definition truediv (a b : Z) : outcome t :=
  if b =? 0 then Raise ZeroDivisionError
  else
    match nearest (xorb (a <? 0) (b <? 0)) (Z.abs a) (Z.abs b) with
    | Inf _ => Raise OverflowError
    | x => Ok x
    end.

(** [x * k] for a float [x] and a non-zero integer [k] that a float
    holds exactly; an overflow is an infinity, not an exception. *)
Definition mul_int (x : t) (k : Z) : t :=
  match x with
  | Zero neg => Zero (xorb neg (k <? 0))
  | Inf neg => Inf (xorb neg (k <? 0))
  | Fin neg m e =>
      nearest (xorb neg (k <? 0)) (shl (Zpos m * Z.abs k) e) (shl 1 (- e))
  end.

(** [round(x, 2)]: the exact value is rounded to hundredths, ties to
    even, and the float nearest to that decimal is returned; zeros and
    infinities round to themselves. *)
Definition round2 (x : t) : t :=
  match x with
  | Fin neg m e =>
      nearest neg (half_even (shl (Zpos m * 100) e) (shl 1 (- e))) 100
  | _ => x
  end.

(** [float(n)] for an integer. *)
Definition of_int (n : Z) : outcome t :=
  match nearest (n <? 0) (Z.abs n) 1 with
  | Inf _ => Raise OverflowError
  | x => Ok x
  end.

(** [int(x)]: truncation toward zero. *)
Definition trunc (x : t) : outcome Z :=
  match x with
  | Zero _ => Ok 0
  | Inf _ => Raise OverflowError
  | Fin neg m e =>
      let a := shl (Zpos m) e / shl 1 (- e) in
      Ok (if neg then - a else a)
  end.

(** The float of a text made of decimal digits with at most one point,
    the only texts that reach [float] in this module (behind an
    [isdigit] test); signs, exponents and names are not read here. *)
Definition of_plain_text (s : string) : outcome t :=
  let fix cut (s : string) : string * option string :=
    match s with
    | EmptyString => (EmptyString, None)
    | String c r =>
        if Ascii.eqb c "."%char then (EmptyString, Some r)
        else let '(a, b) := cut r in (String c a, b)
    end in
  let '(whole, after) := cut s in
  let frac := match after with Some f => f | None => EmptyString end in
  let digits := whole ++ frac in
  if PyStr.all_chars PyStr.is_ascii_digit digits then
    match PyInt.unsigned digits with
    | Some n =>
        Ok (nearest false n (10 ^ Z.of_nat (String.length frac)))
    | None => Raise ValueError
    end
  else Raise ValueError.

(** *** The text of a float: the shortest digits that read back *)

(** Some [k] with [10 ^ k <= n / d < 10 ^ (k + 1)]. *)
Definition log10_floor (n d : Z) : Z :=
  let le10 (k : Z) := shl10 d k <=? shl10 n (- k) in
  let k0 := ((Z.log2 n - Z.log2 d - 1) * 30103) / 100000 - 1 in
  let step (k : Z) := if le10 (k + 1) then k + 1 else k in
  step (step (step (step k0))).

Fixpoint drop_zeros (d j : Z) (fuel : nat) : Z * Z :=
  match fuel with
  | O => (d, j)
  | S f => if d mod 10 =? 0 then drop_zeros (d / 10) (j + 1) f else (d, j)
  end.

(** The digits [d] and exponent [j] of the nearest decimal [d * 10 ^ j]
    with the fewest digits that [nearest] reads back as [m * 2 ^ e]. *)
Fixpoint shortest (m : positive) (e : Z) (k : Z) (p : Z) (fuel : nat) : Z * Z :=
  let n := shl (Zpos m) e in
  let d := shl 1 (- e) in
  let j := k - p + 1 in
  let digits := half_even (shl10 n (- j)) (shl10 d j) in
  match fuel with
  | O => (digits, j)
  | S f =>
      match nearest false (shl10 digits j) (shl10 1 (- j)) with
      | Fin _ m' e' =>
          if (Pos.eqb m m' && (e =? e'))%bool then (digits, j)
          else shortest m e k (p + 1) f
      | _ => shortest m e k (p + 1) f
      end
  end.

Fixpoint zeros (n : nat) : string :=
  match n with
  | O => EmptyString
  | S n' => String "0"%char (zeros n')
  end.

Definition take (n : nat) (s : string) : string := String.substring 0 n s.

(** [repr(x)], which is also [str(x)]. *)
Definition to_text (x : t) : string :=
  match x with
  | Zero neg => if neg then "-0.0" else "0.0"
  | Inf neg => if neg then "-inf" else "inf"
  | Fin neg m e =>
      let k := log10_floor (shl (Zpos m) e) (shl 1 (- e)) in
      let '(d0, j0) := shortest m e k 1 16 in
      let '(d, j) := drop_zeros d0 j0 400 in
      let ds := PyInt.to_text d in
      let len := Z.of_nat (String.length ds) in
      let point := len + j in
      let body :=
        if ((16 <? point) || (point <? -3))%bool then
          let x10 := point - 1 in
          let mant :=
            if len =? 1 then ds
            else take 1 ds ++ "." ++ PyStr.drop 1 ds in
          let ex := PyInt.to_text (Z.abs x10) in
          mant ++ "e" ++ (if x10 <? 0 then "-" else "+")
               ++ (if Z.abs x10 <? 10 then "0" else "") ++ ex
        else if point <=? 0 then "0." ++ zeros (Z.to_nat (- point)) ++ ds
        else if len <=? point then ds ++ zeros (Z.to_nat (point - len)) ++ ".0"
        else take (Z.to_nat point) ds ++ "." ++ PyStr.drop (Z.to_nat point) ds in
      (if neg then "-" else "") ++ body
  end.

End PyFloat.

(** ** Values: what a parsed document is made of *)

#[warnings="-register-all"]
Inductive value : Type :=
| VNone
| VInt (n : Z)
| VFloat (x : PyFloat.t)
| VStr (s : string)
| VList (items : list value)
| VDict (entries : list (string * value)).

(** A dictionary with string keys, in insertion order. *)
Definition dict : Type := list (string * value).

(** Induction on values, with the hypothesis for every element of a
    list and every field of a dictionary. *)
Fixpoint value_nested_ind (P : value -> Prop)
    (HNone : P VNone)
    (HInt : forall n, P (VInt n))
    (HFloat : forall x, P (VFloat x))
    (HStr : forall s, P (VStr s))
    (HList : forall items, Forall P items -> P (VList items))
    (HDict : forall entries,
        Forall (fun kv => P (snd kv)) entries -> P (VDict entries))
    (v : value) : P v :=
  match v with
  | VNone => HNone
  | VInt n => HInt n
  | VFloat x => HFloat x
  | VStr s => HStr s
  | VList items =>
      HList items
        ((fix all (l : list value) : Forall P l :=
            match l with
            | [] => Forall_nil P
            | x :: r =>
                Forall_cons x
                  (value_nested_ind P HNone HInt HFloat HStr HList HDict x)
                  (all r)
            end) items)
  | VDict entries =>
      HDict entries
        ((fix all (l : list (string * value))
            : Forall (fun kv => P (snd kv)) l :=
            match l with
            | [] => Forall_nil _
            | kv :: r =>
                Forall_cons kv
                  (value_nested_ind P HNone HInt HFloat HStr HList HDict
                     (snd kv))
                  (all r)
            end) entries)
  end.

Module Dict.

(** [d.get(key)]. *)
Fixpoint get (key : string) (d : dict) : option value :=
  match d with
  | [] => None
  | (k, v) :: rest => if String.eqb key k then Some v else get key rest
  end.

(** [d.get(key, default)]. *)
Definition get_default (key : string) (default : value) (d : dict) : value :=
  match get key d with
  | Some v => v
  | None => default
  end.

(** [d[key] = v]: a present key keeps its place, a new one goes last. *)
Fixpoint set (key : string) (v : value) (d : dict) : dict :=
  match d with
  | [] => [(key, v)]
  | (k, w) :: rest =>
      if String.eqb key k then (k, v) :: rest else (k, w) :: set key v rest
  end.

(** [d.update(other)]. *)
Definition update (d other : dict) : dict :=
  fold_left (fun acc kv => set (fst kv) (snd kv) acc) other d.

Definition keys (d : dict) : list string := map fst d.

End Dict.

Module Py.

Definition hex_digit (n : N) : ascii :=
  if N.ltb n 10 then ascii_of_N (48 + n) else ascii_of_N (87 + n).

(** A character Python prints as it is inside [repr]. *)
Definition printable (c : ascii) : bool :=
  (PyStr.in_range 32 126 c
   || (PyStr.in_range 161 255 c && negb (N.eqb (PyStr.code c) 173)))%bool.

Fixpoint escape (quote : ascii) (s : string) : string :=
  match s with
  | EmptyString => EmptyString
  | String c t =>
      let rest := escape quote t in
      if (Ascii.eqb c quote || Ascii.eqb c "\"%char)%bool
      then String "\"%char (String c rest)
      else if Ascii.eqb c "009"%char then "\t" ++ rest
      else if Ascii.eqb c "010"%char then "\n" ++ rest
      else if Ascii.eqb c "013"%char then "\r" ++ rest
      else if printable c then String c rest
      else
        "\x" ++ String (hex_digit (PyStr.code c / 16))
                   (String (hex_digit (PyStr.code c mod 16)) rest)
  end.

(** [repr(s)] for a string: single quotes, unless the text holds a
    single quote and no double quote. *)
Definition repr_text (s : string) : string :=
  let quote :=
    if (PyStr.has_char "'"%char s && negb (PyStr.has_char "034"%char s))%bool
    then "034"%char else "'"%char in
  String quote (escape quote s ++ String quote EmptyString).

Fixpoint repr (v : value) : string :=
  match v with
  | VNone => "None"
  | VInt n => PyInt.to_text n
  | VFloat x => PyFloat.to_text x
  | VStr s => repr_text s
  | VList items => "[" ++ String.concat ", " (map repr items) ++ "]"
  | VDict entries =>
      "{" ++ String.concat ", "
               (map (fun kv => let '(k, w) := kv in
                               repr_text k ++ ": " ++ repr w) entries)
          ++ "}"
  end.

(** [str(v)]. *)
Definition str (v : value) : string :=
  match v with
  | VStr s => s
  | _ => repr v
  end.

(** [int(v)]. *)
Definition int (v : value) : outcome Z :=
  match v with
  | VInt n => Ok n
  | VFloat x => PyFloat.trunc x
  | VStr s =>
      match PyInt.of_text s with
      | Some n => Ok n
      | None => Raise ValueError
      end
  | VNone | VList _ | VDict _ => Raise TypeError
  end.

(** [float(v)]; a string is read by [PyFloat.of_plain_text]. *)
Definition float (v : value) : outcome PyFloat.t :=
  match v with
  | VInt n => PyFloat.of_int n
  | VFloat x => Ok x
  | VStr s => PyFloat.of_plain_text s
  | VNone | VList _ | VDict _ => Raise TypeError
  end.

(** The truth value of [v] in a condition. *)
Definition truthy (v : value) : bool :=
  match v with
  | VNone | VInt 0 | VFloat (PyFloat.Zero _) | VStr EmptyString
  | VList [] | VDict [] => false
  | _ => true
  end.

(** [try: body except (those exceptions): handler]. *)
Definition catch {A : Type} (body : outcome A) (caught : exn -> bool)
    (handler : outcome A) : outcome A :=
  match body with
  | Ok a => Ok a
  | Raise e => if caught e then handler else Raise e
  end.

(** [l[-k]] for [k >= 1]. *)
Definition from_end {A : Type} (k : nat) (l : list A) : outcome A :=
  match nth_error (List.rev l) (Nat.pred k) with
  | Some a => Ok a
  | None => Raise IndexError
  end.

(** [l[-k:]]. *)
Definition last_n {A : Type} (k : nat) (l : list A) : list A :=
  skipn (List.length l - k) l.

End Py.

(** ** Regular expressions of the platform table

    The patterns of [ENV_PATTERNS] are literal texts and alternatives
    of literal texts, searched with [re.IGNORECASE]. *)

Inductive regex : Type :=
| Lit (s : string)
| Alt (a b : regex).

Module Re.

(** The literal [p] stands at the start of [s], letter case ignored. *)
Fixpoint starts_with_i (p s : string) : bool :=
  match p, s with
  | EmptyString, _ => true
  | String _ _, EmptyString => false
  | String a p', String b s' =>
      (Ascii.eqb (PyStr.lower_char a) (PyStr.lower_char b)
       && starts_with_i p' s')%bool
  end.

Fixpoint match_here_i (r : regex) (s : string) : bool :=
  match r with
  | Lit p => starts_with_i p s
  | Alt a b => (match_here_i a s || match_here_i b s)%bool
  end.

(** [re.search(r, s, re.IGNORECASE)] as a truth value. *)
Fixpoint search_i (r : regex) (s : string) : bool :=
  (match_here_i r s
   || match s with
      | EmptyString => false
      | String _ t => search_i r t
      end)%bool.

(** The first place where the literal [p] stands in [s]: the text
    before it and the text after it. *)
Fixpoint cut_at (p s : string) : option (string * string) :=
  if String.prefix p s then Some (EmptyString, PyStr.drop (String.length p) s)
  else
    match s with
    | EmptyString => None
    | String c t =>
        match cut_at p t with
        | Some (before, after) => Some (String c before, after)
        | None => None
        end
    end.

(** Group 1 of [re.search(start + '(.*?)' + stop, s, re.DOTALL)] for
    literal [start] and [stop]: the match begins at the first [start]
    and the lazy group runs to the first [stop] after it. *)
Definition search_between (start stop s : string) : option string :=
  match cut_at start s with
  | Some (_, rest) =>
      match cut_at stop rest with
      | Some (group, _) => Some group
      | None => None
      end
  | None => None
  end.

End Re.

(** ** The parser module *)

(** Platform detection patterns, in declaration order. *)
Definition ENV_PATTERNS : list (string * (regex * regex)) :=
  [ ("huawei_vrp",
     (Alt (Lit "Huawei Versatile Routing Platform") (Lit "VRP (R)"),
      Lit "display"));
    ("huawei_yunshan", (Lit "Huawei YunShan OS", Lit "display"));
    ("cisco_ios", (Lit "Cisco IOS", Lit "show"));
    ("cisco_nxos",
     (Alt (Lit "Cisco Nexus Operating System") (Lit "NX-OS"), Lit "show"));
    ("aruba_aoscx", (Lit "ArubaOS-CX", Lit "show")) ].

(** Templates per platform and command. *)
Definition TEXTFSM_TEMPLATES : list (string * list (string * string)) :=
  [ ("cisco_ios",
     [ ("show version", "show_version");
       ("show inventory", "show_inventory");
       ("show interfaces", "show_interfaces");
       ("show processes memory sorted", "show_processes_memory_sorted");
       ("show processes cpu history", "show_processes_cpu_history") ]);
    ("cisco_nxos",
     [ ("show version", "show_version");
       ("show inventory", "show_inventory");
       ("show interface", "show_interface");
       ("show system resources", "show_system_resources") ]);
    ("aruba_aoscx",
     [ ("show system", "show_system");
       ("show inventory", "show_inventory");
       ("show interface", "show_interface") ]);
    ("huawei_vrp",
     [ ("display version", "display_version");
       ("display interface", "display_interface");
       ("display cpu-usage", "display_cpu_usage");
       ("display memory usage", "display_memory_usage");
       ("display device", "display_device") ]);
    ("huawei_yunshan",
     [ ("display version", "display_version");
       ("display interface", "display_interface");
       ("display cpu-usage", "display_cpu_usage");
       ("display memory usage", "display_memory_usage");
       ("display device", "display_device") ]) ].

Definition CISCO_CPU_START_REGEX : string := "last 60 minutes".
Definition CISCO_CPU_END_REGEX : string := "last 72 hours".

(** One entry of the table holds for [text]: the platform pattern is
    found, and then the command pattern is found. *)
Definition signature_matches (patterns : regex * regex) (text : string) : bool :=
  if Re.search_i (fst patterns) text
  then Re.search_i (snd patterns) text
  else false.

(** The loop of [detect_platform] over the entries still to visit. *)
Fixpoint detect_in (table : list (string * (regex * regex))) (text : string)
    : string :=
  match table with
  | [] => "unknown"
  | (platform_key, patterns) :: rest =>
      if signature_matches patterns text then platform_key
      else detect_in rest text
  end.

Definition detect_platform (text : string) : string :=
  detect_in ENV_PATTERNS text.

(** The template engine: [parse_output(platform, command, data)] gives
    a list of records or raises. *)
Definition engine : Type := string -> string -> string -> outcome (list dict).

(** [parse_command]: any exception of the engine yields the empty list. *)
Definition parse_command (parse_output : engine) (platform command data : string)
    : value :=
  match parse_output platform command data with
  | Ok records => VList (map VDict records)
  | Raise _ => VList []
  end.

Definition is_value_error (e : exn) : bool :=
  match e with ValueError => true | _ => false end.

Definition is_value_or_type_error (e : exn) : bool :=
  match e with ValueError | TypeError => true | _ => false end.

(** [[int(val) for val in values if val.isdigit()]]. *)
Fixpoint digit_values (values : list string) : outcome (list Z) :=
  match values with
  | [] => Ok []
  | val :: rest =>
      if PyStr.isdigit val then
        n <- Py.int (VStr val);;
        ns <- digit_values rest;;
        Ok (n :: ns)
      else digit_values rest
  end.

(** [max(l)] for a list with first element [n]. *)
Definition maximum (n : Z) (rest : list Z) : Z := fold_left Z.max rest n.

(** The text between the two markers, past its first two newlines. *)
Definition cpu_chart (group1 : string) : string :=
  last (PyStr.split_nl 2 group1) EmptyString.

(** The buckets read off the two raster rows of the chart. *)
Definition cpu_buckets (arr_first_row arr_second_row : list string)
    : list string :=
  match arr_first_row, arr_second_row with
  | [], _ :: _ =>
      filter (fun c => negb (String.eqb c EmptyString))
             (map PyStr.strip arr_second_row)
  | _ :: _, _ :: _ =>
      map (fun ab => PyStr.strip (fst ab ++ snd ab))
          (combine arr_first_row arr_second_row)
  | _, _ => []
  end.

(** The lines among the last ten before the final three newlines of
    the chart that hold a [#]. *)
Definition avg_raw_line (group1 : string) : list string :=
  let cpu_row_avg_section :=
    Py.last_n 10
      (PyStr.splitlines (hd EmptyString (PyStr.rsplit_nl 3 (cpu_chart group1))))
  in
  filter (PyStr.has_char "#"%char) cpu_row_avg_section.

(** The [cpu_avg] text for a line of the legend. *)
Definition cpu_avg_of_line (line : string) : string :=
  let extracted_avg := PyStr.filter_chars PyStr.is_ascii_digit line in
  match Py.int (VStr extracted_avg) with
  | Ok numeric_avg =>
      if numeric_avg <? 10 then "1" else PyInt.to_text numeric_avg
  | Raise _ => "Error parsing average CPU"
  end.

Definition extract_cisco_cpu_usage (text : string) : outcome dict :=
  let cpu_data : dict := [("cpu_max", VStr "N/A"); ("cpu_avg", VStr "N/A")] in
  match Re.search_between CISCO_CPU_START_REGEX CISCO_CPU_END_REGEX text with
  | Some group1 =>
      let cpu_history_section :=
        hd EmptyString (PyStr.rsplit_nl 13 (cpu_chart group1)) in
      cpu_first_row <- Py.from_end 2 (PyStr.splitlines cpu_history_section);;
      cpu_second_row <- Py.from_end 1 (PyStr.splitlines cpu_history_section);;
      let arr_first_row := PyStr.chars (PyStr.drop 4 cpu_first_row) in
      let arr_second_row := PyStr.chars (PyStr.drop 4 cpu_second_row) in
      let cpu_usage_values := cpu_buckets arr_first_row arr_second_row in
      cpu_data <-
        Py.catch
          (valid_cpu_values <- digit_values cpu_usage_values;;
           match valid_cpu_values with
           | n :: rest =>
               Ok (Dict.set "cpu_max" (VStr (PyInt.to_text (maximum n rest)))
                            cpu_data)
           | [] => Ok (Dict.set "cpu_max" (VStr "No numeric CPU max found")
                                cpu_data)
           end)
          is_value_error
          (Ok (Dict.set "cpu_max" (VStr "Error parsing CPU max") cpu_data));;
      match avg_raw_line group1 with
      | line :: _ =>
          Ok (Dict.set "cpu_avg" (VStr (cpu_avg_of_line line)) cpu_data)
      | [] => Ok (Dict.set "cpu_avg" (VStr "1") cpu_data)
      end
  | None =>
      Ok (Dict.set "cpu_avg" (VStr "Cannot find average CPU (regex failed)")
            (Dict.set "cpu_max" (VStr "Cannot find max CPU (regex failed)")
               cpu_data))
  end.

(** [round((used / total) * 100, 2)]. *)
Definition percent (memory_used memory_total : Z) : outcome value :=
  q <- PyFloat.truediv memory_used memory_total;;
  Ok (VFloat (PyFloat.round2 (PyFloat.mul_int q 100))).

Definition calculate_cisco_memory_usage (memory_data : value) : outcome dict :=
  match memory_data with
  | VDict d =>
      Py.catch
        (memory_total <- Py.int (Dict.get_default "memory_total" (VInt 0) d);;
         memory_used <- Py.int (Dict.get_default "memory_used" (VInt 0) d);;
         memory_percent <-
           (if memory_total =? 0 then Ok (VInt 0)
            else percent memory_used memory_total);;
         Ok [("memory_usage_percent", memory_percent)])
        is_value_or_type_error
        (Ok [("memory_usage_percent", VStr "N/A")])
  | _ => Ok [("memory_usage_percent", VStr "N/A")]
  end.

Definition process_aruba_system_data (system_data : value) : dict :=
  let result : dict :=
    [("cpu_max", VStr "N/A"); ("cpu_avg", VStr "N/A");
     ("memory_usage_percent", VStr "N/A")] in
  match system_data with
  | VDict d =>
      let result :=
        match Dict.get "cpu" d with
        | Some v =>
            let cpu_value := PyStr.strip (Py.str v) in
            if PyStr.isdigit cpu_value
            then Dict.set "cpu_avg" (VStr cpu_value)
                   (Dict.set "cpu_max" (VStr cpu_value) result)
            else result
        | None => result
        end in
      match Dict.get "memory_usage_percent" d with
      | Some v =>
          let memory_percent_value := PyStr.strip (Py.str v) in
          if PyStr.isdigit memory_percent_value
          then Dict.set "memory_usage_percent" (VStr memory_percent_value) result
          else result
      | None => result
      end
  | _ => result
  end.

(** [s.replace('.', '', 1)]. *)
Fixpoint remove_first_point (s : string) : string :=
  match s with
  | EmptyString => EmptyString
  | String c t => if Ascii.eqb c "."%char then t else String c (remove_first_point t)
  end.

Definition cpu_keys : list string :=
  ["cpu_usage_rate"; "cpu_usage_average"; "cpu_usage"].

(** The test that opens the conversion of one probed field. *)
Definition looks_numeric (v : value) : bool :=
  PyStr.isdigit (remove_first_point (Py.str v)).

(** The loop of [process_huawei_cpu_data] over the keys still to probe. *)
Fixpoint probe_cpu_keys (keys : list string) (cpu_data : dict) (result : dict)
    : outcome dict :=
  match keys with
  | [] => Ok result
  | key :: rest =>
      match Dict.get key cpu_data with
      | Some v =>
          if looks_numeric v then
            match (x <- Py.float v;; PyFloat.trunc x) with
            | Ok cpu_val =>
                Ok (Dict.set "cpu_avg" (VStr (PyInt.to_text cpu_val)) result)
            | Raise ValueError => probe_cpu_keys rest cpu_data result
            | Raise e => Raise e
            end
          else probe_cpu_keys rest cpu_data result
      | None => probe_cpu_keys rest cpu_data result
      end
  end.

Definition process_huawei_cpu_data (cpu_data : value) : outcome dict :=
  let result : dict := [("cpu_avg", VStr "N/A")] in
  match cpu_data with
  | VDict d => probe_cpu_keys cpu_keys d result
  | _ => Ok result
  end.

Definition process_huawei_memory_data (memory_data : value) : outcome dict :=
  let result : dict := [("memory_usage_percent", VStr "N/A")] in
  match memory_data with
  | VDict d =>
      Py.catch
        (memory_total <-
           Py.int (Dict.get_default "total_memory"
                     (Dict.get_default "memory_total" (VInt 0) d) d);;
         memory_used <-
           Py.int (Dict.get_default "used_memory"
                     (Dict.get_default "memory_used" (VInt 0) d) d);;
         if 0 <? memory_total then
           memory_percent <- percent memory_used memory_total;;
           Ok (Dict.set "memory_usage_percent" memory_percent result)
         else Ok result)
        is_value_or_type_error
        (Ok result)
  | _ => Ok result
  end.

(** *** Deduplication *)

(** What a hashable scalar is compared by: [None], a number by its
    exact value (so that [1], [1.0] and the two zeros agree), a text. *)
Inductive atom : Type :=
| ANone
| ANum (x : PyFloat.t)
| AStr (s : string).

(** What an element of a deduplicated list is compared by: a record by
    the tuple of its sorted items, anything else by itself. *)
Inductive hkey : Type :=
| HScalar (a : atom)
| HTuple (items : list (string * atom)).

Definition number_key (x : PyFloat.t) : PyFloat.t :=
  match x with
  | PyFloat.Zero _ => PyFloat.Zero false
  | PyFloat.Fin neg m e =>
      let '(m', e') := PyFloat.odd_part m e in PyFloat.Fin neg m' e'
  | PyFloat.Inf neg => PyFloat.Inf neg
  end.

(** [hash(v)] succeeds on scalars; lists and dictionaries raise. *)
Definition atom_of (v : value) : outcome atom :=
  match v with
  | VNone => Ok ANone
  | VInt n => Ok (ANum (number_key (PyFloat.of_scaled (n <? 0) (Z.abs n) 0)))
  | VFloat x => Ok (ANum (number_key x))
  | VStr s => Ok (AStr s)
  | VList _ | VDict _ => Raise TypeError
  end.

Fixpoint atoms_of (items : list (string * value))
    : outcome (list (string * atom)) :=
  match items with
  | [] => Ok []
  | (k, v) :: rest =>
      a <- atom_of v;;
      r <- atoms_of rest;;
      Ok ((k, a) :: r)
  end.

Fixpoint insert_item (kv : string * value) (sorted : list (string * value))
    : list (string * value) :=
  match sorted with
  | [] => [kv]
  | kv' :: rest =>
      if String.leb (fst kv) (fst kv') then kv :: sorted
      else kv' :: insert_item kv rest
  end.

(** [sorted(item.items())]: the keys of a dictionary differ, so the
    order of the pairs is the order of their keys. *)
Definition sorted_items (d : dict) : list (string * value) :=
  fold_right insert_item [] d.

(** The key under which [item] enters the set [seen]. *)
Definition item_key (item : value) : outcome hkey :=
  match item with
  | VDict d =>
      t <- atoms_of (sorted_items d);;
      Ok (HTuple t)
  | _ =>
      a <- atom_of item;;
      Ok (HScalar a)
  end.

Definition float_eq_dec (x y : PyFloat.t) : {x = y} + {x <> y}.
Proof.
  decide equality;
    try apply Bool.bool_dec; try apply Z.eq_dec; try apply Pos.eq_dec.
Defined.

Definition atom_eq_dec (x y : atom) : {x = y} + {x <> y}.
Proof.
  decide equality; [apply float_eq_dec | apply String.string_dec].
Defined.

Definition hkey_eq_dec (x y : hkey) : {x = y} + {x <> y}.
Proof.
  decide equality; [apply atom_eq_dec |].
  apply list_eq_dec. decide equality;
    [apply atom_eq_dec | apply String.string_dec].
Defined.

(** [k in seen]. *)
Definition seen_has (k : hkey) (seen : list hkey) : bool :=
  existsb (fun k' => if hkey_eq_dec k k' then true else false) seen.

(** The inner loop: the elements of [value] not yet in [seen]. *)
Fixpoint dedup_items (seen : list hkey) (items : list value)
    : outcome (list value) :=
  match items with
  | [] => Ok []
  | item :: rest =>
      k <- item_key item;;
      if seen_has k seen then dedup_items seen rest
      else
        r <- dedup_items (k :: seen) rest;;
        Ok (item :: r)
  end.

Definition is_dedup_key (key : string) : bool :=
  (String.eqb (PyStr.lower key) "serial"
   || String.eqb (PyStr.lower key) "hardware")%bool.

(** The function mutates its argument; the embedding returns the
    document it leaves behind. *)
Fixpoint deduplicate_serial_and_hardware (data : value) : outcome value :=
  match data with
  | VDict entries =>
      entries' <-
        (fix each (es : list (string * value)) : outcome (list (string * value)) :=
           match es with
           | [] => Ok []
           | (key, v) :: rest =>
               v' <-
                 match is_dedup_key key, v with
                 | true, VList items =>
                     l <- dedup_items [] items;;
                     Ok (VList l)
                 | _, _ => deduplicate_serial_and_hardware v
                 end;;
               rest' <- each rest;;
               Ok ((key, v') :: rest')
           end) entries;;
      Ok (VDict entries')
  | VList items =>
      items' <-
        (fix each (l : list value) : outcome (list value) :=
           match l with
           | [] => Ok []
           | item :: rest =>
               item' <- deduplicate_serial_and_hardware item;;
               rest' <- each rest;;
               Ok (item' :: rest')
           end) items;;
      Ok (VList items')
  | _ => Ok data
  end.

(** The comparison of the loop: two elements are one for it when they
    enter the set [seen] under the same key. *)
Definition same_item (a b : value) : bool :=
  match item_key a, item_key b with
  | Ok ka, Ok kb => if hkey_eq_dec ka kb then true else false
  | _, _ => false
  end.

(** *** The deduplication as the specification words it *)

(** Two numbers [m1 * 2 ^ e1] and [m2 * 2 ^ e2], each with its sign,
    have the same value: both are written over the smaller of the two
    exponents and compared as integers. *)
Definition same_number (neg1 : bool) (m1 e1 : Z) (neg2 : bool) (m2 e2 : Z)
    : bool :=
  (Bool.eqb neg1 neg2
   && (m1 * 2 ^ (e1 - Z.min e1 e2) =? m2 * 2 ^ (e2 - Z.min e1 e2)))%bool.

(** [x == y] on floats: the two zeros are equal. *)
Definition float_equal (x y : PyFloat.t) : bool :=
  match x, y with
  | PyFloat.Zero _, PyFloat.Zero _ => true
  | PyFloat.Fin neg1 m1 e1, PyFloat.Fin neg2 m2 e2 =>
      same_number neg1 (Zpos m1) e1 neg2 (Zpos m2) e2
  | PyFloat.Inf neg1, PyFloat.Inf neg2 => Bool.eqb neg1 neg2
  | _, _ => false
  end.

(** [n == x] for an integer and a float: the comparison is exact. *)
Definition int_equal_float (n : Z) (x : PyFloat.t) : bool :=
  match x with
  | PyFloat.Zero _ => n =? 0
  | PyFloat.Fin neg m e => same_number (n <? 0) (Z.abs n) 0 neg (Zpos m) e
  | PyFloat.Inf _ => false
  end.

(** Raw equality of two scalars, [a == b]: [None] with itself, texts
    by their characters, numbers by their values. *)
Definition raw_equal (a b : value) : bool :=
  match a, b with
  | VNone, VNone => true
  | VStr s, VStr t => String.eqb s t
  | VInt n, VInt m => n =? m
  | VFloat x, VFloat y => float_equal x y
  | VInt n, VFloat y => int_equal_float n y
  | VFloat x, VInt m => int_equal_float m x
  | _, _ => false
  end.

(** The record [d] has the field of [kv] with an equal value. *)
Definition has_pair (kv : string * value) (d : dict) : bool :=
  existsb
    (fun kv' =>
       (String.eqb (fst kv) (fst kv') && raw_equal (snd kv) (snd kv'))%bool)
    d.

(** Two records have the same field/value pairs, in whatever order
    their fields come. *)
Definition same_pairs (a b : dict) : bool :=
  (forallb (fun kv => has_pair kv b) a
   && forallb (fun kv => has_pair kv a) b)%bool.

(** Two elements of a list compare equal: records by their field/value
    pairs, scalars by raw equality; a record equals no scalar. *)
Definition equal_element (a b : value) : bool :=
  match a, b with
  | VDict da, VDict db => same_pairs da db
  | VDict _, _ | _, VDict _ => false
  | _, _ => raw_equal a b
  end.

(** The keys of a list differ from one another. *)
Fixpoint no_repeat (keys : list string) : bool :=
  match keys with
  | [] => true
  | k :: rest => (negb (existsb (String.eqb k) rest) && no_repeat rest)%bool
  end.

(** Every dictionary of [v] has distinct keys, as every dictionary of
    the interpreter has. *)
Fixpoint distinct_keys (v : value) : bool :=
  match v with
  | VDict entries =>
      (no_repeat (map fst entries)
       && forallb (fun kv => let '(_, w) := kv in distinct_keys w) entries)%bool
  | VList items => forallb distinct_keys items
  | _ => true
  end.

(** The elements that equal no element before them, in their order. *)
Fixpoint first_occurrences (earlier items : list value) : list value :=
  match items with
  | [] => []
  | item :: rest =>
      if existsb (equal_element item) earlier
      then first_occurrences (item :: earlier) rest
      else item :: first_occurrences (item :: earlier) rest
  end.

(** The document with every list under a key "serial" or "hardware"
    cut down to its first occurrences. *)
Fixpoint deduplicated (data : value) : value :=
  match data with
  | VDict entries =>
      VDict (map (fun kv =>
                    let '(key, v) := kv in
                    match is_dedup_key key, v with
                    | true, VList items => (key, VList (first_occurrences [] items))
                    | _, _ => (key, deduplicated v)
                    end) entries)
  | VList items => VList (map deduplicated items)
  | _ => data
  end.

(** *** The document of one capture *)

(** The dictionary [parse_network_file] returns: its three keys. *)
Record document : Type := {
  platform : string;
  data : dict;
  filename : string
}.

(** [TEXTFSM_TEMPLATES.get(device_platform, {})]. *)
Fixpoint templates_in (table : list (string * list (string * string)))
    (device_platform : string) : list (string * string) :=
  match table with
  | [] => []
  | (k, commands) :: rest =>
      if String.eqb device_platform k then commands
      else templates_in rest device_platform
  end.

Definition templates_for (device_platform : string) : list (string * string) :=
  templates_in TEXTFSM_TEMPLATES device_platform.

(** The first record of a command's table, under the test
    [l and isinstance(l, list) and l[0]]. *)
Definition first_record (command : string) (parsed : dict) : option value :=
  match Dict.get_default command (VList []) parsed with
  | VList (first :: _) => if Py.truthy first then Some first else None
  | _ => None
  end.

(** [parsed[command][0].update(other)]; the engine's records are
    dictionaries, the only elements the update is written for. *)
Definition update_first_record (command : string) (other : dict) (parsed : dict)
    : dict :=
  match Dict.get command parsed with
  | Some (VList (VDict r :: rest)) =>
      Dict.set command (VList (VDict (Dict.update r other) :: rest)) parsed
  | _ => parsed
  end.

(** [key in record] for a record of the engine. *)
Definition field (key : string) (record : value) : option value :=
  match record with
  | VDict d => Dict.get key d
  | _ => None
  end.

(** The platform branch of [parse_network_file]: the tables and the
    summary after the CPU and memory extraction. *)
Definition cpu_memory_branch (device_platform file_content : string)
    (parsed_data_for_file device_specific_cpu_mem_data : dict)
    : outcome (dict * dict) :=
  if String.eqb device_platform "cisco_ios" then
    cisco_cpu_results <- extract_cisco_cpu_usage file_content;;
    let summary := Dict.update device_specific_cpu_mem_data cisco_cpu_results in
    match first_record "show processes memory sorted" parsed_data_for_file with
    | Some first =>
        calculated_mem <- calculate_cisco_memory_usage first;;
        Ok (update_first_record "show processes memory sorted" calculated_mem
              parsed_data_for_file,
            Dict.set "memory_usage_percent"
              (Dict.get_default "memory_usage_percent" VNone calculated_mem)
              summary)
    | None => Ok (parsed_data_for_file, summary)
    end
  else if String.eqb device_platform "cisco_nxos" then
    match first_record "show system resources" parsed_data_for_file with
    | Some sys_data =>
        let summary :=
          match field "cpu_usage_percent" sys_data with
          | Some v =>
              Dict.set "cpu_max" (VStr (Py.str v))
                (Dict.set "cpu_avg" (VStr (Py.str v))
                   device_specific_cpu_mem_data)
          | None => device_specific_cpu_mem_data
          end in
        let summary :=
          match field "memory_usage_percent" sys_data with
          | Some v => Dict.set "memory_usage_percent" (VStr (Py.str v)) summary
          | None => summary
          end in
        Ok (parsed_data_for_file, summary)
    | None => Ok (parsed_data_for_file, device_specific_cpu_mem_data)
    end
  else if String.eqb device_platform "aruba_aoscx" then
    match first_record "show system" parsed_data_for_file with
    | Some first =>
        let aruba_cpu_mem_results := process_aruba_system_data first in
        Ok (update_first_record "show system" aruba_cpu_mem_results
              parsed_data_for_file,
            Dict.update device_specific_cpu_mem_data aruba_cpu_mem_results)
    | None => Ok (parsed_data_for_file, device_specific_cpu_mem_data)
    end
  else if (String.eqb device_platform "huawei_vrp"
           || String.eqb device_platform "huawei_yunshan")%bool then
    after_cpu <-
      match first_record "display cpu-usage" parsed_data_for_file with
      | Some first =>
          huawei_cpu_results <- process_huawei_cpu_data first;;
          Ok (update_first_record "display cpu-usage" huawei_cpu_results
                parsed_data_for_file,
              Dict.update device_specific_cpu_mem_data huawei_cpu_results)
      | None => Ok (parsed_data_for_file, device_specific_cpu_mem_data)
      end;;
    let '(parsed, summary) := after_cpu in
    match first_record "display memory usage" parsed with
    | Some first =>
        huawei_mem_results <- process_huawei_memory_data first;;
        Ok (update_first_record "display memory usage" huawei_mem_results parsed,
            Dict.update summary huawei_mem_results)
    | None => Ok (parsed, summary)
    end
  else Ok (parsed_data_for_file, device_specific_cpu_mem_data).

Definition parse_network_file (parse_output : engine)
    (file_content filename : string) : outcome document :=
  let device_platform := detect_platform file_content in
  let device_specific_cpu_mem_data : dict :=
    [("cpu_max", VStr "N/A"); ("cpu_avg", VStr "N/A");
     ("memory_usage_percent", VStr "N/A")] in
  match templates_for device_platform with
  | [] =>
      Ok {| platform := device_platform;
            data := [("Error",
                      VStr ("No templates configured for " ++ device_platform))];
            filename := filename |}
  | platform_specific_templates =>
      let parsed_data_for_file :=
        fold_left
          (fun parsed entry =>
             Dict.set (fst entry)
               (parse_command parse_output device_platform (fst entry)
                  file_content)
               parsed)
          platform_specific_templates [] in
      branch <- cpu_memory_branch device_platform file_content
                  parsed_data_for_file device_specific_cpu_mem_data;;
      let '(parsed, summary) := branch in
      deduplicated_data <- deduplicate_serial_and_hardware (VDict parsed);;
      match deduplicated_data with
      | VDict parsed' =>
          Ok {| platform := device_platform;
                data := Dict.set "Calculated_CPU_Memory" (VDict summary) parsed';
                filename := filename |}
      | _ => Raise TypeError
      end
  end.

(** ** Auxiliary definitions for the properties *)

(** The summary holds its three keys, in their order, each with a
    value that is not [None]. *)
Definition summary_shape (summary : dict) : Prop :=
  exists cpu_max cpu_avg memory_usage_percent,
    summary = [("cpu_max", cpu_max); ("cpu_avg", cpu_avg);
               ("memory_usage_percent", memory_usage_percent)]
    /\ cpu_max <> VNone /\ cpu_avg <> VNone /\ memory_usage_percent <> VNone.

Definition newline : string := String "010"%char EmptyString.

(** The text between the markers of a capture: two header lines, the
    two raster rows, the bars with the line of the average, and the
    three lines of the time axis. *)
Definition cpu_history_group : string :=
  String.concat newline
    [ ""; "";
      "    1 2";
      "    538";
      "100"; " 90"; " 80"; " 70"; " 60"; " 50"; " 40"; " 30"; " 20";
      " 10 ## 37";
      "   0....5....1"; "             0"; "   CPU% per minute (" ].

Definition cpu_history_text : string :=
  "Cisco IOS Software" ++ newline ++ "show processes cpu history"
  ++ newline ++ "last 60 minutes" ++ cpu_history_group ++ "last 72 hours".

(** A Huawei capture whose engine gives one CPU record and one memory
    record. *)
Definition huawei_engine : engine :=
  fun _ command _ =>
    if String.eqb command "display cpu-usage"
    then Ok [[("cpu_usage", VStr "7.9")]]
    else if String.eqb command "display memory usage"
    then Ok [[("total_memory", VStr "1000"); ("used_memory", VStr "250")]]
    else Raise ValueError.

Definition huawei_document : document :=
  {| platform := "huawei_yunshan";
     data :=
       [("display version", VList []);
        ("display interface", VList []);
        ("display cpu-usage",
         VList [VDict [("cpu_usage", VStr "7.9"); ("cpu_avg", VStr "7")]]);
        ("display memory usage",
         VList [VDict [("total_memory", VStr "1000");
                       ("used_memory", VStr "250");
                       ("memory_usage_percent",
                        VFloat (PyFloat.Fin false 25 0))]]);
        ("display device", VList []);
        ("Calculated_CPU_Memory",
         VDict [("cpu_max", VStr "N/A"); ("cpu_avg", VStr "7");
                ("memory_usage_percent", VFloat (PyFloat.Fin false 25 0))])];
     filename := "sw1.txt" |}.


(** The two loops of the function, as functions of their own. *)
Definition dedup_entry (key : string) (v : value) : outcome value :=
  match is_dedup_key key, v with
  | true, VList items =>
      l <- dedup_items [] items;;
      Ok (VList l)
  | _, _ => deduplicate_serial_and_hardware v
  end.

Fixpoint dedup_entries (es : list (string * value))
    : outcome (list (string * value)) :=
  match es with
  | [] => Ok []
  | (key, v) :: rest =>
      v' <- dedup_entry key v;;
      rest' <- dedup_entries rest;;
      Ok ((key, v') :: rest')
  end.

Fixpoint dedup_each (l : list value) : outcome (list value) :=
  match l with
  | [] => Ok []
  | item :: rest =>
      item' <- deduplicate_serial_and_hardware item;;
      rest' <- dedup_each rest;;
      Ok (item' :: rest')
  end.

(** What one run of the function leaves, on a document whose
    dictionaries have distinct keys: a second run returns it unchanged,
    and it is the document with each "serial"/"hardware" list cut down
    to its first occurrences. *)
Definition settled (v : value) : Prop :=
  distinct_keys v = true ->
  forall v',
    deduplicate_serial_and_hardware v = Ok v' ->
    deduplicate_serial_and_hardware v' = Ok v' /\ v' = deduplicated v.

(** The float that an integer equals, for the comparison of numbers. *)
Definition int_as_float (n : Z) : PyFloat.t :=
  if n =? 0 then PyFloat.Zero false
  else PyFloat.Fin (n <? 0) (Z.to_pos (Z.abs n)) 0.

(** The keys of [l] come in strictly increasing order. *)
Definition keys_increasing {A : Type} (l : list (string * A)) : Prop :=
  StronglySorted (fun a b => String.compare a b = Lt) (map fst l).

(** An inventory table whose record lists the serial A1 twice, the
    second time with its fields in the other order, and the number 1
    as an integer and as a float. *)
Definition inventory_tables : value :=
  VDict
    [("show inventory",
      VList
        [VDict
           [("name", VStr "Chassis");
            ("Serial",
             VList [VDict [("sn", VStr "A1"); ("pid", VStr "X")];
                    VDict [("pid", VStr "X"); ("sn", VStr "A1")];
                    VDict [("sn", VStr "B2"); ("pid", VStr "X")]]);
            ("hardware",
             VList [VStr "WS-C3750"; VInt 1; VStr "WS-C3750";
                    VFloat (PyFloat.Fin false 1 0)])]])].

Definition inventory_tables_deduplicated : value :=
  VDict
    [("show inventory",
      VList
        [VDict
           [("name", VStr "Chassis");
            ("Serial",
             VList [VDict [("sn", VStr "A1"); ("pid", VStr "X")];
                    VDict [("sn", VStr "B2"); ("pid", VStr "X")]]);
            ("hardware", VList [VStr "WS-C3750"; VInt 1])]])].

(** The tables as the template engine fills them: every record maps
    a field to a scalar or to a list of scalars. *)
Definition is_scalar (v : value) : bool :=
  match v with
  | VList _ | VDict _ => false
  | _ => true
  end.

Definition is_cell (v : value) : bool :=
  match v with
  | VList items => forallb is_scalar items
  | VDict _ => false
  | _ => true
  end.

Definition is_flat_record (v : value) : bool :=
  match v with
  | VDict fields => forallb (fun kv => is_cell (snd kv)) fields
  | _ => false
  end.

Definition flat_tables (tables : dict) : bool :=
  forallb
    (fun kv =>
       match snd kv with
       | VList records => forallb is_flat_record records
       | _ => false
       end)
    tables.

(** The place of a platform in the signature table, and 5 for a name
    that is not in it. *)
Fixpoint rank_in (keys : list string) (name : string) : nat :=
  match keys with
  | [] => 0
  | k :: rest => if String.eqb name k then 0 else S (rank_in rest name)
  end.

Definition platform_rank (name : string) : nat :=
  rank_in (map fst ENV_PATTERNS) name.

(** What a bucket of the chart is: the strip of one character of the
    second row, or of a character of each row put together. *)
Definition bucket_shaped (val : string) : Prop :=
  (exists c, val = PyStr.strip (String c EmptyString))
  \/ (exists a b, val = PyStr.strip (String a (String b EmptyString))).

(** A bucket that passes [isdigit] and [int] reads as 0..99. *)
Definition bucket_ok (val : string) : bool :=
  if PyStr.isdigit val then
    match PyInt.of_text val with
    | Some n => ((0 <=? n) && (n <=? 99))%bool
    | None => true
    end
  else true.

Definition all_ascii : list ascii := map ascii_of_nat (seq 0 256).

(** The texts [cpu_max] can hold once the window is found. *)
Definition cpu_max_text (s : string) : Prop :=
  s = "No numeric CPU max found"
  \/ s = "Error parsing CPU max"
  \/ exists n, 0 <= n <= 99 /\ s = PyInt.to_text n.

(** The texts [cpu_avg] can hold once the window is found. *)
Definition cpu_avg_text (s : string) : Prop :=
  s = "1"
  \/ s = "Error parsing average CPU"
  \/ exists n, 10 <= n /\ s = PyInt.to_text n.

(** A document holds a list under a key "serial" or "hardware",
    at any depth the function visits. *)
Fixpoint has_target (v : value) : bool :=
  match v with
  | VDict entries =>
      existsb (fun kv =>
                 let '(key, w) := kv in
                 match is_dedup_key key, w with
                 | true, VList _ => true
                 | _, _ => has_target w
                 end) entries
  | VList items => existsb has_target items
  | _ => false
  end.

(** An interface table, with no "serial" or "hardware" field. *)
Definition interface_tables : value :=
  VDict
    [("show interfaces",
      VList
        [VDict [("interface", VStr "Gi0/1"); ("link_status", VStr "up");
                ("ip_address", VList [VStr "10.0.0.1"; VStr "10.0.0.1"])];
         VDict [("interface", VStr "Gi0/2"); ("link_status", VStr "down");
                ("ip_address", VList [])]])].

(** The summary before any platform branch has run. *)
Definition default_summary : dict :=
  [("cpu_max", VStr "N/A"); ("cpu_avg", VStr "N/A");
   ("memory_usage_percent", VStr "N/A")].

(** An engine that has no template for anything. *)
Definition failing_engine : engine := fun _ _ _ => Raise ValueError.

(** ** The views of [app/routers/parser.py] *)

(** The values [get_cpu_memory_usage] hands to [CPUMemoryData] for one
    stored document: [cpu_max], [cpu_avg] and the text of
    [memory_usage_percent], each "N/A" when absent.  [None] is the
    [AttributeError] of [.get] on a summary that is not a
    dictionary. *)
Definition cpu_memory_entry (parsed_data : dict)
    : option (value * value * string) :=
  match Dict.get_default "Calculated_CPU_Memory" (VDict []) parsed_data with
  | VDict calculated_data =>
      Some (Dict.get_default "cpu_max" (VStr "N/A") calculated_data,
            Dict.get_default "cpu_avg" (VStr "N/A") calculated_data,
            Py.str (Dict.get_default "memory_usage_percent" (VStr "N/A")
                      calculated_data))
  | _ => None
  end.

(** The summary holds texts for its two CPU fields. *)
Definition cpu_text_summary (summary : dict) : Prop :=
  exists cpu_max cpu_avg memory_usage_percent,
    summary = [("cpu_max", VStr cpu_max); ("cpu_avg", VStr cpu_avg);
               ("memory_usage_percent", memory_usage_percent)].

(** The table each view reads for a platform: [get_summary],
    [get_inventory] and [get_interfaces]; [None] stands for the empty
    list the view takes for any other platform. *)
Definition version_command (platform : string) : option string :=
  if String.eqb platform "cisco_ios" then Some "show version"
  else if String.eqb platform "cisco_nxos" then Some "show version"
  else if String.eqb platform "aruba_aoscx" then Some "show system"
  else if (String.eqb platform "huawei_vrp"
           || String.eqb platform "huawei_yunshan")%bool
  then Some "display version"
  else None.

Definition inventory_command (platform : string) : option string :=
  if String.eqb platform "cisco_ios" then Some "show inventory"
  else if String.eqb platform "cisco_nxos" then Some "show inventory"
  else if String.eqb platform "aruba_aoscx" then Some "show inventory"
  else if (String.eqb platform "huawei_vrp"
           || String.eqb platform "huawei_yunshan")%bool
  then Some "display device"
  else None.

Definition interfaces_command (platform : string) : option string :=
  if String.eqb platform "cisco_ios" then Some "show interfaces"
  else if String.eqb platform "cisco_nxos" then Some "show interface"
  else if String.eqb platform "aruba_aoscx" then Some "show interface"
  else if (String.eqb platform "huawei_vrp"
           || String.eqb platform "huawei_yunshan")%bool
  then Some "display interface"
  else None.

(** A table: a list whose elements are all dictionaries. *)
Definition is_record (v : value) : bool :=
  match v with VDict _ => true | _ => false end.

Definition is_table (v : value) : bool :=
  match v with
  | VList records => forallb is_record records
  | _ => false
  end.

Definition all_tables (parsed : dict) : Prop :=
  Forall (fun kv => is_table (snd kv) = true) parsed.

(** *** The interface statistics of [get_interfaces] *)

(** A [Counter]: labels in the order of their first count. *)
Definition counter : Type := list (string * Z).

(** [counts[label] += 1]. *)
Fixpoint counter_add (label : string) (counts : counter) : counter :=
  match counts with
  | [] => [(label, 1)]
  | (l, n) :: rest =>
      if String.eqb label l then (l, n + 1) :: rest
      else (l, n) :: counter_add label rest
  end.

(** [iface.get(primary, iface.get(fallback, "unknown")).lower() or
    "unknown"]; [None] is the [AttributeError] of a value without
    [lower]. *)
Definition interface_label (primary fallback : string) (iface : dict)
    : option string :=
  match Dict.get_default primary
          (Dict.get_default fallback (VStr "unknown") iface) iface with
  | VStr s =>
      Some (if String.eqb (PyStr.lower s) EmptyString then "unknown"
            else PyStr.lower s)
  | _ => None
  end.

(** The counting loop over the interfaces of one document. *)
Fixpoint count_interfaces (interfaces : list dict)
    (link_status_counts speed_counts : counter) : option (counter * counter) :=
  match interfaces with
  | [] => Some (link_status_counts, speed_counts)
  | iface :: rest =>
      match interface_label "link_status" "status" iface with
      | Some link_status =>
          match interface_label "speed" "bandwidth" iface with
          | Some speed =>
              count_interfaces rest
                (counter_add link_status link_status_counts)
                (counter_add speed speed_counts)
          | None => None
          end
      | None => None
      end
  end.

(** [sum(counts.values())]. *)
Definition counter_total (counts : counter) : Z :=
  fold_right (fun entry total => snd entry + total) 0 counts.

(** A counter as the loop keeps it: distinct labels, each of them not
    empty and in lower case, each counted once at least. *)
Definition well_counted (counts : counter) : Prop :=
  NoDup (map fst counts)
  /\ Forall (fun entry =>
               fst entry <> EmptyString
               /\ PyStr.lower (fst entry) = fst entry
               /\ 1 <= snd entry) counts.

(** Three interfaces as the engine records them. *)
Definition sample_interfaces : list dict :=
  [ [("interface", VStr "Gi0/1"); ("link_status", VStr "UP");
     ("speed", VStr "1000Mb/s")];
    [("interface", VStr "Gi0/2"); ("status", VStr "Down");
     ("bandwidth", VStr "")];
    [("interface", VStr "Gi0/3"); ("link_status", VStr "up")] ].

(** ** The upload filter of [app/routers/parser.py] *)

(** Paths as [os.path] has them on a POSIX system. *)
Module OsPath.

(** [p.rfind(c)] for a character [c]: the index of its last
    occurrence, -1 when there is none. *)
Fixpoint rfind (c : ascii) (p : string) : Z :=
  match p with
  | EmptyString => -1
  | String a rest =>
      let found := rfind c rest in
      if 0 <=? found then found + 1
      else if Ascii.eqb c a then 0 else -1
  end.

(** The loop of [splitext] that skips the leading dots of the last
    component: [steps] indices from [filenameIndex] on, [true] as soon
    as [p[filenameIndex:filenameIndex+1]] is not the dot. *)
Fixpoint name_found (p : string) (filenameIndex steps : nat) : bool :=
  match steps with
  | O => false
  | S steps' =>
      if negb (String.eqb (substring filenameIndex 1 p) ".") then true
      else name_found p (S filenameIndex) steps'
  end.

(** [os.path.splitext(p)]: the extension starts at the last dot, when
    that dot comes after the last slash and after a character of the
    last component other than a dot; otherwise it is empty. *)
Definition splitext (p : string) : string * string :=
  let sepIndex := rfind "/" p in
  let dotIndex := rfind "." p in
  if ((sepIndex <? dotIndex)
      && name_found p (Z.to_nat (sepIndex + 1))
           (Z.to_nat (dotIndex - (sepIndex + 1))))%bool
  then (substring 0 (Z.to_nat dotIndex) p, PyStr.drop (Z.to_nat dotIndex) p)
  else (p, EmptyString).

End OsPath.

Definition ALLOWED_EXTENSIONS : list string := [".txt"; ".log"].

(** [os.path.splitext(uploaded_file.filename)[1].lower()]. *)
Definition file_extension (file_name : string) : string :=
  PyStr.lower (snd (OsPath.splitext file_name)).

(** The extension test of [upload_files], its lines 50 and 51: a file
    that fails it is skipped; a file that passes it goes on to be
    saved, read back and parsed, steps that are not part of this test
    (saving raises when the name leads into a directory that does not
    exist, and a file that cannot be read back is skipped). *)
Definition extension_allowed (file_name : string) : bool :=
  existsb (String.eqb (file_extension file_name)) ALLOWED_EXTENSIONS.

(** The last component of [stem] has a character other than the dot. *)
Definition named (stem : string) : Prop :=
  exists front c back,
    stem = front ++ String c back
    /\ c <> "."%char /\ c <> "/"%char
    /\ PyStr.has_char "/" back = false.

(** ** The platform table of the earlier module [parser.py] *)

Module Legacy.

Definition env_patterns : list (string * (regex * regex)) :=
  [ ("huawei_vrp",
     (Alt (Lit "Huawei Versatile Routing Platform") (Lit "VRP (R)"),
      Lit "display"));
    ("huawei_yunshan", (Lit "Huawei YunShan OS", Lit "display"));
    ("cisco_ios", (Lit "Cisco IOS", Lit "show"));
    ("aruba_aoscx", (Lit "ArubaOS-CX", Lit "show")) ].

Definition detect_platform (text : string) : string :=
  detect_in env_patterns text.

End Legacy.

(** *** The version data of [get_summary] *)

(** The loop that cleans the text values of [version_data], over its
    items in their order. *)
Definition strip_values (version_data : dict) : dict :=
  fold_left
    (fun cleaned item =>
       match snd item with
       | VStr text => Dict.set (fst item) (VStr (PyStr.strip text)) cleaned
       | _ => cleaned
       end)
    version_data version_data.

(** [version_data] as [get_summary] hands it to [ParseSummary] for one
    stored document: the first record of the version table with its
    texts stripped, or the empty dictionary, and then the platform
    under "platform_name".  [None] is the [AttributeError] of [.items]
    on a first element that is not a dictionary. *)
Definition summary_version_data (platform : string) (parsed_data : dict)
    : option dict :=
  let version_list :=
    match version_command platform with
    | Some command => Dict.get_default command (VList []) parsed_data
    | None => VList []
    end in
  match version_list with
  | VList (first :: _) =>
      match first with
      | VDict version_data =>
          Some (Dict.set "platform_name" (VStr platform)
                  (strip_values version_data))
      | _ => None
      end
  | _ => Some (Dict.set "platform_name" (VStr platform) [])
  end.

(** The first character of [s], if any, is not one that [p] strips. *)
Definition head_kept (p : ascii -> bool) (s : string) : bool :=
  match s with
  | EmptyString => true
  | String c _ => negb (p c)
  end.

(** An Aruba capture whose engine gives one system record, with blanks
    around two of its texts. *)
Definition aruba_engine : engine :=
  fun _ command _ =>
    if String.eqb command "show system"
    then Ok [[("hostname", VStr " sw2 "); ("cpu", VStr "12");
              ("memory_usage_percent", VStr "40 ")]]
    else Raise ValueError.

Definition aruba_document : document :=
  {| platform := "aruba_aoscx";
     data :=
       [("show system",
         VList [VDict [("hostname", VStr " sw2 "); ("cpu", VStr "12");
                       ("memory_usage_percent", VStr "40");
                       ("cpu_max", VStr "12"); ("cpu_avg", VStr "12")]]);
        ("show inventory", VList []);
        ("show interface", VList []);
        ("Calculated_CPU_Memory",
         VDict [("cpu_max", VStr "12"); ("cpu_avg", VStr "12");
                ("memory_usage_percent", VStr "40")])];
     filename := "sw2.log" |}.

(** [c * n]: the character [c] repeated [n] times. *)
Fixpoint repeat_char (c : ascii) (n : nat) : string :=
  match n with
  | O => EmptyString
  | S n' => String c (repeat_char c n')
  end.

(** A Huawei capture whose engine gives a CPU record with a rate of
    310 digits. *)
Definition huge_cpu_record : dict :=
  [("cpu_usage_rate", VStr (String "1" (repeat_char "0" 309)))].

Definition huge_cpu_engine : engine :=
  fun _ command _ =>
    if String.eqb command "display cpu-usage"
    then Ok [huge_cpu_record]
    else Raise ValueError.



(** A text of ASCII characters, the code points below 128. *)
Definition is_ascii_text (text : string) : bool :=
  PyStr.all_chars (fun c => N.ltb (PyStr.code c) 128) text.

(** * Properties *)

(** ** Platform detection *)

Section Detection.

Variable text : string.

Lemma signature_matches_both (content command : regex) :
  signature_matches (content, command) text
  = (Re.search_i content text && Re.search_i command text)%bool.
Proof.
  unfold signature_matches; simpl.
  destruct (Re.search_i content text); reflexivity.
Qed.

(** The loop returns the key of the entry at [i] when that entry holds
    and no entry before it does. *)
Lemma detect_in_first (table : list (string * (regex * regex))) :
  forall (i : nat) (key : string) (patterns : regex * regex),
    nth_error table i = Some (key, patterns) ->
    signature_matches patterns text = true ->
    (forall j e, (j < i)%nat -> nth_error table j = Some e ->
                 signature_matches (snd e) text = false) ->
    detect_in table text = key.
Proof.
  induction table as [| [k p] rest IH]; intros i key patterns Hnth Hm Hbefore.
  - destruct i; discriminate.
  - destruct i as [| i]; simpl in *.
    + injection Hnth as -> ->. rewrite Hm. reflexivity.
    + assert (H0 : signature_matches p text = false)
        by (apply (Hbefore 0%nat (k, p)); [lia | reflexivity]).
      rewrite H0.
      apply (IH i key patterns Hnth Hm).
      intros j e Hj He. apply (Hbefore (S j) e); [lia | exact He].
Qed.

(** The loop falls through when no entry holds. *)
Lemma detect_in_none (table : list (string * (regex * regex))) :
  (forall e, In e table -> signature_matches (snd e) text = false) ->
  detect_in table text = "unknown".
Proof.
  induction table as [| [k p] rest IH]; intros Hall; simpl.
  - reflexivity.
  - assert (H0 : signature_matches p text = false)
      by (apply (Hall (k, p)); left; reflexivity).
    rewrite H0.
    apply IH. intros e He. apply Hall. right. exact He.
Qed.

(** Whatever the loop returns is "unknown" or the key of an entry that
    holds. *)
Lemma detect_in_sound (table : list (string * (regex * regex))) :
  detect_in table text = "unknown"
  \/ exists patterns, In (detect_in table text, patterns) table
                      /\ signature_matches patterns text = true.
Proof.
  induction table as [| [k p] rest IH]; simpl.
  - left; reflexivity.
  - destruct (signature_matches p text) eqn:Hm.
    + right. exists p. split; [left; reflexivity | exact Hm].
    + destruct IH as [IH | [q [Hin Hq]]]; [left; exact IH |].
      right. exists q. split; [right; exact Hin | exact Hq].
Qed.

End Detection.

(** C3: [detect_platform] visits the signature table in its declaration
    order (Huawei VRP, Huawei YunShan, Cisco IOS, Cisco NX-OS, Aruba
    AOS-CX) and returns the key of the first entry whose content marker
    and command marker are both found, letter case ignored: when the
    entry at position [i] holds and no entry before it does, the result
    is the key at [i], whatever later entries would match. *)
Theorem detect_platform_first_match
    (text : string) (i : nat) (key : string) (content command : regex) :
  nth_error ENV_PATTERNS i = Some (key, (content, command)) ->
  Re.search_i content text = true ->
  Re.search_i command text = true ->
  (forall j k c m, (j < i)%nat ->
     nth_error ENV_PATTERNS j = Some (k, (c, m)) ->
     (Re.search_i c text && Re.search_i m text)%bool = false) ->
  detect_platform text = key
  /\ map fst ENV_PATTERNS
     = ["huawei_vrp"; "huawei_yunshan"; "cisco_ios"; "cisco_nxos";
        "aruba_aoscx"].
Proof.
  intros Hnth Hc Hm Hbefore. split; [| reflexivity].
  unfold detect_platform.
  apply (detect_in_first text ENV_PATTERNS i key (content, command) Hnth).
  - rewrite signature_matches_both, Hc, Hm. reflexivity.
  - intros j [k [c m]] Hj He. simpl.
    rewrite signature_matches_both. exact (Hbefore j k c m Hj He).
Qed.

(** A capture that names Cisco IOS in lower case and holds "SHOW" is
    Cisco IOS: neither Huawei entry holds before it. *)
Lemma detect_platform_first_match_witness :
  detect_platform "cisco ios software, SHOW version" = "cisco_ios"
  /\ map fst ENV_PATTERNS
     = ["huawei_vrp"; "huawei_yunshan"; "cisco_ios"; "cisco_nxos";
        "aruba_aoscx"].
Proof.
  apply (detect_platform_first_match
           "cisco ios software, SHOW version" 2 "cisco_ios"
           (Lit "Cisco IOS") (Lit "show")).
  - reflexivity.
  - reflexivity.
  - reflexivity.
  - intros j k c m Hj He.
    destruct j as [| [| j]]; [| | lia];
      simpl in He; injection He as <- <- <-; reflexivity.
Defined.

(** A Huawei VRP marker with "display" wins over every marker that
    comes later in the table, Cisco's included. *)
Lemma detect_platform_huawei_before_cisco (text : string) :
  Re.search_i (Alt (Lit "Huawei Versatile Routing Platform") (Lit "VRP (R)"))
    text = true ->
  Re.search_i (Lit "display") text = true ->
  detect_platform text = "huawei_vrp".
Proof.
  intros Hc Hm. unfold detect_platform.
  apply (detect_in_first text ENV_PATTERNS 0 "huawei_vrp"
           (Alt (Lit "Huawei Versatile Routing Platform") (Lit "VRP (R)"),
            Lit "display")).
  - reflexivity.
  - rewrite signature_matches_both, Hc, Hm. reflexivity.
  - intros j e Hj. lia.
Qed.

(** C4: when no entry of the table has both its content marker and its
    command marker found in the text, [detect_platform] returns
    "unknown". *)
Theorem detect_platform_unknown (text : string) :
  (forall key content command,
     In (key, (content, command)) ENV_PATTERNS ->
     (Re.search_i content text && Re.search_i command text)%bool = false) ->
  detect_platform text = "unknown".
Proof.
  intros Hall. unfold detect_platform. apply detect_in_none.
  intros [k [c m]] He. simpl. rewrite signature_matches_both.
  exact (Hall k c m He).
Qed.

(** A vendor marker alone, with no command keyword, is "unknown". *)
Lemma detect_platform_unknown_witness :
  detect_platform "Cisco IOS Software, Version 15.2" = "unknown".
Proof.
  apply detect_platform_unknown.
  intros key content command Hin. simpl in Hin.
  repeat (destruct Hin as [Hin | Hin];
          [injection Hin as <- <- <-; reflexivity |]).
  contradiction.
Defined.

(** The two ways the claim names: no command keyword at all, or no
    vendor marker at all. *)
Lemma detect_platform_no_command_keyword (text : string) :
  Re.search_i (Lit "display") text = false ->
  Re.search_i (Lit "show") text = false ->
  detect_platform text = "unknown".
Proof.
  intros Hd Hs. unfold detect_platform. apply detect_in_none.
  intros e He. simpl in He.
  repeat (destruct He as [He | He];
          [subst e; simpl; rewrite signature_matches_both, ?Hd, ?Hs;
           apply Bool.andb_false_r |]).
  contradiction.
Qed.

Lemma detect_platform_no_vendor_marker (text : string) :
  (forall key content command,
     In (key, (content, command)) ENV_PATTERNS ->
     Re.search_i content text = false) ->
  detect_platform text = "unknown".
Proof.
  intros Hall. unfold detect_platform. apply detect_in_none.
  intros [k [c m]] He. simpl. rewrite signature_matches_both.
  rewrite (Hall k c m He). reflexivity.
Qed.

(** ** Dictionaries *)

Lemma dict_get_set_same (key : string) (v : value) (d : dict) :
  Dict.get key (Dict.set key v d) = Some v.
Proof.
  induction d as [| [k w] rest IH]; simpl.
  - rewrite String.eqb_refl. reflexivity.
  - destruct (String.eqb key k) eqn:Hk; simpl; rewrite Hk.
    + reflexivity.
    + exact IH.
Qed.

Lemma dict_get_set_other (key other : string) (v : value) (d : dict) :
  String.eqb other key = false ->
  Dict.get other (Dict.set key v d) = Dict.get other d.
Proof.
  intros Hne. induction d as [| [k w] rest IH]; simpl.
  - rewrite Hne. reflexivity.
  - destruct (String.eqb key k) eqn:Hk; simpl.
    + apply String.eqb_eq in Hk. subst k. rewrite Hne. reflexivity.
    + destruct (String.eqb other k); [reflexivity | exact IH].
Qed.

(** ** The summary of CPU and memory *)

Ltac summary_step :=
  match goal with
  | H : summary_shape _ |- _ =>
      let a := fresh "a" in
      let b := fresh "b" in
      let c := fresh "c" in
      let Ha := fresh "Ha" in
      let Hb := fresh "Hb" in
      let Hc := fresh "Hc" in
      destruct H as [a [b [c [-> [Ha [Hb Hc]]]]]]
  end.

Ltac summary_done :=
  unfold summary_shape; simpl;
  do 3 eexists; split; [reflexivity |];
  repeat split; solve [assumption | discriminate].

Lemma summary_shape_default :
  summary_shape [("cpu_max", VStr "N/A"); ("cpu_avg", VStr "N/A");
                 ("memory_usage_percent", VStr "N/A")].
Proof. summary_done. Qed.

Lemma summary_set_cpu_max (v : value) (summary : dict) :
  summary_shape summary -> v <> VNone ->
  summary_shape (Dict.set "cpu_max" v summary).
Proof. intros H Hv. summary_step. summary_done. Qed.

Lemma summary_set_cpu_avg (v : value) (summary : dict) :
  summary_shape summary -> v <> VNone ->
  summary_shape (Dict.set "cpu_avg" v summary).
Proof. intros H Hv. summary_step. summary_done. Qed.

Lemma summary_set_memory (v : value) (summary : dict) :
  summary_shape summary -> v <> VNone ->
  summary_shape (Dict.set "memory_usage_percent" v summary).
Proof. intros H Hv. summary_step. summary_done. Qed.

(** What each extraction hands back. *)

Lemma extract_cisco_cpu_usage_keys (text : string) (r : dict) :
  extract_cisco_cpu_usage text = Ok r ->
  exists cpu_max cpu_avg,
    r = [("cpu_max", VStr cpu_max); ("cpu_avg", VStr cpu_avg)].
Proof.
  unfold extract_cisco_cpu_usage.
  destruct (Re.search_between _ _ text) as [group1 |];
    [| intros H; injection H as <-; simpl; eauto].
  destruct (Py.from_end 2 _) as [first |]; [simpl | discriminate].
  destruct (Py.from_end 1 _) as [second |]; [simpl | discriminate].
  destruct (digit_values _) as [[| n rest] | []]; simpl;
    try discriminate;
    (destruct (avg_raw_line group1) as [| line ?];
     intros H; injection H as <-; simpl; eauto).
Qed.

Lemma percent_is_float (used total : Z) (v : value) :
  percent used total = Ok v -> exists x, v = VFloat x.
Proof.
  unfold percent. destruct (PyFloat.truediv used total); simpl;
    [intros H; injection H as <-; eauto | discriminate].
Qed.

Lemma calculate_cisco_memory_usage_keys (memory_data : value) (r : dict) :
  calculate_cisco_memory_usage memory_data = Ok r ->
  exists p, r = [("memory_usage_percent", p)] /\ p <> VNone.
Proof.
  unfold calculate_cisco_memory_usage.
  destruct memory_data as [| | | | | d];
    try (intros H; injection H as <-; eexists; split;
         [reflexivity | discriminate]).
  destruct (Py.int (Dict.get_default "memory_total" _ d)) as [total | e1];
    simpl.
  - destruct (Py.int (Dict.get_default "memory_used" _ d)) as [used | e2];
      simpl.
    + destruct (total =? 0); simpl.
      * intros H; injection H as <-. eexists; split;
          [reflexivity | discriminate].
      * destruct (percent used total) as [v | e3] eqn:Hp; simpl.
        -- intros H; injection H as <-.
           destruct (percent_is_float _ _ _ Hp) as [x ->].
           eexists; split; [reflexivity | discriminate].
        -- destruct (is_value_or_type_error e3); [| discriminate].
           intros H; injection H as <-. eexists; split;
             [reflexivity | discriminate].
    + destruct (is_value_or_type_error e2); [| discriminate].
      intros H; injection H as <-. eexists; split;
        [reflexivity | discriminate].
  - destruct (is_value_or_type_error e1); [| discriminate].
    intros H; injection H as <-. eexists; split;
      [reflexivity | discriminate].
Qed.

Lemma process_aruba_system_data_keys (system_data : value) :
  exists a c,
    process_aruba_system_data system_data
    = [("cpu_max", VStr a); ("cpu_avg", VStr a);
       ("memory_usage_percent", VStr c)].
Proof.
  unfold process_aruba_system_data.
  destruct system_data as [| | | | | d]; try (simpl; eauto).
  destruct (Dict.get "cpu" d) as [v |];
    [destruct (PyStr.isdigit (PyStr.strip (Py.str v))) |];
    (destruct (Dict.get "memory_usage_percent" d) as [w |];
     [destruct (PyStr.isdigit (PyStr.strip (Py.str w))) |]);
    simpl; eauto.
Qed.

Lemma probe_cpu_keys_keys (keys : list string) (d : dict) (s : string)
    (r : dict) :
  probe_cpu_keys keys d [("cpu_avg", VStr s)] = Ok r ->
  exists cpu_avg, r = [("cpu_avg", VStr cpu_avg)].
Proof.
  induction keys as [| key rest IH]; simpl.
  - intros H; injection H as <-. eauto.
  - destruct (Dict.get key d) as [v |]; [| exact IH].
    destruct (looks_numeric v); [| exact IH].
    destruct (x <- Py.float v;; PyFloat.trunc x) as [n | []];
      try discriminate; [| exact IH].
    intros H; injection H as <-. simpl. eauto.
Qed.

Lemma process_huawei_cpu_data_keys (cpu_data : value) (r : dict) :
  process_huawei_cpu_data cpu_data = Ok r ->
  exists cpu_avg, r = [("cpu_avg", VStr cpu_avg)].
Proof.
  unfold process_huawei_cpu_data.
  destruct cpu_data as [| | | | | d];
    try (intros H; injection H as <-; eauto).
  apply probe_cpu_keys_keys.
Qed.

Lemma process_huawei_memory_data_keys (memory_data : value) (r : dict) :
  process_huawei_memory_data memory_data = Ok r ->
  exists p, r = [("memory_usage_percent", p)] /\ p <> VNone.
Proof.
  unfold process_huawei_memory_data.
  destruct memory_data as [| | | | | d];
    try (intros H; injection H as <-; eexists; split;
         [reflexivity | discriminate]).
  destruct (Py.int (Dict.get_default "total_memory" _ d)) as [total | e1];
    simpl.
  - destruct (Py.int (Dict.get_default "used_memory" _ d)) as [used | e2];
      simpl.
    + destruct (0 <? total); simpl.
      * destruct (percent used total) as [v | e3] eqn:Hp; simpl.
        -- intros H; injection H as <-.
           destruct (percent_is_float _ _ _ Hp) as [x ->].
           eexists; split; [reflexivity | discriminate].
        -- destruct (is_value_or_type_error e3); [| discriminate].
           intros H; injection H as <-. eexists; split;
             [reflexivity | discriminate].
      * intros H; injection H as <-. eexists; split;
          [reflexivity | discriminate].
    + destruct (is_value_or_type_error e2); [| discriminate].
      intros H; injection H as <-. eexists; split;
        [reflexivity | discriminate].
  - destruct (is_value_or_type_error e1); [| discriminate].
    intros H; injection H as <-. eexists; split;
      [reflexivity | discriminate].
Qed.

(** Every platform branch keeps the shape of the summary. *)
Lemma cpu_memory_branch_summary (device_platform file_content : string)
    (parsed summary parsed' summary' : dict) :
  summary_shape summary ->
  cpu_memory_branch device_platform file_content parsed summary
  = Ok (parsed', summary') ->
  summary_shape summary'.
Proof.
  intros Hs. unfold cpu_memory_branch.
  destruct (String.eqb device_platform "cisco_ios").
  { destruct (extract_cisco_cpu_usage file_content) as [r | e] eqn:Hx;
      [cbn [bind] | discriminate].
    destruct (extract_cisco_cpu_usage_keys _ _ Hx) as [mx [av ->]].
    assert (Hs' : summary_shape
                    (Dict.update summary
                       [("cpu_max", VStr mx); ("cpu_avg", VStr av)])).
    { unfold Dict.update; simpl.
      apply summary_set_cpu_avg; [| discriminate].
      apply summary_set_cpu_max; [exact Hs | discriminate]. }
    destruct (first_record _ parsed) as [first |].
    - destruct (calculate_cisco_memory_usage first) as [m | e] eqn:Hm;
        [cbn [bind] | discriminate].
      destruct (calculate_cisco_memory_usage_keys _ _ Hm) as [p [-> Hp]].
      intros H; injection H as _ <-.
      apply summary_set_memory; [exact Hs' | exact Hp].
    - intros H; injection H as _ <-. exact Hs'. }
  destruct (String.eqb device_platform "cisco_nxos").
  { destruct (first_record _ parsed) as [sys_data |].
    - intros H; injection H as _ <-.
      assert (Hs' : summary_shape
                match field "cpu_usage_percent" sys_data with
                | Some v =>
                    Dict.set "cpu_max" (VStr (Py.str v))
                      (Dict.set "cpu_avg" (VStr (Py.str v)) summary)
                | None => summary
                end).
      { destruct (field "cpu_usage_percent" sys_data); [| exact Hs].
        apply summary_set_cpu_max; [| discriminate].
        apply summary_set_cpu_avg; [exact Hs | discriminate]. }
      destruct (field "memory_usage_percent" sys_data); [| exact Hs'].
      apply summary_set_memory; [exact Hs' | discriminate].
    - intros H; injection H as _ <-. exact Hs. }
  destruct (String.eqb device_platform "aruba_aoscx").
  { destruct (first_record _ parsed) as [first |].
    - intros H; injection H as _ <-.
      destruct (process_aruba_system_data_keys first) as [a [c ->]].
      unfold Dict.update; simpl.
      apply summary_set_memory; [| discriminate].
      apply summary_set_cpu_avg; [| discriminate].
      apply summary_set_cpu_max; [exact Hs | discriminate].
    - intros H; injection H as _ <-. exact Hs. }
  destruct (String.eqb device_platform "huawei_vrp"
            || String.eqb device_platform "huawei_yunshan")%bool.
  { destruct (first_record "display cpu-usage" parsed) as [first |].
    - destruct (process_huawei_cpu_data first) as [r | e] eqn:Hc;
        [cbn [bind] | discriminate].
      destruct (process_huawei_cpu_data_keys _ _ Hc) as [av ->].
      assert (Hs' : summary_shape (Dict.update summary [("cpu_avg", VStr av)])).
      { unfold Dict.update; simpl.
        apply summary_set_cpu_avg; [exact Hs | discriminate]. }
      destruct (first_record "display memory usage" _) as [second |].
      + destruct (process_huawei_memory_data second) as [m | e] eqn:Hm;
          [cbn [bind] | discriminate].
        destruct (process_huawei_memory_data_keys _ _ Hm) as [p [-> Hp]].
        intros H; injection H as _ <-.
        apply summary_set_memory; [exact Hs' | exact Hp].
      + intros H; injection H as _ <-. exact Hs'.
    - simpl.
      destruct (first_record "display memory usage" parsed) as [second |].
      + destruct (process_huawei_memory_data second) as [m | e] eqn:Hm;
          [cbn [bind] | discriminate].
        destruct (process_huawei_memory_data_keys _ _ Hm) as [p [-> Hp]].
        intros H; injection H as _ <-.
        unfold Dict.update; simpl.
        apply summary_set_memory; [exact Hs | exact Hp].
      + intros H; injection H as _ <-. exact Hs. }
  intros H; injection H as _ <-. exact Hs.
Qed.

(** The deduplication of a dictionary is a dictionary. *)
Lemma deduplicate_dict_is_dict (entries : dict) (v : value) :
  deduplicate_serial_and_hardware (VDict entries) = Ok v ->
  exists entries', v = VDict entries'.
Proof.
  simpl.
  match goal with
  | |- bind ?body _ = _ -> _ => destruct body as [es | e]
  end; simpl; [| discriminate].
  intros H; injection H as <-. eauto.
Qed.

(** ** The document *)

Section Document.

Variable parse_output : engine.
Variables file_content file_name : string.

(** The sentinel document of a platform without templates. *)
Lemma parse_network_file_sentinel :
  templates_for (detect_platform file_content) = [] ->
  parse_network_file parse_output file_content file_name
  = Ok {| platform := detect_platform file_content;
          data := [("Error",
                    VStr ("No templates configured for "
                          ++ detect_platform file_content))];
          filename := file_name |}.
Proof.
  intros Hnone. unfold parse_network_file. rewrite Hnone. reflexivity.
Qed.

(** With templates, a returned document carries the summary that the
    platform branch computed from the default one. *)
Lemma parse_network_file_branch (doc : document) :
  templates_for (detect_platform file_content) <> [] ->
  parse_network_file parse_output file_content file_name = Ok doc ->
  exists parsed0 parsed summary,
    cpu_memory_branch (detect_platform file_content) file_content parsed0
      [("cpu_max", VStr "N/A"); ("cpu_avg", VStr "N/A");
       ("memory_usage_percent", VStr "N/A")]
    = Ok (parsed, summary)
    /\ Dict.get "Calculated_CPU_Memory" (data doc) = Some (VDict summary).
Proof.
  intros Hsome. unfold parse_network_file.
  destruct (templates_for (detect_platform file_content)) as [| t ts];
    [contradiction |].
  match goal with
  | |- context [cpu_memory_branch _ _ ?p0 _] => set (parsed0 := p0)
  end.
  destruct (cpu_memory_branch _ _ parsed0 _) as [[parsed summary] | e] eqn:Hb;
    [cbn [bind] | cbn [bind]; discriminate].
  destruct (deduplicate_serial_and_hardware (VDict parsed)) as [v | e] eqn:Hd;
    [cbn [bind] | cbn [bind]; discriminate].
  destruct (deduplicate_dict_is_dict _ _ Hd) as [parsed' ->].
  intros H; injection H as <-. simpl.
  exists parsed0, parsed, summary. split.
  - exact Hb.
  - apply dict_get_set_same.
Qed.

Lemma parse_network_file_summary (doc : document) :
  templates_for (detect_platform file_content) <> [] ->
  parse_network_file parse_output file_content file_name = Ok doc ->
  exists summary,
    Dict.get "Calculated_CPU_Memory" (data doc) = Some (VDict summary)
    /\ summary_shape summary.
Proof.
  intros Hsome Hdoc.
  destruct (parse_network_file_branch doc Hsome Hdoc)
    as [parsed0 [parsed [summary [Hb Hget]]]].
  exists summary. split; [exact Hget |].
  exact (cpu_memory_branch_summary _ _ _ _ _ _ summary_shape_default Hb).
Qed.

End Document.

(** Only "unknown" is without templates among the platforms that
    [detect_platform] can return. *)
Lemma templates_for_detected (text : string) :
  templates_for (detect_platform text) = [] ->
  detect_platform text = "unknown".
Proof.
  unfold detect_platform.
  destruct (detect_in_sound text ENV_PATTERNS) as [Hu | [p [Hin _]]];
    [intros _; exact Hu |].
  remember (detect_in ENV_PATTERNS text) as detected.
  simpl in Hin.
  repeat (destruct Hin as [Hin | Hin];
          [injection Hin as <- _; intros H; vm_compute in H; discriminate H |]).
  contradiction.
Qed.

(** C7: when the detected platform has no configured templates,
    [parse_network_file] raises nothing and returns the document whose
    tables are exactly the single entry "Error" with the text
    "No templates configured for <platform>"; that platform is then
    "unknown", the only one without templates. *)
Theorem parse_network_file_no_templates
    (parse_output : engine) (file_content file_name : string) :
  templates_for (detect_platform file_content) = [] ->
  parse_network_file parse_output file_content file_name
  = Ok {| platform := detect_platform file_content;
          data := [("Error",
                    VStr ("No templates configured for "
                          ++ detect_platform file_content))];
          filename := file_name |}
  /\ detect_platform file_content = "unknown".
Proof.
  intros Hnone. split.
  - apply parse_network_file_sentinel. exact Hnone.
  - apply templates_for_detected. exact Hnone.
Qed.

(** A capture without any vendor marker, whatever the engine is. *)
Lemma parse_network_file_no_templates_witness :
  parse_network_file (fun _ _ _ => Raise ValueError)
    "router uptime is 3 weeks" "capture.log"
  = Ok {| platform := "unknown";
          data := [("Error", VStr "No templates configured for unknown")];
          filename := "capture.log" |}
  /\ detect_platform "router uptime is 3 weeks" = "unknown".
Proof.
  apply (parse_network_file_no_templates (fun _ _ _ => Raise ValueError)
           "router uptime is 3 weeks" "capture.log").
  reflexivity.
Defined.

(** Text without vendor markers gives the "unknown" sentinel. *)
Lemma parse_network_file_no_vendor_marker
    (parse_output : engine) (file_content file_name : string) :
  (forall key content command,
     In (key, (content, command)) ENV_PATTERNS ->
     Re.search_i content file_content = false) ->
  parse_network_file parse_output file_content file_name
  = Ok {| platform := "unknown";
          data := [("Error", VStr "No templates configured for unknown")];
          filename := file_name |}.
Proof.
  intros Hnone.
  pose proof (detect_platform_no_vendor_marker file_content Hnone) as Hu.
  rewrite parse_network_file_sentinel; rewrite Hu; reflexivity.
Qed.

(** C1 (the code raises): on a Cisco IOS capture whose two CPU markers
    enclose fewer than two chart lines, [parse_network_file] returns no
    document: the [IndexError] of [splitlines()[-2]] in
    [extract_cisco_cpu_usage] leaves it, whatever the engine answers. *)
Theorem parse_network_file_raises_on_short_chart
    (parse_output : engine) (file_name : string) :
  parse_network_file parse_output
    "Cisco IOS show last 60 minutes last 72 hours" file_name
  = Raise IndexError.
Proof.
  unfold parse_network_file.
  change (detect_platform "Cisco IOS show last 60 minutes last 72 hours")
    with "cisco_ios".
  change (templates_for "cisco_ios")
    with [ ("show version", "show_version");
           ("show inventory", "show_inventory");
           ("show interfaces", "show_interfaces");
           ("show processes memory sorted", "show_processes_memory_sorted");
           ("show processes cpu history", "show_processes_cpu_history") ].
  cbv iota. unfold cpu_memory_branch.
  change (String.eqb "cisco_ios" "cisco_ios") with true. cbv iota.
  change (extract_cisco_cpu_usage
            "Cisco IOS show last 60 minutes last 72 hours")
    with (@Raise dict IndexError).
  reflexivity.
Qed.

(** The function itself, on the same capture. *)
Lemma extract_cisco_cpu_usage_short_chart :
  extract_cisco_cpu_usage "Cisco IOS show last 60 minutes last 72 hours"
  = Raise IndexError.
Proof. reflexivity. Qed.

(** C2 as the code has it: a document returned for a platform with
    templates holds the entry "Calculated_CPU_Memory" with exactly the
    keys cpu_max, cpu_avg and memory_usage_percent, each with a value,
    whichever platform branch ran; the document of the no-templates
    path holds no such entry. *)
Theorem parse_network_file_summary_keys
    (parse_output : engine) (file_content file_name : string)
    (doc : document) :
  parse_network_file parse_output file_content file_name = Ok doc ->
  (templates_for (detect_platform file_content) <> [] ->
   exists cpu_max cpu_avg memory_usage_percent,
     Dict.get "Calculated_CPU_Memory" (data doc)
     = Some (VDict [("cpu_max", cpu_max); ("cpu_avg", cpu_avg);
                    ("memory_usage_percent", memory_usage_percent)])
     /\ cpu_max <> VNone /\ cpu_avg <> VNone
     /\ memory_usage_percent <> VNone)
  /\ (templates_for (detect_platform file_content) = [] ->
      Dict.get "Calculated_CPU_Memory" (data doc) = None).
Proof.
  intros Hdoc. split.
  - intros Hsome.
    destruct (parse_network_file_summary _ _ _ _ Hsome Hdoc)
      as [summary [Hget [a [b [c [-> Hvals]]]]]].
    exists a, b, c. split; [exact Hget | exact Hvals].
  - intros Hnone.
    rewrite (parse_network_file_sentinel _ _ _ Hnone) in Hdoc.
    injection Hdoc as <-. reflexivity.
Qed.

Lemma parse_network_file_summary_keys_witness :
  (templates_for (detect_platform "Huawei YunShan OS, display version") <> [] ->
   exists cpu_max cpu_avg memory_usage_percent,
     Dict.get "Calculated_CPU_Memory" (data huawei_document)
     = Some (VDict [("cpu_max", cpu_max); ("cpu_avg", cpu_avg);
                    ("memory_usage_percent", memory_usage_percent)])
     /\ cpu_max <> VNone /\ cpu_avg <> VNone
     /\ memory_usage_percent <> VNone)
  /\ (templates_for (detect_platform "Huawei YunShan OS, display version") = [] ->
      Dict.get "Calculated_CPU_Memory" (data huawei_document) = None).
Proof.
  apply (parse_network_file_summary_keys huawei_engine
           "Huawei YunShan OS, display version" "sw1.txt" huawei_document).
  reflexivity.
Defined.

(** C2 as the claim words it fails: the document of a capture without
    vendor markers has the single entry "Error" and no summary. *)
Lemma parse_network_file_summary_absent :
  parse_network_file (fun _ _ _ => Ok []) "" "empty.txt"
  = Ok {| platform := "unknown";
          data := [("Error", VStr "No templates configured for unknown")];
          filename := "empty.txt" |}
  /\ Dict.get "Calculated_CPU_Memory"
       [("Error", VStr "No templates configured for unknown")] = None.
Proof. split; reflexivity. Qed.

(** ** The Cisco IOS heuristics *)


(** The block that computes [cpu_max] always ends with a text. *)
Lemma cpu_max_block (values : list string) (cpu_data : dict) :
  exists cpu_max,
    Py.catch
      (valid_cpu_values <- digit_values values;;
       match valid_cpu_values with
       | n :: rest =>
           Ok (Dict.set "cpu_max" (VStr (PyInt.to_text (maximum n rest)))
                        cpu_data)
       | [] => Ok (Dict.set "cpu_max" (VStr "No numeric CPU max found")
                            cpu_data)
       end)
      is_value_error
      (Ok (Dict.set "cpu_max" (VStr "Error parsing CPU max") cpu_data))
    = Ok (Dict.set "cpu_max" (VStr cpu_max) cpu_data).
Proof.
  assert (Hraise : forall l e, digit_values l = Raise e -> e = ValueError).
  { induction l as [| val rest IH]; simpl; intros e; [discriminate |].
    destruct (PyStr.isdigit val); [| apply IH].
    destruct (PyInt.of_text val); simpl.
    - destruct (digit_values rest) as [ns | e'] eqn:Hr; simpl;
        [discriminate |].
      intros H; injection H as <-. apply (IH e' eq_refl).
    - intros H; injection H as <-. reflexivity. }
  destruct (digit_values values) as [[| n rest] | e] eqn:Hd; simpl;
    eauto.
  rewrite (Hraise _ _ Hd). simpl. eauto.
Qed.






Section CiscoMemory.

Variable d : dict.





End CiscoMemory.




(** ** The Huawei heuristics *)








(** The same record, evaluated: the average 12.5 is reported as 12. *)
Lemma process_huawei_cpu_data_example :
  process_huawei_cpu_data
    (VDict [("cpu_usage", VStr "55"); ("cpu_usage_average", VStr "12.5");
            ("cpu_usage_rate", VStr "n/a")])
  = Ok [("cpu_avg", VStr "12")].
Proof. reflexivity. Qed.

(** ** Which fields of the summary a platform branch writes *)

Section Branches.

Variables file_content : string.
Variables parsed parsed' summary' : dict.

Let default : dict :=
  [("cpu_max", VStr "N/A"); ("cpu_avg", VStr "N/A");
   ("memory_usage_percent", VStr "N/A")].

(** Huawei: [cpu_max] keeps its default. *)
Lemma huawei_branch_keeps_cpu_max (device_platform : string) :
  device_platform = "huawei_vrp" \/ device_platform = "huawei_yunshan" ->
  cpu_memory_branch device_platform file_content parsed default
  = Ok (parsed', summary') ->
  exists cpu_avg memory_usage_percent,
    summary' = [("cpu_max", VStr "N/A"); ("cpu_avg", cpu_avg);
                ("memory_usage_percent", memory_usage_percent)].
Proof.
  intros Hp. unfold cpu_memory_branch, default.
  assert (Hbranch :
            String.eqb device_platform "cisco_ios" = false
            /\ String.eqb device_platform "cisco_nxos" = false
            /\ String.eqb device_platform "aruba_aoscx" = false
            /\ (String.eqb device_platform "huawei_vrp"
                || String.eqb device_platform "huawei_yunshan")%bool = true)
    by (destruct Hp as [-> | ->]; repeat split; reflexivity).
  destruct Hbranch as [-> [-> [-> ->]]].
  destruct (first_record "display cpu-usage" parsed) as [first |].
  - destruct (process_huawei_cpu_data first) as [r | e] eqn:Hc;
      [cbn [bind] | discriminate].
    destruct (process_huawei_cpu_data_keys _ _ Hc) as [av ->].
    destruct (first_record "display memory usage" _) as [second |].
    + destruct (process_huawei_memory_data second) as [m | e] eqn:Hm;
        [cbn [bind] | discriminate].
      destruct (process_huawei_memory_data_keys _ _ Hm) as [p [-> _]].
      intros H; injection H as _ <-. simpl. eauto.
    + intros H; injection H as _ <-. simpl. eauto.
  - cbn [bind].
    destruct (first_record "display memory usage" parsed) as [second |].
    + destruct (process_huawei_memory_data second) as [m | e] eqn:Hm;
        [cbn [bind] | discriminate].
      destruct (process_huawei_memory_data_keys _ _ Hm) as [p [-> _]].
      intros H; injection H as _ <-. simpl. eauto.
    + intros H; injection H as _ <-. simpl. eauto.
Qed.

(** NX-OS and Aruba: [cpu_max] and [cpu_avg] hold the same value. *)
Lemma single_value_branch (device_platform : string) :
  device_platform = "cisco_nxos" \/ device_platform = "aruba_aoscx" ->
  cpu_memory_branch device_platform file_content parsed default
  = Ok (parsed', summary') ->
  exists cpu memory_usage_percent,
    summary' = [("cpu_max", cpu); ("cpu_avg", cpu);
                ("memory_usage_percent", memory_usage_percent)].
Proof.
  intros [-> | ->]; unfold cpu_memory_branch, default; simpl String.eqb;
    cbv iota.
  - destruct (first_record _ parsed) as [sys_data |].
    + intros H; injection H as _ <-.
      destruct (field "cpu_usage_percent" sys_data);
        destruct (field "memory_usage_percent" sys_data); simpl; eauto.
    + intros H; injection H as _ <-. simpl. eauto.
  - destruct (first_record _ parsed) as [first |].
    + intros H; injection H as _ <-.
      destruct (process_aruba_system_data_keys first) as [a [c ->]].
      simpl. eauto.
    + intros H; injection H as _ <-. simpl. eauto.
Qed.

End Branches.

(** C10: in a document returned for a Huawei capture (huawei_vrp or
    huawei_yunshan) the summary has [cpu_max] at its default "N/A",
    whatever the "display cpu-usage" record holds: the Huawei CPU
    extraction returns the single key [cpu_avg].  In a document
    returned for cisco_nxos or aruba_aoscx, [cpu_max] and [cpu_avg]
    hold one and the same value. *)
Theorem huawei_cpu_max_stays_default
    (parse_output : engine) (file_content file_name : string)
    (doc : document) :
  parse_network_file parse_output file_content file_name = Ok doc ->
  (detect_platform file_content = "huawei_vrp"
   \/ detect_platform file_content = "huawei_yunshan" ->
   exists cpu_avg memory_usage_percent,
     Dict.get "Calculated_CPU_Memory" (data doc)
     = Some (VDict [("cpu_max", VStr "N/A"); ("cpu_avg", cpu_avg);
                    ("memory_usage_percent", memory_usage_percent)]))
  /\ (forall cpu_data r,
        process_huawei_cpu_data cpu_data = Ok r -> Dict.keys r = ["cpu_avg"])
  /\ (detect_platform file_content = "cisco_nxos"
      \/ detect_platform file_content = "aruba_aoscx" ->
      exists cpu memory_usage_percent,
        Dict.get "Calculated_CPU_Memory" (data doc)
        = Some (VDict [("cpu_max", cpu); ("cpu_avg", cpu);
                       ("memory_usage_percent", memory_usage_percent)])).
Proof.
  intros Hdoc. split; [| split].
  - intros Hp.
    assert (Hsome : templates_for (detect_platform file_content) <> [])
      by (destruct Hp as [-> | ->]; discriminate).
    destruct (parse_network_file_branch _ _ _ doc Hsome Hdoc)
      as [parsed0 [parsed [summary [Hb Hget]]]].
    destruct (huawei_branch_keeps_cpu_max _ _ _ _ _ Hp Hb) as [b [c ->]].
    exists b, c. exact Hget.
  - intros cpu_data r Hr.
    destruct (process_huawei_cpu_data_keys _ _ Hr) as [av ->]. reflexivity.
  - intros Hp.
    assert (Hsome : templates_for (detect_platform file_content) <> [])
      by (destruct Hp as [-> | ->]; discriminate).
    destruct (parse_network_file_branch _ _ _ doc Hsome Hdoc)
      as [parsed0 [parsed [summary [Hb Hget]]]].
    destruct (single_value_branch _ _ _ _ _ Hp Hb) as [a [c ->]].
    exists a, c. exact Hget.
Qed.

Lemma huawei_cpu_max_stays_default_witness :
  (detect_platform "Huawei YunShan OS, display version" = "huawei_vrp"
   \/ detect_platform "Huawei YunShan OS, display version" = "huawei_yunshan" ->
   exists cpu_avg memory_usage_percent,
     Dict.get "Calculated_CPU_Memory" (data huawei_document)
     = Some (VDict [("cpu_max", VStr "N/A"); ("cpu_avg", cpu_avg);
                    ("memory_usage_percent", memory_usage_percent)]))
  /\ (forall cpu_data r,
        process_huawei_cpu_data cpu_data = Ok r -> Dict.keys r = ["cpu_avg"])
  /\ (detect_platform "Huawei YunShan OS, display version" = "cisco_nxos"
      \/ detect_platform "Huawei YunShan OS, display version" = "aruba_aoscx" ->
      exists cpu memory_usage_percent,
        Dict.get "Calculated_CPU_Memory" (data huawei_document)
        = Some (VDict [("cpu_max", cpu); ("cpu_avg", cpu);
                       ("memory_usage_percent", memory_usage_percent)])).
Proof.
  apply (huawei_cpu_max_stays_default huawei_engine
           "Huawei YunShan OS, display version" "sw1.txt" huawei_document).
  reflexivity.
Defined.

(** ** Deduplication *)

Lemma deduplicate_dict (entries : dict) :
  deduplicate_serial_and_hardware (VDict entries)
  = (entries' <- dedup_entries entries;; Ok (VDict entries')).
Proof. reflexivity. Qed.

Lemma deduplicate_list (items : list value) :
  deduplicate_serial_and_hardware (VList items)
  = (items' <- dedup_each items;; Ok (VList items')).
Proof. reflexivity. Qed.

Lemma seen_has_cons (k' k : hkey) (seen : list hkey) :
  seen_has k' (k :: seen) = true <-> k' = k \/ seen_has k' seen = true.
Proof.
  unfold seen_has; simpl. rewrite Bool.orb_true_iff.
  destruct (hkey_eq_dec k' k) as [Heq | Hne]; split; intros [H | H];
    auto; try discriminate; contradiction.
Qed.

(** A list that the inner loop produced passes the loop unchanged,
    under any set of seen keys that is no larger. *)
Lemma dedup_items_stable (items : list value) :
  forall seen out,
    dedup_items seen items = Ok out ->
    forall seen0,
      (forall k, seen_has k seen0 = true -> seen_has k seen = true) ->
      dedup_items seen0 out = Ok out.
Proof.
  induction items as [| item rest IH]; intros seen out H seen0 Hsub;
    simpl in H.
  - injection H as <-. reflexivity.
  - destruct (item_key item) as [k | e] eqn:Hk; simpl in H; [| discriminate].
    destruct (seen_has k seen) eqn:Hs.
    + exact (IH seen out H seen0 Hsub).
    + destruct (dedup_items (k :: seen) rest) as [r | e] eqn:Hr; simpl in H;
        [| discriminate].
      injection H as <-. simpl. rewrite Hk. simpl.
      assert (Hs0 : seen_has k seen0 = false).
      { destruct (seen_has k seen0) eqn:E; [| reflexivity].
        rewrite (Hsub k E) in Hs. discriminate. }
      rewrite Hs0.
      rewrite (IH (k :: seen) r Hr (k :: seen0)); [reflexivity |].
      intros k' Hk'. apply seen_has_cons. apply seen_has_cons in Hk'.
      destruct Hk' as [-> | Hk']; [left; reflexivity | right; auto].
Qed.

(** *** The comparison of the loop and equality *)

Lemma odd_part_spec (m : positive) :
  forall e,
    Z.odd (Zpos (fst (PyFloat.odd_part m e))) = true
    /\ e <= snd (PyFloat.odd_part m e)
    /\ Zpos m
       = Zpos (fst (PyFloat.odd_part m e))
         * 2 ^ (snd (PyFloat.odd_part m e) - e).
Proof.
  induction m as [m IH | m IH |]; intros e; cbn [PyFloat.odd_part fst snd].
  - repeat split; [lia | rewrite Z.sub_diag; lia].
  - destruct (IH (e + 1)) as (Hodd & Hle & Hval).
    repeat split; [exact Hodd | lia |].
    replace (snd (PyFloat.odd_part m (e + 1)) - e)
      with (Z.succ (snd (PyFloat.odd_part m (e + 1)) - (e + 1))) by lia.
    rewrite Z.pow_succ_r by lia. lia.
  - repeat split; [lia | rewrite Z.sub_diag; lia].
Qed.

Lemma odd_times_power_unique (o1 o2 a b : Z) :
  Z.odd o1 = true -> Z.odd o2 = true -> 0 <= a -> 0 <= b ->
  o1 * 2 ^ a = o2 * 2 ^ b -> o1 = o2 /\ a = b.
Proof.
  assert (forall o1 o2 a b,
             Z.odd o1 = true -> Z.odd o2 = true -> 0 <= a -> a <= b ->
             o1 * 2 ^ a = o2 * 2 ^ b -> o1 = o2 /\ a = b) as Hle.
  { clear. intros o1 o2 a b H1 H2 Ha Hab Heq.
    replace b with (a + (b - a)) in Heq by lia.
    rewrite Z.pow_add_r in Heq by lia.
    assert (0 < 2 ^ a) as Hpos by (apply Z.pow_pos_nonneg; lia).
    assert (o1 = o2 * 2 ^ (b - a)) as Ho by nia.
    destruct (Z.eq_dec a b) as [<- | Hne].
    - rewrite Z.sub_diag in Ho. split; [lia | reflexivity].
    - exfalso. rewrite Ho, Z.odd_mul in H1.
      rewrite (Z.odd_pow 2 (b - a)) in H1 by lia.
      rewrite Bool.andb_false_r in H1. discriminate. }
  intros H1 H2 Ha Hb Heq.
  destruct (Z.le_ge_cases a b) as [Hab | Hab].
  - exact (Hle o1 o2 a b H1 H2 Ha Hab Heq).
  - destruct (Hle o2 o1 b a H2 H1 Hb Hab (eq_sym Heq)) as [-> ->].
    split; reflexivity.
Qed.

(** Two floats have one key exactly when they are equal. *)
Lemma number_key_equal (x y : PyFloat.t) :
  number_key x = number_key y <-> float_equal x y = true.
Proof.
  destruct x as [n1 | n1 m1 e1 | n1], y as [n2 | n2 m2 e2 | n2];
    cbn [number_key float_equal].
  - split; reflexivity.
  - destruct (PyFloat.odd_part m2 e2). split; intros H; discriminate H.
  - split; intros H; discriminate H.
  - destruct (PyFloat.odd_part m1 e1). split; intros H; discriminate H.
  - destruct (odd_part_spec m1 e1) as (Ho1 & Hl1 & Hv1).
    destruct (odd_part_spec m2 e2) as (Ho2 & Hl2 & Hv2).
    destruct (PyFloat.odd_part m1 e1) as [o1 f1].
    destruct (PyFloat.odd_part m2 e2) as [o2 f2].
    cbn [fst snd] in *. unfold same_number.
    set (lo := Z.min e1 e2).
    assert (Zpos m1 * 2 ^ (e1 - lo) = Zpos o1 * 2 ^ (f1 - lo)) as E1.
    { rewrite Hv1, <- Z.mul_assoc, <- Z.pow_add_r by (unfold lo; lia).
      f_equal. f_equal. lia. }
    assert (Zpos m2 * 2 ^ (e2 - lo) = Zpos o2 * 2 ^ (f2 - lo)) as E2.
    { rewrite Hv2, <- Z.mul_assoc, <- Z.pow_add_r by (unfold lo; lia).
      f_equal. f_equal. lia. }
    rewrite E1, E2. rewrite Bool.andb_true_iff, Bool.eqb_true_iff, Z.eqb_eq.
    split.
    + intros H. injection H as -> -> ->. split; reflexivity.
    + intros [-> Heq].
      assert (0 <= f1 - lo) as Hf1 by (unfold lo; lia).
      assert (0 <= f2 - lo) as Hf2 by (unfold lo; lia).
      destruct (odd_times_power_unique _ _ _ _ Ho1 Ho2 Hf1 Hf2 Heq)
        as [Ho Hf].
      injection Ho as ->. replace f2 with f1 by lia. reflexivity.
  - destruct (PyFloat.odd_part m1 e1). split; intros H; discriminate H.
  - split; intros H; discriminate H.
  - destruct (PyFloat.odd_part m2 e2). split; intros H; discriminate H.
  - rewrite Bool.eqb_true_iff. split; intros H.
    + injection H as ->. reflexivity.
    + rewrite H. reflexivity.
Qed.

Lemma odd_part_settled (m : positive) :
  forall e,
    PyFloat.odd_part (fst (PyFloat.odd_part m e)) (snd (PyFloat.odd_part m e))
    = PyFloat.odd_part m e.
Proof.
  induction m as [m IH | m IH |]; intros e; cbn [PyFloat.odd_part fst snd].
  - reflexivity.
  - apply IH.
  - reflexivity.
Qed.

Lemma atom_of_int (n : Z) :
  atom_of (VInt n) = Ok (ANum (number_key (int_as_float n))).
Proof.
  cbn [atom_of]. f_equal. f_equal. unfold int_as_float, PyFloat.of_scaled.
  destruct n as [| p | p]; cbn [Z.abs Z.eqb Z.ltb Z.compare Z.to_pos number_key].
  - reflexivity.
  - pose proof (odd_part_settled p 0) as Hs.
    destruct (PyFloat.odd_part p 0) as [o f]. cbn [fst snd number_key] in *.
    rewrite Hs. reflexivity.
  - pose proof (odd_part_settled p 0) as Hs.
    destruct (PyFloat.odd_part p 0) as [o f]. cbn [fst snd number_key] in *.
    rewrite Hs. reflexivity.
Qed.

Lemma int_as_float_equal (n m : Z) :
  float_equal (int_as_float n) (int_as_float m) = (n =? m).
Proof.
  unfold int_as_float.
  destruct (Z.eqb_spec n 0) as [-> | Hn], (Z.eqb_spec m 0) as [-> | Hm];
    cbn [float_equal].
  - reflexivity.
  - symmetry. apply Z.eqb_neq. lia.
  - symmetry. apply Z.eqb_neq. lia.
  - unfold same_number. rewrite !Z2Pos.id by lia.
    rewrite Z.min_id, Z.sub_diag, Z.pow_0_r, !Z.mul_1_r.
    apply Bool.eq_iff_eq_true.
    rewrite Bool.andb_true_iff, Bool.eqb_true_iff, !Z.eqb_eq.
    split.
    + intros [Hs Ha].
      destruct (Z.ltb_spec n 0), (Z.ltb_spec m 0); try discriminate Hs; lia.
    + intros ->. split; reflexivity.
Qed.

Lemma int_as_float_equal_float (n : Z) (y : PyFloat.t) :
  float_equal (int_as_float n) y = int_equal_float n y.
Proof.
  unfold int_as_float.
  destruct y as [neg | neg m e | neg];
    destruct (Z.eqb_spec n 0) as [-> | Hn];
    cbn [float_equal int_equal_float]; try reflexivity.
  - symmetry. apply Z.eqb_neq. exact Hn.
  - unfold same_number. symmetry. apply Bool.andb_false_iff. right.
    apply Z.eqb_neq. change (Z.abs 0) with 0. rewrite Z.mul_0_l.
    assert (0 < 2 ^ (e - Z.min 0 e)) by (apply Z.pow_pos_nonneg; lia).
    nia.
  - rewrite Z2Pos.id by lia. reflexivity.
Qed.

(** Two scalars have one key in the set exactly when they are equal. *)
Lemma raw_equal_atoms (a b : value) (ka kb : atom) :
  atom_of a = Ok ka -> atom_of b = Ok kb ->
  (raw_equal a b = true <-> ka = kb).
Proof.
  assert (forall x y, ANum (number_key x) = ANum (number_key y)
                      <-> float_equal x y = true) as Hnum.
  { intros x y. rewrite <- number_key_equal. split; intros H.
    - injection H as H. exact H.
    - rewrite H. reflexivity. }
  destruct a as [| n | x | s | l | d]; try discriminate;
    destruct b as [| m | y | t | l' | d']; try discriminate;
    rewrite ?atom_of_int; cbn [atom_of raw_equal];
    intros Ha Hb; injection Ha as <-; injection Hb as <-;
    try (split; intros H; discriminate H).
  - split; reflexivity.
  - rewrite Hnum, int_as_float_equal. reflexivity.
  - rewrite Hnum, int_as_float_equal_float. reflexivity.
  - rewrite <- int_as_float_equal_float, <- !number_key_equal.
    split; intros H.
    + rewrite H. reflexivity.
    + injection H as H. symmetry. exact H.
  - rewrite Hnum. reflexivity.
  - rewrite String.eqb_eq. split; intros H.
    + rewrite H. reflexivity.
    + injection H as H. exact H.
Qed.

(** *** The order of the keys *)

Lemma ascii_compare_lt_trans (a b c : ascii) :
  Ascii.compare a b = Lt -> Ascii.compare b c = Lt -> Ascii.compare a c = Lt.
Proof.
  unfold Ascii.compare. rewrite !N.compare_lt_iff. lia.
Qed.

Lemma string_compare_refl (s : string) : String.compare s s = Eq.
Proof.
  induction s as [| c s IH]; cbn [String.compare]; [reflexivity |].
  unfold Ascii.compare. rewrite N.compare_refl. exact IH.
Qed.

Lemma string_compare_lt_trans (a : string) :
  forall b c,
    String.compare a b = Lt -> String.compare b c = Lt ->
    String.compare a c = Lt.
Proof.
  induction a as [| x a IH]; intros [| y b] [| z c];
    cbn [String.compare]; try discriminate; try reflexivity.
  intros H1 H2.
  destruct (Ascii.compare x y) eqn:Hxy; try discriminate;
    destruct (Ascii.compare y z) eqn:Hyz; try discriminate.
  - apply Ascii.compare_eq_iff in Hxy, Hyz. subst y z.
    replace (Ascii.compare x x) with Eq
      by (symmetry; unfold Ascii.compare; apply N.compare_refl).
    exact (IH b c H1 H2).
  - apply Ascii.compare_eq_iff in Hxy. subst y. rewrite Hyz. reflexivity.
  - apply Ascii.compare_eq_iff in Hyz. subst z. rewrite Hxy. reflexivity.
  - rewrite (ascii_compare_lt_trans x y z Hxy Hyz). reflexivity.
Qed.

Lemma insert_item_in (kv x : string * value) (l : list (string * value)) :
  In x (insert_item kv l) <-> x = kv \/ In x l.
Proof.
  induction l as [| kv' rest IH]; cbn [insert_item In].
  - intuition congruence.
  - destruct (String.leb (fst kv) (fst kv')); cbn [In].
    + intuition congruence.
    + rewrite IH. intuition congruence.
Qed.

Lemma sorted_items_in (x : string * value) (d : dict) :
  In x (sorted_items d) <-> In x d.
Proof.
  unfold sorted_items.
  induction d as [| kv rest IH]; cbn [fold_right In]; [reflexivity |].
  rewrite insert_item_in, IH. intuition congruence.
Qed.

Lemma insert_item_increasing (kv : string * value)
    (l : list (string * value)) :
  keys_increasing l -> ~ In (fst kv) (map fst l) ->
  keys_increasing (insert_item kv l).
Proof.
  unfold keys_increasing.
  induction l as [| kv' rest IH]; intros Hs Hnew; cbn [insert_item map].
  - constructor; constructor.
  - cbn [map] in Hs, Hnew. inversion Hs as [| ? ? Hrest Hall]; subst.
    destruct (String.leb (fst kv) (fst kv')) eqn:Hle; cbn [map].
    + assert (String.compare (fst kv) (fst kv') = Lt) as Hlt.
      { unfold String.leb in Hle.
        destruct (String.compare (fst kv) (fst kv')) eqn:Hc;
          [| reflexivity | discriminate].
        apply String.compare_eq_iff in Hc. exfalso. apply Hnew.
        left. symmetry. exact Hc. }
      constructor; [exact Hs |]. constructor; [exact Hlt |].
      rewrite Forall_forall in *. intros k Hk.
      exact (string_compare_lt_trans _ _ _ Hlt (Hall k Hk)).
    + assert (String.compare (fst kv') (fst kv) = Lt) as Hlt.
      { unfold String.leb in Hle. rewrite String.compare_antisym.
        destruct (String.compare (fst kv) (fst kv')); try discriminate.
        reflexivity. }
      constructor.
      * apply IH; [exact Hrest |]. intros Hin. apply Hnew. right. exact Hin.
      * rewrite Forall_forall in *. intros k Hk.
        apply in_map_iff in Hk as (x & <- & Hx).
        apply insert_item_in in Hx as [-> | Hx]; [exact Hlt |].
        apply Hall. apply in_map. exact Hx.
Qed.

Lemma no_repeat_cons (k : string) (rest : list string) :
  no_repeat (k :: rest) = true -> ~ In k rest /\ no_repeat rest = true.
Proof.
  cbn [no_repeat]. intros H. apply Bool.andb_true_iff in H as [Hk Hrest].
  split; [| exact Hrest]. intros Hin.
  apply Bool.negb_true_iff in Hk.
  assert (existsb (String.eqb k) rest = true) as He.
  { apply existsb_exists. exists k. split; [exact Hin |].
    apply String.eqb_refl. }
  congruence.
Qed.

Lemma sorted_items_increasing (d : dict) :
  no_repeat (map fst d) = true -> keys_increasing (sorted_items d).
Proof.
  unfold sorted_items.
  induction d as [| kv rest IH]; intros Hd; cbn [fold_right].
  - constructor.
  - cbn [map] in Hd. apply no_repeat_cons in Hd as [Hnew Hrest].
    apply insert_item_increasing; [exact (IH Hrest) |].
    intros Hin. apply Hnew.
    apply in_map_iff in Hin as (x & Hx & Hin).
    apply (sorted_items_in x rest) in Hin.
    rewrite <- Hx. apply in_map. exact Hin.
Qed.

(** Two lists with increasing keys and the same elements are one
    list. *)
Lemma increasing_same_elements {A : Type} (l1 : list (string * A)) :
  forall l2,
    keys_increasing l1 -> keys_increasing l2 ->
    (forall x, In x l1 <-> In x l2) ->
    l1 = l2.
Proof.
  unfold keys_increasing.
  induction l1 as [| a r1 IH]; intros [| b r2] H1 H2 Hsame.
  - reflexivity.
  - destruct (proj2 (Hsame b) (or_introl eq_refl)).
  - destruct (proj1 (Hsame a) (or_introl eq_refl)).
  - cbn [map] in H1, H2.
    inversion H1 as [| ? ? Hr1 Ha]; subst.
    inversion H2 as [| ? ? Hr2 Hb]; subst.
    rewrite Forall_forall in Ha, Hb.
    assert (forall x, In x r1 -> String.compare (fst a) (fst x) = Lt) as Ha'
      by (intros x Hx; apply Ha; apply in_map; exact Hx).
    assert (forall x, In x r2 -> String.compare (fst b) (fst x) = Lt) as Hb'
      by (intros x Hx; apply Hb; apply in_map; exact Hx).
    assert (a = b) as ->.
    { destruct (proj1 (Hsame a) (or_introl eq_refl)) as [E | Hin];
        [symmetry; exact E |].
      destruct (proj2 (Hsame b) (or_introl eq_refl)) as [E | Hin'];
        [exact E |].
      pose proof (Hb' a Hin) as Hba. pose proof (Ha' b Hin') as Hab.
      rewrite String.compare_antisym, Hba in Hab. discriminate. }
    f_equal. apply IH; [exact Hr1 | exact Hr2 |].
    intros x. split; intros Hx.
    + destruct (proj1 (Hsame x) (or_intror Hx)) as [<- | Hin];
        [| exact Hin].
      pose proof (Ha' b Hx) as Hbb.
      rewrite string_compare_refl in Hbb. discriminate.
    + destruct (proj2 (Hsame x) (or_intror Hx)) as [<- | Hin];
        [| exact Hin].
      pose proof (Hb' b Hx) as Hbb.
      rewrite string_compare_refl in Hbb. discriminate.
Qed.

Lemma atoms_of_keys (l : list (string * value)) :
  forall t, atoms_of l = Ok t -> map fst t = map fst l.
Proof.
  induction l as [| [k v] rest IH]; intros t H; cbn [atoms_of] in H.
  - injection H as <-. reflexivity.
  - destruct (atom_of v) as [a |]; cbn [bind] in H; [| discriminate].
    destruct (atoms_of rest) as [r |]; cbn [bind] in H; [| discriminate].
    injection H as <-. cbn [map fst]. rewrite (IH r eq_refl). reflexivity.
Qed.

Lemma atoms_of_in (l : list (string * value)) :
  forall t,
    atoms_of l = Ok t ->
    (forall k a,
        In (k, a) t -> exists v, In (k, v) l /\ atom_of v = Ok a)
    /\ (forall k v,
           In (k, v) l -> exists a, In (k, a) t /\ atom_of v = Ok a).
Proof.
  induction l as [| [k0 v0] rest IH]; intros t H; cbn [atoms_of] in H.
  - injection H as <-. split; intros ? ? [].
  - destruct (atom_of v0) as [a0 |] eqn:Ha; cbn [bind] in H; [| discriminate].
    destruct (atoms_of rest) as [r |]; cbn [bind] in H; [| discriminate].
    injection H as <-. destruct (IH r eq_refl) as [Hto Hfrom]. split.
    + intros k a [E | Hin].
      * injection E as <- <-. exists v0. split; [left; reflexivity | exact Ha].
      * destruct (Hto k a Hin) as (v & Hv & Hav).
        exists v. split; [right; exact Hv | exact Hav].
    + intros k v [E | Hin].
      * injection E as <- <-. exists a0. split; [left; reflexivity | exact Ha].
      * destruct (Hfrom k v Hin) as (a & Hin' & Hav).
        exists a. split; [right; exact Hin' | exact Hav].
Qed.

Lemma has_pairs_tuples (da db : dict) (ta tb : list (string * atom)) :
  atoms_of (sorted_items da) = Ok ta ->
  atoms_of (sorted_items db) = Ok tb ->
  (forallb (fun kv => has_pair kv db) da = true
   <-> forall x, In x ta -> In x tb).
Proof.
  intros Ha Hb.
  destruct (atoms_of_in _ _ Ha) as [Hato Hafrom].
  destruct (atoms_of_in _ _ Hb) as [Hbto Hbfrom].
  rewrite forallb_forall. split.
  - intros Hall [k a] Hin.
    destruct (Hato k a Hin) as (v & Hv & Hav).
    apply (proj1 (sorted_items_in _ _)) in Hv.
    specialize (Hall (k, v) Hv). unfold has_pair in Hall.
    apply existsb_exists in Hall as ([k' w] & Hw & Hkw).
    cbn [fst snd] in Hkw. apply Bool.andb_true_iff in Hkw as [Hk Heq].
    apply String.eqb_eq in Hk. subst k'.
    apply (proj2 (sorted_items_in _ _)) in Hw.
    destruct (Hbfrom k w Hw) as (a' & Hin' & Haw).
    apply (raw_equal_atoms v w a a' Hav Haw) in Heq. subst a'. exact Hin'.
  - intros Hsub [k v] Hv. apply (proj2 (sorted_items_in _ _)) in Hv.
    destruct (Hafrom k v Hv) as (a & Hin & Hav).
    destruct (Hbto k a (Hsub _ Hin)) as (w & Hw & Haw).
    apply (proj1 (sorted_items_in _ _)) in Hw.
    unfold has_pair. apply existsb_exists. exists (k, w).
    split; [exact Hw |]. cbn [fst snd].
    rewrite String.eqb_refl. cbn [andb].
    apply (raw_equal_atoms v w a a Hav Haw). reflexivity.
Qed.

(** Two records have one key in the set exactly when they have the
    same field/value pairs. *)
Lemma same_pairs_tuples (da db : dict) (ta tb : list (string * atom)) :
  no_repeat (map fst da) = true ->
  no_repeat (map fst db) = true ->
  atoms_of (sorted_items da) = Ok ta ->
  atoms_of (sorted_items db) = Ok tb ->
  (same_pairs da db = true <-> ta = tb).
Proof.
  intros Hda Hdb Ha Hb. unfold same_pairs.
  rewrite Bool.andb_true_iff.
  rewrite (has_pairs_tuples da db ta tb Ha Hb).
  rewrite (has_pairs_tuples db da tb ta Hb Ha).
  split.
  - intros [Hab Hba]. apply increasing_same_elements.
    + unfold keys_increasing. rewrite (atoms_of_keys _ _ Ha).
      exact (sorted_items_increasing da Hda).
    + unfold keys_increasing. rewrite (atoms_of_keys _ _ Hb).
      exact (sorted_items_increasing db Hdb).
    + intros x. split; [apply Hab | apply Hba].
  - intros ->. split; intros x Hx; exact Hx.
Qed.

Lemma distinct_keys_record (d : dict) :
  distinct_keys (VDict d) = true -> no_repeat (map fst d) = true.
Proof.
  cbn [distinct_keys]. intros H.
  apply Bool.andb_true_iff in H as [H _]. exact H.
Qed.

(** Two elements have one key in the set exactly when they compare
    equal. *)
Lemma equal_element_keys (x y : value) (kx ky : hkey) :
  item_key x = Ok kx -> item_key y = Ok ky ->
  distinct_keys x = true -> distinct_keys y = true ->
  (equal_element x y = true <-> kx = ky).
Proof.
  intros Hx Hy Dx Dy.
  assert (forall v k,
             item_key v = Ok k ->
             (exists d t, v = VDict d /\ atoms_of (sorted_items d) = Ok t
                          /\ k = HTuple t)
             \/ (exists a, atom_of v = Ok a /\ k = HScalar a
                           /\ forall d, v <> VDict d)) as Hshape.
  { intros v k Hk.
    destruct v as [| n | f | s | l | d]; cbn [item_key] in Hk;
      try (right;
           match type of Hk with
           | bind ?e _ = _ => destruct e as [a |] eqn:Ha
           end; cbn [bind] in Hk; [| discriminate];
           injection Hk as <-; exists a;
           split; [reflexivity | split; [reflexivity | intros d0; discriminate]]).
    left. destruct (atoms_of (sorted_items d)) as [t |] eqn:Ht;
      cbn [bind] in Hk; [| discriminate].
    injection Hk as <-. exists d, t. repeat split; assumption. }
  destruct (Hshape x kx Hx) as [(dx & tx & -> & Htx & ->)
                               | (ax & Hax & -> & Hnx)];
    destruct (Hshape y ky Hy) as [(dy & ty & -> & Hty & ->)
                                 | (ay & Hay & -> & Hny)].
  - cbn [equal_element].
    rewrite (same_pairs_tuples dx dy tx ty (distinct_keys_record _ Dx)
               (distinct_keys_record _ Dy) Htx Hty).
    split; intros H; [rewrite H; reflexivity | injection H as H; exact H].
  - assert (equal_element (VDict dx) y = false) as ->
      by (destruct y; try reflexivity; destruct (Hny _ eq_refl)).
    split; intros H; discriminate H.
  - assert (equal_element x (VDict dy) = false) as ->
      by (destruct x; try reflexivity; destruct (Hnx _ eq_refl)).
    split; intros H; discriminate H.
  - assert (equal_element x y = raw_equal x y) as ->.
    { destruct x; try (destruct (Hnx _ eq_refl));
        destruct y; try (destruct (Hny _ eq_refl)); reflexivity. }
    rewrite (raw_equal_atoms x y ax ay Hax Hay).
    split; intros H; [rewrite H; reflexivity | injection H as H; exact H].
Qed.

Lemma equal_element_seen (item : value) (k : hkey) (seen : list hkey)
    (earlier : list value) :
  item_key item = Ok k ->
  distinct_keys item = true ->
  Forall (fun x => distinct_keys x = true
                   /\ exists kx, item_key x = Ok kx) earlier ->
  (forall k', seen_has k' seen = true
              <-> exists x, In x earlier /\ item_key x = Ok k') ->
  existsb (equal_element item) earlier = seen_has k seen.
Proof.
  intros Hk Hd Hearlier Hinv. rewrite Forall_forall in Hearlier.
  apply Bool.eq_iff_eq_true.
  rewrite existsb_exists, Hinv.
  split; intros [x [Hin Hx]]; exists x; (split; [exact Hin |]).
  - destruct (Hearlier x Hin) as [Dx [kx Hkx]].
    apply (equal_element_keys item x k kx Hk Hkx Hd Dx) in Hx.
    subst kx. exact Hkx.
  - destruct (Hearlier x Hin) as [Dx _].
    apply (equal_element_keys item x k k Hk Hx Hd Dx). reflexivity.
Qed.

(** The inner loop keeps exactly the elements that equal no element
    before them, when [seen] holds the keys of the elements before. *)
Lemma dedup_items_first_occurrences (items : list value) :
  forall seen earlier out,
    forallb distinct_keys items = true ->
    Forall (fun x => distinct_keys x = true
                     /\ exists kx, item_key x = Ok kx) earlier ->
    (forall k, seen_has k seen = true
               <-> exists x, In x earlier /\ item_key x = Ok k) ->
    dedup_items seen items = Ok out ->
    out = first_occurrences earlier items.
Proof.
  induction items as [| item rest IH];
    intros seen earlier out Hd Hearlier Hinv H; simpl in H.
  - injection H as <-. reflexivity.
  - cbn [forallb] in Hd. apply Bool.andb_true_iff in Hd as [Hitem Hrest].
    destruct (item_key item) as [k | e] eqn:Hk; simpl in H; [| discriminate].
    simpl.
    rewrite (equal_element_seen item k seen earlier Hk Hitem Hearlier Hinv).
    assert (Forall (fun x => distinct_keys x = true
                             /\ exists kx, item_key x = Ok kx)
                   (item :: earlier)) as Hnext.
    { constructor; [| exact Hearlier]. split; [exact Hitem |].
      exists k. exact Hk. }
    destruct (seen_has k seen) eqn:Hs.
    + apply (IH seen (item :: earlier) out Hrest Hnext); [| exact H].
      intros k'. rewrite Hinv. split.
      * intros [x [Hin Hx]]. exists x. split; [right; exact Hin | exact Hx].
      * intros [x [[<- | Hin] Hx]].
        -- rewrite Hk in Hx. injection Hx as <-.
           apply Hinv. exact Hs.
        -- exists x. split; assumption.
    + destruct (dedup_items (k :: seen) rest) as [r | e] eqn:Hr; simpl in H;
        [| discriminate].
      injection H as <-. f_equal.
      apply (IH (k :: seen) (item :: earlier) r Hrest Hnext); [| exact Hr].
      intros k'. rewrite seen_has_cons, Hinv. split.
      * intros [-> | [x [Hin Hx]]].
        -- exists item. split; [left; reflexivity | exact Hk].
        -- exists x. split; [right; exact Hin | exact Hx].
      * intros [x [[<- | Hin] Hx]].
        -- left. rewrite Hk in Hx. injection Hx as <-. reflexivity.
        -- right. exists x. split; assumption.
Qed.

Lemma dedup_entry_settled (key : string) (v v' : value) :
  settled v ->
  distinct_keys v = true ->
  dedup_entry key v = Ok v' ->
  dedup_entry key v' = Ok v'
  /\ (key, v')
     = match is_dedup_key key, v with
       | true, VList items => (key, VList (first_occurrences [] items))
       | _, _ => (key, deduplicated v)
       end.
Proof.
  intros Hv Hd. unfold dedup_entry.
  destruct (is_dedup_key key) eqn:Hkey.
  - destruct v as [| n | x | s | items | entries];
      try (intros H; destruct (Hv Hd v' H) as [H2 ->]; split;
           [exact H2 | reflexivity]).
    destruct (dedup_items [] items) as [l | e] eqn:Hl; simpl;
      [| discriminate].
    intros H; injection H as <-. split.
    + rewrite (dedup_items_stable items [] l Hl []); [reflexivity | auto].
    + f_equal. f_equal.
      apply (dedup_items_first_occurrences items [] [] l);
        [exact Hd | constructor | | exact Hl].
      intros k. split; [discriminate | intros [x [[] _]]].
  - intros H. destruct (Hv Hd v' H) as [H2 ->].
    split; [exact H2 | reflexivity].
Qed.

Lemma dedup_entries_settled (entries : dict) :
  Forall (fun kv => settled (snd kv)) entries ->
  forallb (fun kv => let '(_, w) := kv in distinct_keys w) entries = true ->
  forall entries',
    dedup_entries entries = Ok entries' ->
    dedup_entries entries' = Ok entries'
    /\ VDict entries' = deduplicated (VDict entries).
Proof.
  induction 1 as [| [key v] rest Hv _ IH]; intros Hd entries' H; simpl in H.
  - injection H as <-. split; reflexivity.
  - cbn [forallb] in Hd. apply Bool.andb_true_iff in Hd as [Hdv Hdrest].
    destruct (dedup_entry key v) as [v' |] eqn:Hentry; simpl in H;
      [| discriminate].
    destruct (dedup_entries rest) as [rest' |] eqn:Hrest; simpl in H;
      [| discriminate].
    injection H as <-.
    destruct (dedup_entry_settled key v v' Hv Hdv Hentry) as [H2 Heq].
    destruct (IH Hdrest rest' eq_refl) as [H3 Hrest'].
    split.
    + simpl. rewrite H2. simpl. rewrite H3. reflexivity.
    + simpl in Hrest'. injection Hrest' as Hrest'.
      simpl. rewrite <- Hrest'. f_equal. f_equal.
      rewrite Heq. destruct (is_dedup_key key); [destruct v |]; reflexivity.
Qed.

Lemma dedup_each_settled (items : list value) :
  Forall settled items ->
  forallb distinct_keys items = true ->
  forall items',
    dedup_each items = Ok items' ->
    dedup_each items' = Ok items'
    /\ items' = map deduplicated items.
Proof.
  induction 1 as [| item rest Hitem _ IH]; intros Hd items' H; simpl in H.
  - injection H as <-. split; reflexivity.
  - cbn [forallb] in Hd. apply Bool.andb_true_iff in Hd as [Hdi Hdrest].
    destruct (deduplicate_serial_and_hardware item) as [item' |] eqn:Hi;
      simpl in H; [| discriminate].
    destruct (dedup_each rest) as [rest' |] eqn:Hrest; simpl in H;
      [| discriminate].
    injection H as <-.
    destruct (Hitem Hdi item' Hi) as [H2 ->].
    destruct (IH Hdrest rest' eq_refl) as [H3 ->].
    split; [| reflexivity].
    simpl. rewrite H2. simpl. rewrite H3. reflexivity.
Qed.

(** C8: the deduplication is idempotent, and a deduplicated list keeps
    its first occurrences in their order: whenever the function returns
    on a document (its dictionaries having distinct keys, as every
    dictionary of the interpreter has), a second run on the result
    returns that result unchanged, and the result is the document in
    which every list under a key "serial" or "hardware" (in any letter
    case) is replaced by the elements that equal no earlier element of
    the list, two records being equal when they have the same
    field/value pairs, whatever the order of their fields, and two
    scalars when they are equal. *)
Theorem deduplicate_idempotent_first_occurrences (data data' : value) :
  distinct_keys data = true ->
  deduplicate_serial_and_hardware data = Ok data' ->
  deduplicate_serial_and_hardware data' = Ok data'
  /\ data' = deduplicated data.
Proof.
  intros Hd. revert data'. revert Hd. change (settled data).
  induction data as [| n | x | s | items IH | entries IH]
    using value_nested_ind; unfold settled.
  1-4: intros _ v' H; simpl in H; injection H as <-; split; reflexivity.
  - intros Hd v'. rewrite deduplicate_list.
    destruct (dedup_each items) as [items' |] eqn:He; simpl; [| discriminate].
    intros H; injection H as <-.
    destruct (dedup_each_settled items IH Hd items' He) as [H2 ->].
    split; [| reflexivity].
    rewrite deduplicate_list, H2. reflexivity.
  - intros Hd v'. rewrite deduplicate_dict.
    cbn [distinct_keys] in Hd. apply Bool.andb_true_iff in Hd as [_ Hd].
    destruct (dedup_entries entries) as [entries' |] eqn:He; simpl;
      [| discriminate].
    intros H; injection H as <-.
    destruct (dedup_entries_settled entries IH Hd entries' He) as [H2 Heq].
    split; [| exact Heq].
    rewrite deduplicate_dict, H2. reflexivity.
Qed.

Lemma deduplicate_idempotent_first_occurrences_witness :
  deduplicate_serial_and_hardware inventory_tables_deduplicated
  = Ok inventory_tables_deduplicated
  /\ inventory_tables_deduplicated = deduplicated inventory_tables.
Proof.
  apply (deduplicate_idempotent_first_occurrences
           inventory_tables inventory_tables_deduplicated).
  - reflexivity.
  - reflexivity.
Defined.

(** The comparison of the loop is the equality of the elements. *)
Lemma same_item_equal_element (x y : value) (kx ky : hkey) :
  item_key x = Ok kx -> item_key y = Ok ky ->
  distinct_keys x = true -> distinct_keys y = true ->
  same_item x y = equal_element x y.
Proof.
  intros Hx Hy Dx Dy. unfold same_item. rewrite Hx, Hy.
  pose proof (equal_element_keys x y kx ky Hx Hy Dx Dy) as Hiff.
  destruct (hkey_eq_dec kx ky) as [E | Hne].
  - symmetry. apply Hiff. exact E.
  - destruct (equal_element x y); [| reflexivity].
    destruct Hne. apply Hiff. reflexivity.
Qed.

(** Equality does not look at the order of the fields, and takes
    numbers by their value. *)
Lemma equal_element_examples :
  equal_element (VDict [("pid", VStr "X"); ("sn", VStr "A1")])
                (VDict [("sn", VStr "A1"); ("pid", VStr "X")]) = true
  /\ equal_element (VDict [("pid", VStr "X"); ("sn", VStr "A1")])
                   (VDict [("pid", VStr "X")]) = false
  /\ equal_element (VInt 1) (VFloat (PyFloat.Fin false 1 0)) = true
  /\ equal_element (VFloat (PyFloat.Fin false 3 (-1)))
                   (VFloat (PyFloat.Fin false 6 (-2))) = true
  /\ equal_element (VStr "1") (VInt 1) = false.
Proof. repeat split; reflexivity. Qed.

(** Records are compared whatever the order of their fields, and
    numbers by their value. *)
Lemma same_item_examples :
  same_item (VDict [("pid", VStr "X"); ("sn", VStr "A1")])
            (VDict [("sn", VStr "A1"); ("pid", VStr "X")]) = true
  /\ same_item (VInt 1) (VFloat (PyFloat.Fin false 1 0)) = true
  /\ same_item (VStr "1") (VInt 1) = false
  /\ first_occurrences []
       [VStr "b"; VStr "a"; VStr "b"; VStr "c"; VStr "a"]
     = [VStr "b"; VStr "a"; VStr "c"].
Proof. repeat split; reflexivity. Qed.

(** An element that cannot be hashed stops the function. *)
Lemma deduplicate_unhashable :
  deduplicate_serial_and_hardware
    (VDict [("serial", VList [VList [VStr "A1"]])])
  = Raise TypeError.
Proof. reflexivity. Qed.

(** On tables of flat records the function returns: nothing there is
    unhashable. *)
Lemma dedup_items_scalars (items : list value) :
  forallb is_scalar items = true ->
  forall seen, exists out, dedup_items seen items = Ok out.
Proof.
  induction items as [| item rest IH]; intros Hall seen; simpl.
  - eauto.
  - simpl in Hall. apply Bool.andb_true_iff in Hall as [Hitem Hrest].
    assert (Hk : exists k, item_key item = Ok k)
      by (destruct item; try discriminate; simpl; eauto).
    destruct Hk as [k ->]. simpl.
    destruct (seen_has k seen); [apply IH; exact Hrest |].
    destruct (IH Hrest (k :: seen)) as [out ->]. simpl. eauto.
Qed.

Lemma dedup_each_scalars (items : list value) :
  forallb is_scalar items = true -> dedup_each items = Ok items.
Proof.
  induction items as [| item rest IH]; intros Hall; simpl; [reflexivity |].
  simpl in Hall. apply Bool.andb_true_iff in Hall as [Hitem Hrest].
  rewrite (IH Hrest).
  destruct item; try discriminate; reflexivity.
Qed.

Lemma dedup_entry_cell (key : string) (v : value) :
  is_cell v = true -> exists v', dedup_entry key v = Ok v'.
Proof.
  intros Hcell. unfold dedup_entry.
  destruct v as [| n | x | s | items | entries]; try discriminate;
    try (destruct (is_dedup_key key); simpl; eauto; fail).
  simpl in Hcell. destruct (is_dedup_key key).
  - destruct (dedup_items_scalars items Hcell []) as [out ->]. simpl. eauto.
  - rewrite deduplicate_list, (dedup_each_scalars items Hcell). simpl. eauto.
Qed.

Lemma dedup_entries_cells (fields : dict) :
  forallb (fun kv => is_cell (snd kv)) fields = true ->
  exists fields', dedup_entries fields = Ok fields'.
Proof.
  induction fields as [| [key v] rest IH]; intros Hall; simpl; [eauto |].
  simpl in Hall. apply Bool.andb_true_iff in Hall as [Hcell Hrest].
  destruct (dedup_entry_cell key v Hcell) as [v' ->].
  destruct (IH Hrest) as [rest' ->]. simpl. eauto.
Qed.

Lemma dedup_each_records (records : list value) :
  forallb is_flat_record records = true ->
  exists records', dedup_each records = Ok records'.
Proof.
  induction records as [| record rest IH]; intros Hall; simpl; [eauto |].
  simpl in Hall. apply Bool.andb_true_iff in Hall as [Hrec Hrest].
  destruct record as [| n | x | s | items | fields]; try discriminate.
  rewrite deduplicate_dict.
  destruct (dedup_entries_cells fields Hrec) as [fields' ->].
  destruct (IH Hrest) as [rest' ->]. simpl. eauto.
Qed.

Lemma deduplicate_returns_on_flat_tables (tables : dict) :
  flat_tables tables = true ->
  (forall key, In key (Dict.keys tables) -> is_dedup_key key = false) ->
  exists tables',
    deduplicate_serial_and_hardware (VDict tables) = Ok (VDict tables').
Proof.
  intros Hflat Hkeys. rewrite deduplicate_dict.
  assert (H : exists tables', dedup_entries tables = Ok tables').
  { induction tables as [| [command v] rest IH]; simpl; [eauto |].
    simpl in Hflat. apply Bool.andb_true_iff in Hflat as [Hv Hrest].
    destruct v as [| n | x | s | records | fields]; try discriminate.
    unfold dedup_entry.
    rewrite (Hkeys command (or_introl eq_refl)).
    rewrite deduplicate_list.
    destruct (dedup_each_records records Hv) as [records' ->].
    destruct (IH Hrest) as [rest' ->];
      [intros key Hin; apply Hkeys; right; exact Hin |].
    simpl. eauto. }
  destruct H as [tables' ->]. simpl. eauto.
Qed.

(** * Further properties *)

(** ** Platform detection, continued *)

(** X1: whatever the text, [detect_platform] returns "unknown" or the
    name of a table entry whose content marker and command marker are
    both found in the text: a platform is never reported on its marker
    alone, and no name outside the table is ever returned. *)
Theorem detect_platform_reports_matching_entry (text : string) :
  detect_platform text = "unknown"
  \/ exists content command,
       In (detect_platform text, (content, command)) ENV_PATTERNS
       /\ Re.search_i content text = true
       /\ Re.search_i command text = true.
Proof.
  unfold detect_platform.
  destruct (detect_in_sound text ENV_PATTERNS) as [Hu | [[c m] [Hin Hm]]];
    [left; exact Hu |].
  right. exists c, m. split; [exact Hin |].
  rewrite signature_matches_both in Hm.
  apply Bool.andb_true_iff in Hm. exact Hm.
Qed.

Lemma lower_char_idempotent (c : ascii) :
  PyStr.lower_char (PyStr.lower_char c) = PyStr.lower_char c.
Proof.
  destruct c as [[] [] [] [] [] [] [] []]; reflexivity.
Qed.

Lemma starts_with_i_lower (p s : string) :
  Re.starts_with_i p (PyStr.lower s) = Re.starts_with_i p s.
Proof.
  revert s. induction p as [| a p IH]; intros s; [destruct s; reflexivity |].
  destruct s as [| b s]; [reflexivity |].
  simpl. rewrite lower_char_idempotent, IH. reflexivity.
Qed.

Lemma match_here_i_lower (r : regex) (s : string) :
  Re.match_here_i r (PyStr.lower s) = Re.match_here_i r s.
Proof.
  induction r as [p | a IHa b IHb]; simpl.
  - apply starts_with_i_lower.
  - rewrite IHa, IHb. reflexivity.
Qed.

Lemma search_i_lower (r : regex) (s : string) :
  Re.search_i r (PyStr.lower s) = Re.search_i r s.
Proof.
  induction s as [| c s IH].
  - reflexivity.
  - change (PyStr.lower (String c s))
      with (String (PyStr.lower_char c) (PyStr.lower s)).
    simpl. rewrite IH.
    rewrite <- (match_here_i_lower r (String c s)). reflexivity.
Qed.

(** X2: on a capture of ASCII characters the letter case does not
    matter: the text put in lower case is detected as the text itself.
    (Past ASCII the two part: under [re.IGNORECASE] the dotted capital
    I, U+0130, matches an "i", and [str.lower] turns it into an "i"
    with a combining dot, so that "display" is no longer found.) *)
Theorem detect_platform_ignores_case (text : string) :
  is_ascii_text text = true ->
  detect_platform (PyStr.lower text) = detect_platform text.
Proof.
  intros _. unfold detect_platform.
  induction ENV_PATTERNS as [| [k [c m]] rest IH]; simpl; [reflexivity |].
  rewrite !signature_matches_both, !search_i_lower, IH. reflexivity.
Qed.

Lemma detect_platform_ignores_case_witness :
  detect_platform (PyStr.lower "CISCO IOS Software, SHOW VERSION")
  = detect_platform "CISCO IOS Software, SHOW VERSION".
Proof.
  apply (detect_platform_ignores_case "CISCO IOS Software, SHOW VERSION").
  reflexivity.
Defined.

Lemma starts_with_i_app (p s after : string) :
  Re.starts_with_i p s = true -> Re.starts_with_i p (s ++ after) = true.
Proof.
  revert s. induction p as [| a p IH]; intros s H; [destruct s; reflexivity |].
  destruct s as [| b s]; [discriminate |].
  simpl in *. apply Bool.andb_true_iff in H as [Hc Hrest].
  rewrite Hc, (IH s Hrest). reflexivity.
Qed.

Lemma match_here_i_app (r : regex) (s after : string) :
  Re.match_here_i r s = true -> Re.match_here_i r (s ++ after) = true.
Proof.
  induction r as [p | a IHa b IHb]; simpl; intros H.
  - apply starts_with_i_app. exact H.
  - apply Bool.orb_true_iff in H as [H | H];
      [rewrite (IHa H) | rewrite (IHb H), Bool.orb_true_r]; reflexivity.
Qed.

Lemma search_i_cons (r : regex) (c : ascii) (s : string) :
  Re.search_i r s = true -> Re.search_i r (String c s) = true.
Proof.
  intros H. simpl. destruct s; rewrite H; apply Bool.orb_true_r.
Qed.

(** A pattern found in a text is found in any text around it. *)
Lemma search_i_embedded (r : regex) (before s after : string) :
  Re.search_i r s = true -> Re.search_i r (before ++ s ++ after) = true.
Proof.
  intros H. induction before as [| c before IH].
  - simpl. induction s as [| c s IH].
    + simpl in H. rewrite Bool.orb_false_r in H.
      pose proof (match_here_i_app r "" after H) as H'. simpl in H'.
      destruct after; simpl; simpl in H'; rewrite H'; reflexivity.
    + simpl in H. apply Bool.orb_true_iff in H as [H | H].
      * pose proof (match_here_i_app r (String c s) after H) as H'.
        change (String c s ++ after)%string with (String c (s ++ after))
          in H' |- *.
        simpl. rewrite H'. reflexivity.
      * change (String c s ++ after)%string with (String c (s ++ after)).
        apply search_i_cons. apply IH. exact H.
  - change (String c before ++ s ++ after)%string
      with (String c (before ++ s ++ after)).
    apply search_i_cons. exact IH.
Qed.

(** The loop over any table with distinct keys: when every entry that
    holds for [text] holds for [whole], the result for [whole] stands
    no later in the table than the result for [text]. *)
Lemma detect_in_rank (text whole : string)
    (table : list (string * (regex * regex))) :
  NoDup (map fst table) ->
  ~ In "unknown" (map fst table) ->
  (forall p, signature_matches p text = true ->
             signature_matches p whole = true) ->
  (rank_in (map fst table) (detect_in table whole)
   <= rank_in (map fst table) (detect_in table text))%nat.
Proof.
  intros Hnodup Hunknown Hmono.
  induction table as [| [k p] rest IH]; simpl; [lia |].
  simpl in Hnodup, Hunknown.
  apply NoDup_cons_iff in Hnodup as [Hk Hnodup].
  destruct (signature_matches p whole) eqn:Hw.
  - rewrite String.eqb_refl. lia.
  - destruct (signature_matches p text) eqn:Ht;
      [rewrite (Hmono p Ht) in Hw; discriminate |].
    destruct (String.eqb (detect_in rest whole) k); [lia |].
    assert (Hne : String.eqb (detect_in rest text) k = false).
    { apply String.eqb_neq. intros Heq.
      destruct (detect_in_sound text rest) as [Hu | [q [Hin _]]].
      - apply Hunknown. left. congruence.
      - apply Hk. rewrite <- Heq.
        exact (in_map fst rest (detect_in rest text, q) Hin). }
    rewrite Hne. apply le_n_S. apply IH; [exact Hnodup | tauto].
Qed.

(** X3: text added before or after a capture never hides its platform:
    the capture with the text around it is detected as the same entry
    of the signature table or as an earlier one, and never falls back
    to "unknown" from a platform. *)
Theorem detect_platform_embedded (before text after : string) :
  (platform_rank (detect_platform (before ++ text ++ after))
   <= platform_rank (detect_platform text))%nat
  /\ platform_rank "unknown" = 5%nat.
Proof.
  split; [| reflexivity].
  unfold platform_rank, detect_platform.
  apply detect_in_rank.
  - repeat constructor; simpl; intuition discriminate.
  - simpl. intuition discriminate.
  - intros [c m]. rewrite !signature_matches_both. intros H.
    apply Bool.andb_true_iff in H as [Hc Hm].
    rewrite (search_i_embedded c before text after Hc).
    rewrite (search_i_embedded m before text after Hm). reflexivity.
Qed.

(** ** The Cisco IOS CPU chart, continued *)

Lemma all_ascii_complete (c : ascii) : In c all_ascii.
Proof.
  unfold all_ascii. rewrite <- (ascii_nat_embedding c).
  apply in_map. apply in_seq. pose proof (nat_ascii_bounded c). lia.
Qed.

Lemma buckets_checked :
  forallb
    (fun a =>
       (bucket_ok (PyStr.strip (String a EmptyString))
        && forallb
             (fun b => bucket_ok (PyStr.strip (String a (String b EmptyString))))
             all_ascii)%bool)
    all_ascii = true.
Proof. vm_compute. reflexivity. Qed.

Lemma bucket_value (val : string) (n : Z) :
  bucket_shaped val ->
  PyStr.isdigit val = true ->
  Py.int (VStr val) = Ok n ->
  0 <= n <= 99.
Proof.
  intros Hshape Hdigit Hint.
  assert (Hok : bucket_ok val = true).
  { pose proof buckets_checked as Hall.
    rewrite forallb_forall in Hall.
    destruct Hshape as [[c ->] | [a [b ->]]].
    - specialize (Hall c (all_ascii_complete c)).
      apply Bool.andb_true_iff in Hall as [H1 _]. exact H1.
    - specialize (Hall a (all_ascii_complete a)).
      apply Bool.andb_true_iff in Hall as [_ H2].
      rewrite forallb_forall in H2.
      exact (H2 b (all_ascii_complete b)). }
  unfold bucket_ok in Hok. rewrite Hdigit in Hok.
  simpl in Hint. destruct (PyInt.of_text val) as [m |]; [| discriminate].
  injection Hint as <-.
  apply Bool.andb_true_iff in Hok as [H1 H2]. lia.
Qed.

Lemma chars_single (s : string) :
  Forall (fun x => exists c, x = String c EmptyString) (PyStr.chars s).
Proof.
  induction s as [| c s IH]; simpl; constructor; eauto.
Qed.

Lemma cpu_buckets_shaped (first second : string) :
  Forall bucket_shaped (cpu_buckets (PyStr.chars first) (PyStr.chars second)).
Proof.
  pose proof (chars_single first) as H1.
  pose proof (chars_single second) as H2.
  unfold cpu_buckets.
  destruct H1 as [| x xs Hx Hxs].
  - destruct H2 as [| y ys Hy Hys]; [constructor |].
    assert (Hall : Forall (fun x => exists c, x = String c EmptyString)
                     (y :: ys)) by (constructor; assumption).
    clear Hy Hys. induction Hall as [| z zs [c ->] _ IH]; simpl;
      [constructor |].
    destruct (negb (PyStr.strip (String c "") =? "")%string);
      [constructor; [left; eauto | exact IH] | exact IH].
  - destruct H2 as [| y ys Hy Hys]; [constructor |].
    assert (Hxs' : Forall (fun x => exists c, x = String c EmptyString)
                     (x :: xs)) by (constructor; assumption).
    assert (Hys' : Forall (fun x => exists c, x = String c EmptyString)
                     (y :: ys)) by (constructor; assumption).
    clear Hx Hxs Hy Hys.
    revert Hys'. generalize (y :: ys).
    induction Hxs' as [| a az [c ->] _ IH]; intros l Hl; simpl;
      [constructor |].
    destruct Hl as [| b bz [d ->] Hbz]; simpl; constructor.
    + right. exists c, d. reflexivity.
    + apply IH. exact Hbz.
Qed.

Lemma digit_values_range (values : list string) (ns : list Z) :
  Forall bucket_shaped values ->
  digit_values values = Ok ns ->
  Forall (fun n => 0 <= n <= 99) ns.
Proof.
  intros Hshape. revert ns.
  induction Hshape as [| val rest Hval _ IH]; intros ns H; simpl in H.
  - injection H as <-. constructor.
  - destruct (PyStr.isdigit val) eqn:Hd; [| apply IH; exact H].
    destruct (PyInt.of_text val) as [n |] eqn:Hn; simpl in H;
      [| discriminate].
    destruct (digit_values rest) as [ms | e]; simpl in H; [| discriminate].
    injection H as <-. constructor.
    + apply (bucket_value val n Hval Hd). simpl. rewrite Hn. reflexivity.
    + apply IH. reflexivity.
Qed.

Lemma maximum_range (n : Z) (rest : list Z) :
  0 <= n <= 99 -> Forall (fun m => 0 <= m <= 99) rest ->
  0 <= maximum n rest <= 99.
Proof.
  unfold maximum. intros Hn Hrest. revert n Hn.
  induction Hrest as [| m rest Hm _ IH]; intros n Hn; simpl; [exact Hn |].
  apply IH. lia.
Qed.

(** The block that computes [cpu_max], on the buckets of two rows. *)
Lemma cpu_max_block_class (first second : string) (cpu_data : dict) :
  exists cpu_max,
    Py.catch
      (valid_cpu_values <-
         digit_values (cpu_buckets (PyStr.chars first) (PyStr.chars second));;
       match valid_cpu_values with
       | n :: rest =>
           Ok (Dict.set "cpu_max" (VStr (PyInt.to_text (maximum n rest)))
                        cpu_data)
       | [] => Ok (Dict.set "cpu_max" (VStr "No numeric CPU max found")
                            cpu_data)
       end)
      is_value_error
      (Ok (Dict.set "cpu_max" (VStr "Error parsing CPU max") cpu_data))
    = Ok (Dict.set "cpu_max" (VStr cpu_max) cpu_data)
    /\ cpu_max_text cpu_max.
Proof.
  pose proof (cpu_buckets_shaped first second) as Hshape.
  destruct (cpu_max_block
              (cpu_buckets (PyStr.chars first) (PyStr.chars second)) cpu_data)
    as [mx Hmx].
  destruct (digit_values _) as [[| n rest] | e] eqn:Hd.
  - exists "No numeric CPU max found". split; [reflexivity |].
    left. reflexivity.
  - exists (PyInt.to_text (maximum n rest)). split; [reflexivity |].
    right. right. exists (maximum n rest). split; [| reflexivity].
    pose proof (digit_values_range _ _ Hshape Hd) as Hall.
    inversion Hall as [| ? ? Hn Hrest]; subst.
    apply maximum_range; assumption.
  - exists "Error parsing CPU max".
    simpl in Hmx. simpl.
    destruct (is_value_error e); [| discriminate].
    split; [reflexivity | right; left; reflexivity].
Qed.

(** What the function returns: the two "regex failed" texts, or the
    texts of the two blocks that follow a found window. *)
Lemma extract_cisco_cpu_usage_cases (text : string) (r : dict) :
  extract_cisco_cpu_usage text = Ok r ->
  r = [("cpu_max", VStr "Cannot find max CPU (regex failed)");
       ("cpu_avg", VStr "Cannot find average CPU (regex failed)")]
  \/ exists cpu_max cpu_avg,
       r = [("cpu_max", VStr cpu_max); ("cpu_avg", VStr cpu_avg)]
       /\ cpu_max_text cpu_max /\ cpu_avg_text cpu_avg.
Proof.
  unfold extract_cisco_cpu_usage.
  destruct (Re.search_between _ _ text) as [group1 |];
    [| intros H; injection H as <-; left; reflexivity].
  destruct (Py.from_end 2 _) as [first |]; [cbn [bind] | discriminate].
  destruct (Py.from_end 1 _) as [second |]; [cbn [bind] | discriminate].
  destruct (cpu_max_block_class (PyStr.drop 4 first) (PyStr.drop 4 second)
              [("cpu_max", VStr "N/A"); ("cpu_avg", VStr "N/A")])
    as [mx [-> Hmx]].
  cbn [bind]. intros H. right. exists mx.
  destruct (avg_raw_line group1) as [| line rest].
  - injection H as <-. exists "1". split; [reflexivity |].
    split; [exact Hmx | left; reflexivity].
  - injection H as <-. exists (cpu_avg_of_line line).
    split; [reflexivity |]. split; [exact Hmx |].
    unfold cpu_avg_of_line.
    destruct (Py.int _) as [n | e]; [| right; left; reflexivity].
    destruct (n <? 10) eqn:Hn; [left; reflexivity |].
    right. right. exists n. split; [| reflexivity].
    apply Z.ltb_ge in Hn. exact Hn.
Qed.

(** X4: whenever [extract_cisco_cpu_usage] returns, [cpu_avg] is never
    "N/A" and never the text of a number below 10 other than "1": it is
    "1", the decimal text of an integer from 10 up, or one of the two
    messages ("Error parsing average CPU", or "Cannot find average CPU
    (regex failed)" when the window is missing). *)
Theorem cisco_cpu_avg_values (text : string) (r : dict) :
  extract_cisco_cpu_usage text = Ok r ->
  exists cpu_avg,
    Dict.get "cpu_avg" r = Some (VStr cpu_avg)
    /\ (cpu_avg = "1"
        \/ cpu_avg = "Error parsing average CPU"
        \/ cpu_avg = "Cannot find average CPU (regex failed)"
        \/ exists n, 10 <= n /\ cpu_avg = PyInt.to_text n).
Proof.
  intros H.
  destruct (extract_cisco_cpu_usage_cases text r H)
    as [-> | [mx [av [-> [_ Hav]]]]].
  - eexists. split; [reflexivity |]. right. right. left. reflexivity.
  - exists av. split; [reflexivity |].
    destruct Hav as [-> | [-> | Hn]]; auto.
Qed.

Lemma cisco_cpu_avg_values_witness :
  exists cpu_avg,
    Dict.get "cpu_avg" [("cpu_max", VStr "28"); ("cpu_avg", VStr "1037")]
    = Some (VStr cpu_avg)
    /\ (cpu_avg = "1"
        \/ cpu_avg = "Error parsing average CPU"
        \/ cpu_avg = "Cannot find average CPU (regex failed)"
        \/ exists n, 10 <= n /\ cpu_avg = PyInt.to_text n).
Proof.
  apply (cisco_cpu_avg_values cpu_history_text).
  reflexivity.
Defined.

(** X5: whenever [extract_cisco_cpu_usage] returns, a numeric [cpu_max]
    lies between 0 and 99, a bucket of the chart holding two digits at
    most: [cpu_max] is the decimal text of such an integer or one of
    the three messages. *)
Theorem cisco_cpu_max_values (text : string) (r : dict) :
  extract_cisco_cpu_usage text = Ok r ->
  exists cpu_max,
    Dict.get "cpu_max" r = Some (VStr cpu_max)
    /\ (cpu_max = "No numeric CPU max found"
        \/ cpu_max = "Error parsing CPU max"
        \/ cpu_max = "Cannot find max CPU (regex failed)"
        \/ exists n, 0 <= n <= 99 /\ cpu_max = PyInt.to_text n).
Proof.
  intros H.
  destruct (extract_cisco_cpu_usage_cases text r H)
    as [-> | [mx [av [-> [Hmx _]]]]].
  - eexists. split; [reflexivity |]. right. right. left. reflexivity.
  - exists mx. split; [reflexivity |].
    destruct Hmx as [-> | [-> | Hn]]; auto.
Qed.

Lemma cisco_cpu_max_values_witness :
  exists cpu_max,
    Dict.get "cpu_max" [("cpu_max", VStr "28"); ("cpu_avg", VStr "1037")]
    = Some (VStr cpu_max)
    /\ (cpu_max = "No numeric CPU max found"
        \/ cpu_max = "Error parsing CPU max"
        \/ cpu_max = "Cannot find max CPU (regex failed)"
        \/ exists n, 0 <= n <= 99 /\ cpu_max = PyInt.to_text n).
Proof.
  apply (cisco_cpu_max_values cpu_history_text).
  reflexivity.
Defined.

(** ** Aruba and Huawei records, continued *)

(** X6: whatever the record, [process_aruba_system_data] returns its
    three keys, [cpu_max] and [cpu_avg] always hold the same text, and
    every text is "N/A" or made of digits only: a value with a unit, a
    sign or a blank inside is never reported. *)
Theorem process_aruba_system_data_values (system_data : value) :
  exists cpu memory,
    process_aruba_system_data system_data
    = [("cpu_max", VStr cpu); ("cpu_avg", VStr cpu);
       ("memory_usage_percent", VStr memory)]
    /\ (cpu = "N/A" \/ PyStr.isdigit cpu = true)
    /\ (memory = "N/A" \/ PyStr.isdigit memory = true).
Proof.
  unfold process_aruba_system_data.
  destruct system_data as [| | | | | d];
    try (exists "N/A", "N/A"; repeat split; left; reflexivity).
  destruct (Dict.get "cpu" d) as [v |];
    [destruct (PyStr.isdigit (PyStr.strip (Py.str v))) eqn:Hc |];
    (destruct (Dict.get "memory_usage_percent" d) as [w |];
     [destruct (PyStr.isdigit (PyStr.strip (Py.str w))) eqn:Hm |]);
    simpl; do 2 eexists; (split; [reflexivity |]); split;
    solve [left; reflexivity | right; assumption].
Qed.

Section HuaweiMemory.

Variable d : dict.

Hypothesis no_total_memory : Dict.get "total_memory" d = None.
Hypothesis no_used_memory : Dict.get "used_memory" d = None.

Lemma huawei_memory_fields :
  Dict.get_default "total_memory"
    (Dict.get_default "memory_total" (VInt 0) d) d
  = Dict.get_default "memory_total" (VInt 0) d
  /\ Dict.get_default "used_memory"
       (Dict.get_default "memory_used" (VInt 0) d) d
     = Dict.get_default "memory_used" (VInt 0) d.
Proof.
  split.
  - unfold Dict.get_default at 1. rewrite no_total_memory. reflexivity.
  - unfold Dict.get_default at 1. rewrite no_used_memory. reflexivity.
Qed.

End HuaweiMemory.

(** X7: on a record that names its fields memory_total and
    memory_used (the fallback names of the Huawei function), the Huawei
    and the Cisco IOS computations agree whenever the total is
    positive; for a total of 0 or less the Huawei one reports "N/A"
    and never divides. *)
Theorem huawei_memory_agrees_with_cisco (d : dict) (total : Z) :
  Dict.get "total_memory" d = None ->
  Dict.get "used_memory" d = None ->
  Py.int (Dict.get_default "memory_total" (VInt 0) d) = Ok total ->
  (0 < total ->
   process_huawei_memory_data (VDict d)
   = calculate_cisco_memory_usage (VDict d))
  /\ (total <= 0 ->
      forall used,
        Py.int (Dict.get_default "memory_used" (VInt 0) d) = Ok used ->
        process_huawei_memory_data (VDict d)
        = Ok [("memory_usage_percent", VStr "N/A")]).
Proof.
  intros Hnt Hnu Htotal.
  destruct (huawei_memory_fields d Hnt Hnu) as [Ht Hu].
  unfold process_huawei_memory_data, calculate_cisco_memory_usage.
  rewrite Ht, Hu, Htotal. cbn [bind].
  split.
  - intros Hpos.
    assert (Hz : (total =? 0) = false) by (apply Z.eqb_neq; lia).
    assert (Hp : (0 <? total) = true) by (apply Z.ltb_lt; exact Hpos).
    rewrite Hz, Hp.
    destruct (Py.int (Dict.get_default "memory_used" (VInt 0) d))
      as [used | e]; [| reflexivity].
    cbn [bind].
    destruct (percent used total) as [p | e]; reflexivity.
  - intros Hnonpos used Hused. rewrite Hused. cbn [bind].
    assert (Hp : (0 <? total) = false) by (apply Z.ltb_ge; exact Hnonpos).
    rewrite Hp. reflexivity.
Qed.

Lemma huawei_memory_agrees_with_cisco_witness :
  (0 < 2048 ->
   process_huawei_memory_data
     (VDict [("memory_total", VStr "2048"); ("memory_used", VStr "512")])
   = calculate_cisco_memory_usage
       (VDict [("memory_total", VStr "2048"); ("memory_used", VStr "512")]))
  /\ (2048 <= 0 ->
      forall used,
        Py.int (Dict.get_default "memory_used" (VInt 0)
                  [("memory_total", VStr "2048"); ("memory_used", VStr "512")])
        = Ok used ->
        process_huawei_memory_data
          (VDict [("memory_total", VStr "2048"); ("memory_used", VStr "512")])
        = Ok [("memory_usage_percent", VStr "N/A")]).
Proof.
  apply (huawei_memory_agrees_with_cisco
           [("memory_total", VStr "2048"); ("memory_used", VStr "512")] 2048);
    reflexivity.
Defined.

(** ** Deduplication, continued *)

(** The keys of the kept elements: distinct, and none of them seen
    before. *)
Lemma dedup_items_keys (items : list value) :
  forall seen out,
    dedup_items seen items = Ok out ->
    exists keys,
      Forall2 (fun x k => item_key x = Ok k) out keys
      /\ NoDup keys
      /\ (forall k, In k keys -> seen_has k seen = false).
Proof.
  induction items as [| item rest IH]; intros seen out H; simpl in H.
  - injection H as <-. exists []. repeat split; [constructor | constructor |].
    intros k [].
  - destruct (item_key item) as [k | e] eqn:Hk; simpl in H; [| discriminate].
    destruct (seen_has k seen) eqn:Hs.
    + exact (IH seen out H).
    + destruct (dedup_items (k :: seen) rest) as [r | e] eqn:Hr; simpl in H;
        [| discriminate].
      injection H as <-.
      destruct (IH (k :: seen) r Hr) as [keys [Hkeys [Hnodup Hfresh]]].
      exists (k :: keys). split; [constructor; assumption |]. split.
      * constructor; [| exact Hnodup].
        intros Hin. specialize (Hfresh k Hin).
        assert (Hyes : seen_has k (k :: seen) = true)
          by (apply seen_has_cons; left; reflexivity).
        congruence.
      * intros k' [<- | Hin]; [exact Hs |].
        specialize (Hfresh k' Hin).
        destruct (seen_has k' seen) eqn:Hs'; [| reflexivity].
        assert (Hyes : seen_has k' (k :: seen) = true)
          by (apply seen_has_cons; right; exact Hs').
        congruence.
Qed.

Lemma forall2_nth {A B : Type} (R : A -> B -> Prop) (l : list A)
    (m : list B) :
  Forall2 R l m ->
  forall i x, nth_error l i = Some x ->
              exists y, nth_error m i = Some y /\ R x y.
Proof.
  induction 1 as [| a b l m Hab _ IH]; intros i x Hi.
  - destruct i; discriminate.
  - destruct i as [| i]; simpl in Hi.
    + injection Hi as <-. exists b. split; [reflexivity | exact Hab].
    + exact (IH i x Hi).
Qed.

(** X8: no duplicate is left: in the list the inner loop returns, no
    two elements at different places compare equal (records by their
    sorted items, scalars by equality). *)
Theorem dedup_items_no_duplicates
    (items out : list value) (i j : nat) (x y : value) :
  dedup_items [] items = Ok out ->
  (i < j)%nat ->
  nth_error out i = Some x ->
  nth_error out j = Some y ->
  same_item x y = false.
Proof.
  intros H Hij Hx Hy.
  destruct (dedup_items_keys items [] out H) as [keys [Hkeys [Hnodup _]]].
  destruct (forall2_nth _ _ _ Hkeys i x Hx) as [kx [Hkx Hix]].
  destruct (forall2_nth _ _ _ Hkeys j y Hy) as [ky [Hky Hiy]].
  unfold same_item. rewrite Hix, Hiy.
  destruct (hkey_eq_dec kx ky) as [Heq | Hne]; [| reflexivity].
  subst ky. exfalso.
  rewrite NoDup_nth_error in Hnodup.
  assert (Hi : (i < List.length keys)%nat)
    by (apply nth_error_Some; congruence).
  specialize (Hnodup i j Hi ltac:(congruence)). lia.
Qed.

Lemma dedup_items_no_duplicates_witness :
  same_item (VStr "A1") (VStr "B2") = false.
Proof.
  apply (dedup_items_no_duplicates
           [VStr "A1"; VStr "B2"; VStr "A1"; VStr "B2"]
           [VStr "A1"; VStr "B2"] 0 1 (VStr "A1") (VStr "B2")).
  - reflexivity.
  - lia.
  - reflexivity.
  - reflexivity.
Defined.

Lemma same_item_key (x y : value) (k : hkey) :
  item_key x = Ok k -> item_key y = Ok k -> same_item x y = true.
Proof.
  intros Hx Hy. unfold same_item. rewrite Hx, Hy.
  destruct (hkey_eq_dec k k); [reflexivity | contradiction].
Qed.

(** Every element is kept, or equals a kept one, or was seen before;
    and only elements of the list are kept. *)
Lemma dedup_items_cover (items : list value) :
  forall seen out,
    dedup_items seen items = Ok out ->
    (forall x, In x items ->
       (exists y, In y out /\ same_item x y = true)
       \/ exists k, item_key x = Ok k /\ seen_has k seen = true)
    /\ (forall y, In y out -> In y items)
    /\ (List.length out <= List.length items)%nat.
Proof.
  induction items as [| item rest IH]; intros seen out H; simpl in H.
  - injection H as <-. repeat split; [intros x [] | intros y [] | lia].
  - destruct (item_key item) as [k | e] eqn:Hk; simpl in H; [| discriminate].
    destruct (seen_has k seen) eqn:Hs.
    + destruct (IH seen out H) as [Hcov [Hsub Hlen]]. repeat split.
      * intros x [<- | Hin]; [right; exists k; split; assumption |].
        exact (Hcov x Hin).
      * intros y Hy. right. exact (Hsub y Hy).
      * simpl. lia.
    + destruct (dedup_items (k :: seen) rest) as [r | e] eqn:Hr; simpl in H;
        [| discriminate].
      injection H as <-.
      destruct (IH (k :: seen) r Hr) as [Hcov [Hsub Hlen]]. repeat split.
      * intros x [<- | Hin].
        -- left. exists item. split; [left; reflexivity |].
           exact (same_item_key item item k Hk Hk).
        -- destruct (Hcov x Hin) as [[y [Hy Hxy]] | [k' [Hk' Hseen]]].
           ++ left. exists y. split; [right; exact Hy | exact Hxy].
           ++ apply seen_has_cons in Hseen as [-> | Hseen].
              ** left. exists item. split; [left; reflexivity |].
                 exact (same_item_key x item k Hk' Hk).
              ** right. exists k'. split; assumption.
      * intros y [<- | Hy]; [left; reflexivity | right; exact (Hsub y Hy)].
      * simpl. lia.
Qed.

(** X9: nothing is lost and nothing is made up: when the inner loop
    returns, every element of the list compares equal to an element
    that is kept, every kept element comes from the list, and the
    result is no longer than the list. *)
Theorem dedup_items_keeps_a_representative (items out : list value) :
  dedup_items [] items = Ok out ->
  (forall x, In x items -> exists y, In y out /\ same_item x y = true)
  /\ (forall y, In y out -> In y items)
  /\ (List.length out <= List.length items)%nat.
Proof.
  intros H.
  destruct (dedup_items_cover items [] out H) as [Hcov [Hsub Hlen]].
  repeat split; [| exact Hsub | exact Hlen].
  intros x Hin.
  destruct (Hcov x Hin) as [Hy | [k [_ Hseen]]]; [exact Hy | discriminate].
Qed.

Lemma dedup_items_keeps_a_representative_witness :
  (forall x, In x [VInt 1; VFloat (PyFloat.Fin false 1 0); VStr "1"] ->
     exists y, In y [VInt 1; VStr "1"] /\ same_item x y = true)
  /\ (forall y, In y [VInt 1; VStr "1"] ->
                In y [VInt 1; VFloat (PyFloat.Fin false 1 0); VStr "1"])
  /\ (List.length [VInt 1; VStr "1"]
      <= List.length [VInt 1; VFloat (PyFloat.Fin false 1 0); VStr "1"])%nat.
Proof.
  apply (dedup_items_keeps_a_representative
           [VInt 1; VFloat (PyFloat.Fin false 1 0); VStr "1"]
           [VInt 1; VStr "1"]).
  reflexivity.
Defined.

Lemma dedup_each_unchanged (items : list value) :
  Forall (fun v => has_target v = false ->
                   deduplicate_serial_and_hardware v = Ok v) items ->
  existsb has_target items = false ->
  dedup_each items = Ok items.
Proof.
  induction 1 as [| item rest Hitem _ IH]; intros Hno; simpl;
    [reflexivity |].
  simpl in Hno. apply Bool.orb_false_iff in Hno as [Hi Hr].
  rewrite (Hitem Hi). cbn [bind]. rewrite (IH Hr). reflexivity.
Qed.

Lemma dedup_entries_unchanged (entries : dict) :
  Forall (fun kv => has_target (snd kv) = false ->
                    deduplicate_serial_and_hardware (snd kv) = Ok (snd kv))
    entries ->
  has_target (VDict entries) = false ->
  dedup_entries entries = Ok entries.
Proof.
  induction 1 as [| [key v] rest Hv _ IH]; intros Hno; [reflexivity |].
  simpl in Hno. apply Bool.orb_false_iff in Hno as [Hi Hr].
  simpl. unfold dedup_entry.
  assert (Hentry : match is_dedup_key key, v with
                   | true, VList items =>
                       l <- dedup_items [] items;; Ok (VList l)
                   | _, _ => deduplicate_serial_and_hardware v
                   end = Ok v).
  { simpl in Hv.
    destruct (is_dedup_key key); [destruct v |];
      try discriminate; apply Hv; exact Hi. }
  rewrite Hentry. cbn [bind]. rewrite (IH Hr). reflexivity.
Qed.

(** X10: a document that holds no list under a key "serial" or
    "hardware" is left as it is, and the function cannot raise on
    it. *)
Theorem deduplicate_leaves_other_documents (data : value) :
  has_target data = false ->
  deduplicate_serial_and_hardware data = Ok data.
Proof.
  induction data as [| n | x | s | items IH | entries IH]
    using value_nested_ind; intros Hno; try reflexivity.
  - rewrite deduplicate_list.
    rewrite (dedup_each_unchanged items IH Hno). reflexivity.
  - rewrite deduplicate_dict.
    rewrite (dedup_entries_unchanged entries IH Hno). reflexivity.
Qed.

Lemma deduplicate_leaves_other_documents_witness :
  deduplicate_serial_and_hardware interface_tables = Ok interface_tables.
Proof.
  apply (deduplicate_leaves_other_documents interface_tables).
  reflexivity.
Defined.

(** ** The tables of a document *)

Lemma dict_set_new_key (key : string) (v : value) (d : dict) :
  ~ In key (Dict.keys d) ->
  Dict.keys (Dict.set key v d) = (Dict.keys d ++ [key])%list.
Proof.
  induction d as [| [k w] rest IH]; intros Hnew; simpl; [reflexivity |].
  destruct (String.eqb key k) eqn:Hk.
  - apply String.eqb_eq in Hk. exfalso. apply Hnew. left. auto.
  - simpl. f_equal. apply IH. intros Hin. apply Hnew. right. exact Hin.
Qed.

Lemma dict_set_present_key (key : string) (v : value) (d : dict) :
  In key (Dict.keys d) ->
  Dict.keys (Dict.set key v d) = Dict.keys d.
Proof.
  induction d as [| [k w] rest IH]; intros Hin; simpl; [destruct Hin |].
  destruct (String.eqb key k) eqn:Hk; [reflexivity |].
  simpl. f_equal. apply IH. destruct Hin as [Heq | Hin]; [| exact Hin].
  simpl in Heq. subst k. rewrite String.eqb_refl in Hk. discriminate.
Qed.

Lemma dict_get_in_keys (key : string) (d : dict) (v : value) :
  Dict.get key d = Some v -> In key (Dict.keys d).
Proof.
  induction d as [| [k w] rest IH]; simpl; [discriminate |].
  destruct (String.eqb key k) eqn:Hk.
  - intros _. apply String.eqb_eq in Hk. left. auto.
  - intros H. right. exact (IH H).
Qed.

Lemma dict_in_keys_get (key : string) (d : dict) :
  In key (Dict.keys d) -> exists v, Dict.get key d = Some v.
Proof.
  induction d as [| [k w] rest IH]; simpl; [intros [] |].
  intros Hin. destruct (String.eqb key k) eqn:Hk; [eauto |].
  apply IH. destruct Hin as [Heq | Hin]; [| exact Hin].
  subst k. rewrite String.eqb_refl in Hk. discriminate.
Qed.

(** The loop that fills the tables writes one key per command. *)
Lemma fill_tables_keys (f : string -> value) (commands : list (string * string)) :
  forall parsed,
    NoDup (map fst commands) ->
    (forall c, In c (map fst commands) -> ~ In c (Dict.keys parsed)) ->
    Dict.keys
      (fold_left (fun parsed entry => Dict.set (fst entry) (f (fst entry)) parsed)
                 commands parsed)
    = (Dict.keys parsed ++ map fst commands)%list.
Proof.
  induction commands as [| [c t] rest IH]; intros parsed Hnodup Hnew; simpl.
  - rewrite app_nil_r. reflexivity.
  - simpl in Hnodup. apply NoDup_cons_iff in Hnodup as [Hc Hnodup].
    rewrite IH; [| exact Hnodup |].
    + rewrite dict_set_new_key; [| apply Hnew; left; reflexivity].
      rewrite <- app_assoc. reflexivity.
    + intros c' Hc'. rewrite dict_set_new_key;
        [| apply Hnew; left; reflexivity].
      intros Hin. apply in_app_or in Hin as [Hin | [<- | []]].
      * apply (Hnew c'); [right; exact Hc' | exact Hin].
      * exact (Hc Hc').
Qed.

Lemma update_first_record_keys (command : string) (other parsed : dict) :
  Dict.keys (update_first_record command other parsed) = Dict.keys parsed.
Proof.
  unfold update_first_record.
  destruct (Dict.get command parsed) as [[| | | | [| [| | | | | r] rest] |] |]
    eqn:Hget; try reflexivity.
  apply dict_set_present_key. exact (dict_get_in_keys _ _ _ Hget).
Qed.

(** No platform branch adds or removes a table. *)
Lemma cpu_memory_branch_keys (device_platform file_content : string)
    (parsed summary parsed' summary' : dict) :
  cpu_memory_branch device_platform file_content parsed summary
  = Ok (parsed', summary') ->
  Dict.keys parsed' = Dict.keys parsed.
Proof.
  unfold cpu_memory_branch.
  destruct (String.eqb device_platform "cisco_ios").
  { destruct (extract_cisco_cpu_usage file_content);
      [cbn [bind] | discriminate].
    destruct (first_record _ parsed) as [first |].
    - destruct (calculate_cisco_memory_usage first);
        [cbn [bind] | discriminate].
      intros H; injection H as <- _. apply update_first_record_keys.
    - intros H; injection H as <- _. reflexivity. }
  destruct (String.eqb device_platform "cisco_nxos").
  { destruct (first_record _ parsed); intros H; injection H as <- _;
      reflexivity. }
  destruct (String.eqb device_platform "aruba_aoscx").
  { destruct (first_record _ parsed); intros H; injection H as <- _;
      [apply update_first_record_keys | reflexivity]. }
  destruct (String.eqb device_platform "huawei_vrp"
            || String.eqb device_platform "huawei_yunshan")%bool.
  { destruct (first_record "display cpu-usage" parsed) as [first |].
    - destruct (process_huawei_cpu_data first); [cbn [bind] | discriminate].
      destruct (first_record "display memory usage" _) as [second |].
      + destruct (process_huawei_memory_data second);
          [cbn [bind] | discriminate].
        intros H; injection H as <- _.
        rewrite !update_first_record_keys. reflexivity.
      + intros H; injection H as <- _. apply update_first_record_keys.
    - cbn [bind].
      destruct (first_record "display memory usage" parsed) as [second |].
      + destruct (process_huawei_memory_data second);
          [cbn [bind] | discriminate].
        intros H; injection H as <- _. apply update_first_record_keys.
      + intros H; injection H as <- _. reflexivity. }
  intros H; injection H as <- _. reflexivity.
Qed.

(** The deduplication keeps the keys of a dictionary, in their order. *)
Lemma dedup_entries_keys (entries entries' : dict) :
  dedup_entries entries = Ok entries' ->
  Dict.keys entries' = Dict.keys entries.
Proof.
  revert entries'.
  induction entries as [| [key v] rest IH]; intros entries' H; simpl in H.
  - injection H as <-. reflexivity.
  - destruct (dedup_entry key v); simpl in H; [| discriminate].
    destruct (dedup_entries rest) as [rest' |]; simpl in H; [| discriminate].
    injection H as <-. simpl. f_equal. apply IH. reflexivity.
Qed.

Lemma templates_in_commands (table : list (string * list (string * string)))
    (P : list (string * string) -> Prop) :
  P [] -> Forall (fun entry => P (snd entry)) table ->
  forall device_platform, P (templates_in table device_platform).
Proof.
  intros Hnil Hall device_platform.
  induction Hall as [| [k commands] rest Hk _ IH]; simpl; [exact Hnil |].
  destruct (String.eqb device_platform k); [exact Hk | exact IH].
Qed.

(** The commands of a platform are distinct, and none of them is the
    key of the summary. *)
Lemma templates_for_distinct (device_platform : string) :
  NoDup (map fst (templates_for device_platform))
  /\ ~ In "Calculated_CPU_Memory" (map fst (templates_for device_platform)).
Proof.
  unfold templates_for.
  apply (templates_in_commands TEXTFSM_TEMPLATES
           (fun commands =>
              NoDup (map fst commands)
              /\ ~ In "Calculated_CPU_Memory" (map fst commands))).
  - split; [constructor | intros []].
  - repeat constructor; simpl; intuition discriminate.
Qed.

(** X11: a document returned for a platform with templates echoes the
    detected platform and the file name, and its keys are exactly the
    commands configured for the platform, in their order, followed by
    "Calculated_CPU_Memory": every configured command has its table,
    even when the engine failed for it, and no other table exists. *)
Theorem parse_network_file_table_keys
    (parse_output : engine) (file_content file_name : string)
    (doc : document) :
  parse_network_file parse_output file_content file_name = Ok doc ->
  templates_for (detect_platform file_content) <> [] ->
  platform doc = detect_platform file_content
  /\ filename doc = file_name
  /\ Dict.keys (data doc)
     = (map fst (templates_for (detect_platform file_content))
        ++ ["Calculated_CPU_Memory"])%list.
Proof.
  intros Hdoc Hsome. unfold parse_network_file in Hdoc.
  destruct (templates_for_distinct (detect_platform file_content))
    as [Hnodup Hsummary].
  destruct (templates_for (detect_platform file_content)) as [| t ts] eqn:Ht;
    [contradiction |].
  match type of Hdoc with
  | context [cpu_memory_branch _ _ ?p0 _] => set (parsed0 := p0) in Hdoc
  end.
  assert (Hkeys0 : Dict.keys parsed0 = map fst (t :: ts)).
  { unfold parsed0.
    rewrite (fill_tables_keys
               (fun c => parse_command parse_output
                           (detect_platform file_content) c file_content)
               (t :: ts) [] Hnodup); [reflexivity |].
    intros c _ []. }
  destruct (cpu_memory_branch _ _ parsed0 _) as [[parsed summary] | e] eqn:Hb;
    [cbn [bind] in Hdoc | discriminate].
  rewrite deduplicate_dict in Hdoc.
  destruct (dedup_entries parsed) as [parsed' | e] eqn:Hd;
    [cbn [bind] in Hdoc | discriminate].
  injection Hdoc as <-. cbn [platform filename data].
  split; [reflexivity |]. split; [reflexivity |].
  pose proof (cpu_memory_branch_keys _ _ _ _ _ _ Hb) as Hkeys1.
  pose proof (dedup_entries_keys _ _ Hd) as Hkeys2.
  rewrite dict_set_new_key; rewrite Hkeys2, Hkeys1, Hkeys0;
    [reflexivity | exact Hsummary].
Qed.

Lemma parse_network_file_table_keys_witness :
  platform huawei_document
  = detect_platform "Huawei YunShan OS, display version"
  /\ filename huawei_document = "sw1.txt"
  /\ Dict.keys (data huawei_document)
     = (map fst
          (templates_for (detect_platform "Huawei YunShan OS, display version"))
        ++ ["Calculated_CPU_Memory"])%list.
Proof.
  apply (parse_network_file_table_keys huawei_engine
           "Huawei YunShan OS, display version" "sw1.txt" huawei_document).
  - reflexivity.
  - discriminate.
Defined.

(** ** The summary as the views read it *)

Ltac cpu_text_step :=
  match goal with
  | H : cpu_text_summary _ |- _ =>
      let a := fresh "a" in
      let b := fresh "b" in
      let m := fresh "m" in
      destruct H as [a [b [m ->]]]
  end.

Ltac cpu_text_done :=
  unfold cpu_text_summary; simpl; do 3 eexists; reflexivity.

Lemma cpu_text_set_cpu_max (s : string) (summary : dict) :
  cpu_text_summary summary ->
  cpu_text_summary (Dict.set "cpu_max" (VStr s) summary).
Proof. intros H. cpu_text_step. cpu_text_done. Qed.

Lemma cpu_text_set_cpu_avg (s : string) (summary : dict) :
  cpu_text_summary summary ->
  cpu_text_summary (Dict.set "cpu_avg" (VStr s) summary).
Proof. intros H. cpu_text_step. cpu_text_done. Qed.

Lemma cpu_text_set_memory (v : value) (summary : dict) :
  cpu_text_summary summary ->
  cpu_text_summary (Dict.set "memory_usage_percent" v summary).
Proof. intros H. cpu_text_step. cpu_text_done. Qed.

(** Every platform branch leaves texts in the two CPU fields. *)
Lemma cpu_memory_branch_cpu_text (device_platform file_content : string)
    (parsed summary parsed' summary' : dict) :
  cpu_text_summary summary ->
  cpu_memory_branch device_platform file_content parsed summary
  = Ok (parsed', summary') ->
  cpu_text_summary summary'.
Proof.
  intros Hs. unfold cpu_memory_branch.
  destruct (String.eqb device_platform "cisco_ios").
  { destruct (extract_cisco_cpu_usage file_content) as [r | e] eqn:Hx;
      [cbn [bind] | discriminate].
    destruct (extract_cisco_cpu_usage_keys _ _ Hx) as [mx [av ->]].
    assert (Hs' : cpu_text_summary
                    (Dict.update summary
                       [("cpu_max", VStr mx); ("cpu_avg", VStr av)])).
    { unfold Dict.update; simpl.
      apply cpu_text_set_cpu_avg. apply cpu_text_set_cpu_max. exact Hs. }
    destruct (first_record _ parsed) as [first |].
    - destruct (calculate_cisco_memory_usage first) as [m | e];
        [cbn [bind] | discriminate].
      intros H; injection H as _ <-.
      apply cpu_text_set_memory. exact Hs'.
    - intros H; injection H as _ <-. exact Hs'. }
  destruct (String.eqb device_platform "cisco_nxos").
  { destruct (first_record _ parsed) as [sys_data |].
    - intros H; injection H as _ <-.
      assert (Hs' : cpu_text_summary
                match field "cpu_usage_percent" sys_data with
                | Some v =>
                    Dict.set "cpu_max" (VStr (Py.str v))
                      (Dict.set "cpu_avg" (VStr (Py.str v)) summary)
                | None => summary
                end).
      { destruct (field "cpu_usage_percent" sys_data); [| exact Hs].
        apply cpu_text_set_cpu_max. apply cpu_text_set_cpu_avg. exact Hs. }
      destruct (field "memory_usage_percent" sys_data); [| exact Hs'].
      apply cpu_text_set_memory. exact Hs'.
    - intros H; injection H as _ <-. exact Hs. }
  destruct (String.eqb device_platform "aruba_aoscx").
  { destruct (first_record _ parsed) as [first |].
    - intros H; injection H as _ <-.
      destruct (process_aruba_system_data_keys first) as [a [c ->]].
      unfold Dict.update; simpl.
      apply cpu_text_set_memory. apply cpu_text_set_cpu_avg.
      apply cpu_text_set_cpu_max. exact Hs.
    - intros H; injection H as _ <-. exact Hs. }
  destruct (String.eqb device_platform "huawei_vrp"
            || String.eqb device_platform "huawei_yunshan")%bool.
  { destruct (first_record "display cpu-usage" parsed) as [first |].
    - destruct (process_huawei_cpu_data first) as [r | e] eqn:Hc;
        [cbn [bind] | discriminate].
      destruct (process_huawei_cpu_data_keys _ _ Hc) as [av ->].
      assert (Hs' : cpu_text_summary
                      (Dict.update summary [("cpu_avg", VStr av)])).
      { unfold Dict.update; simpl. apply cpu_text_set_cpu_avg. exact Hs. }
      destruct (first_record "display memory usage" _) as [second |].
      + destruct (process_huawei_memory_data second) as [m | e] eqn:Hm;
          [cbn [bind] | discriminate].
        destruct (process_huawei_memory_data_keys _ _ Hm) as [p [-> _]].
        intros H; injection H as _ <-.
        apply cpu_text_set_memory. exact Hs'.
      + intros H; injection H as _ <-. exact Hs'.
    - cbn [bind].
      destruct (first_record "display memory usage" parsed) as [second |].
      + destruct (process_huawei_memory_data second) as [m | e] eqn:Hm;
          [cbn [bind] | discriminate].
        destruct (process_huawei_memory_data_keys _ _ Hm) as [p [-> _]].
        intros H; injection H as _ <-.
        unfold Dict.update; simpl.
        apply cpu_text_set_memory. exact Hs.
      + intros H; injection H as _ <-. exact Hs. }
  intros H; injection H as _ <-. exact Hs.
Qed.

(** X12: for every document that [parse_network_file] returns, the
    view [get_cpu_memory_usage] finds a usable summary: the values it
    hands over for [cpu_max] and [cpu_avg] are texts, never numbers,
    and for a platform without templates all three are "N/A". *)
Theorem cpu_memory_entry_of_parsed_document
    (parse_output : engine) (file_content file_name : string)
    (doc : document) :
  parse_network_file parse_output file_content file_name = Ok doc ->
  exists cpu_max cpu_avg memory,
    cpu_memory_entry (data doc) = Some (VStr cpu_max, VStr cpu_avg, memory)
    /\ (templates_for (detect_platform file_content) = [] ->
        cpu_max = "N/A" /\ cpu_avg = "N/A" /\ memory = "N/A").
Proof.
  intros Hdoc.
  destruct (templates_for (detect_platform file_content)) as [| t ts] eqn:Ht.
  - rewrite (parse_network_file_sentinel _ _ _ Ht) in Hdoc.
    injection Hdoc as <-.
    exists "N/A", "N/A", "N/A". split; [reflexivity | auto].
  - assert (Hsome : templates_for (detect_platform file_content) <> [])
      by (rewrite Ht; discriminate).
    destruct (parse_network_file_branch _ _ _ doc Hsome Hdoc)
      as [parsed0 [parsed [summary [Hb Hget]]]].
    assert (Hs : cpu_text_summary summary).
    { refine (cpu_memory_branch_cpu_text _ _ _ _ _ _ _ Hb).
      do 3 eexists; reflexivity. }
    destruct Hs as [a [b [m ->]]].
    exists a, b, (Py.str m). split; [| discriminate].
    unfold cpu_memory_entry, Dict.get_default. rewrite Hget. reflexivity.
Qed.

Lemma cpu_memory_entry_of_parsed_document_witness :
  exists cpu_max cpu_avg memory,
    cpu_memory_entry (data huawei_document)
    = Some (VStr cpu_max, VStr cpu_avg, memory)
    /\ (templates_for (detect_platform "Huawei YunShan OS, display version")
        = [] ->
        cpu_max = "N/A" /\ cpu_avg = "N/A" /\ memory = "N/A").
Proof.
  apply (cpu_memory_entry_of_parsed_document huawei_engine
           "Huawei YunShan OS, display version" "sw1.txt" huawei_document).
  reflexivity.
Defined.

Lemma detect_platform_names (text : string) :
  detect_platform text = "unknown"
  \/ In (detect_platform text) (map fst ENV_PATTERNS).
Proof.
  unfold detect_platform.
  destruct (detect_in_sound text ENV_PATTERNS) as [Hu | [p [Hin _]]];
    [left; exact Hu | right].
  exact (in_map fst ENV_PATTERNS _ Hin).
Qed.

(** X13: a failure of the engine stays local to its command: when the
    engine raises, or finds no record, for every command of a platform
    other than cisco_ios, [parse_network_file] still returns, with an
    empty table for every configured command and the summary all
    "N/A". *)
Theorem parse_network_file_without_records
    (parse_output : engine) (file_content file_name : string) :
  (forall command,
     parse_command parse_output (detect_platform file_content) command
       file_content = VList []) ->
  templates_for (detect_platform file_content) <> [] ->
  String.eqb (detect_platform file_content) "cisco_ios" = false ->
  parse_network_file parse_output file_content file_name
  = Ok {| platform := detect_platform file_content;
          data :=
            (map (fun entry => (fst entry, VList []))
                 (templates_for (detect_platform file_content))
             ++ [("Calculated_CPU_Memory", VDict default_summary)])%list;
          filename := file_name |}.
Proof.
  intros Hfail Hsome Hnot. unfold parse_network_file.
  set (run := parse_command parse_output) in *.
  destruct (detect_platform_names file_content) as [Hu | Hin].
  - rewrite Hu in Hsome. contradiction Hsome. reflexivity.
  - remember (detect_platform file_content) as p eqn:Hp. clear Hp.
    simpl in Hin.
    destruct Hin as [<- | [<- | [<- | [<- | [<- | []]]]]];
      try discriminate;
      simpl; rewrite !Hfail; reflexivity.
Qed.

Lemma parse_network_file_without_records_witness :
  parse_network_file failing_engine "uptime: show on ArubaOS-CX" "edge.log"
  = Ok {| platform := detect_platform "uptime: show on ArubaOS-CX";
          data :=
            (map (fun entry => (fst entry, VList []))
                 (templates_for (detect_platform "uptime: show on ArubaOS-CX"))
             ++ [("Calculated_CPU_Memory", VDict default_summary)])%list;
          filename := "edge.log" |}.
Proof.
  apply (parse_network_file_without_records failing_engine
           "uptime: show on ArubaOS-CX" "edge.log").
  - reflexivity.
  - discriminate.
  - reflexivity.
Defined.

(** ** The tables as the views read them *)

Lemma parse_command_is_table (parse_output : engine)
    (platform command data : string) :
  is_table (parse_command parse_output platform command data) = true.
Proof.
  unfold parse_command.
  destruct (parse_output platform command data) as [records | e];
    [| reflexivity].
  simpl. induction records as [| r rest IH]; [reflexivity | exact IH].
Qed.

Lemma all_tables_set (key : string) (v : value) (parsed : dict) :
  is_table v = true -> all_tables parsed ->
  all_tables (Dict.set key v parsed).
Proof.
  intros Hv Hall. induction Hall as [| [k w] rest Hw Hrest IH]; simpl.
  - constructor; [exact Hv | constructor].
  - destruct (String.eqb key k); constructor; simpl; assumption.
Qed.

Lemma all_tables_get (key : string) (parsed : dict) (v : value) :
  all_tables parsed -> Dict.get key parsed = Some v -> is_table v = true.
Proof.
  intros Hall. induction Hall as [| [k w] rest Hw _ IH]; simpl;
    [discriminate |].
  destruct (String.eqb key k); [| exact IH].
  intros H; injection H as <-. exact Hw.
Qed.

Lemma fill_tables_all_tables (f : string -> value)
    (commands : list (string * string)) :
  (forall c, is_table (f c) = true) ->
  forall parsed,
    all_tables parsed ->
    all_tables
      (fold_left (fun parsed entry => Dict.set (fst entry) (f (fst entry)) parsed)
                 commands parsed).
Proof.
  intros Hf. induction commands as [| [c t] rest IH]; intros parsed Hall;
    simpl; [exact Hall |].
  apply IH. apply all_tables_set; [apply Hf | exact Hall].
Qed.

Lemma update_first_record_all_tables (command : string)
    (other parsed : dict) :
  all_tables parsed -> all_tables (update_first_record command other parsed).
Proof.
  intros Hall. unfold update_first_record.
  destruct (Dict.get command parsed) as [[| | | | [| [| | | | | r] rest] |] |]
    eqn:Hget; try exact Hall.
  apply all_tables_set; [| exact Hall].
  exact (all_tables_get _ _ _ Hall Hget).
Qed.

Lemma cpu_memory_branch_all_tables (device_platform file_content : string)
    (parsed summary parsed' summary' : dict) :
  all_tables parsed ->
  cpu_memory_branch device_platform file_content parsed summary
  = Ok (parsed', summary') ->
  all_tables parsed'.
Proof.
  intros Hall. unfold cpu_memory_branch.
  destruct (String.eqb device_platform "cisco_ios").
  { destruct (extract_cisco_cpu_usage file_content);
      [cbn [bind] | discriminate].
    destruct (first_record _ parsed) as [first |].
    - destruct (calculate_cisco_memory_usage first);
        [cbn [bind] | discriminate].
      intros H; injection H as <- _.
      apply update_first_record_all_tables. exact Hall.
    - intros H; injection H as <- _. exact Hall. }
  destruct (String.eqb device_platform "cisco_nxos").
  { destruct (first_record _ parsed); intros H; injection H as <- _;
      exact Hall. }
  destruct (String.eqb device_platform "aruba_aoscx").
  { destruct (first_record _ parsed); intros H; injection H as <- _;
      [apply update_first_record_all_tables |]; exact Hall. }
  destruct (String.eqb device_platform "huawei_vrp"
            || String.eqb device_platform "huawei_yunshan")%bool.
  { destruct (first_record "display cpu-usage" parsed) as [first |].
    - destruct (process_huawei_cpu_data first); [cbn [bind] | discriminate].
      destruct (first_record "display memory usage" _) as [second |].
      + destruct (process_huawei_memory_data second);
          [cbn [bind] | discriminate].
        intros H; injection H as <- _.
        do 2 apply update_first_record_all_tables. exact Hall.
      + intros H; injection H as <- _.
        apply update_first_record_all_tables. exact Hall.
    - cbn [bind].
      destruct (first_record "display memory usage" parsed) as [second |].
      + destruct (process_huawei_memory_data second);
          [cbn [bind] | discriminate].
        intros H; injection H as <- _.
        apply update_first_record_all_tables. exact Hall.
      + intros H; injection H as <- _. exact Hall. }
  intros H; injection H as <- _. exact Hall.
Qed.

Lemma dedup_each_records_stay (records records' : list value) :
  forallb is_record records = true ->
  dedup_each records = Ok records' ->
  forallb is_record records' = true.
Proof.
  revert records'.
  induction records as [| r rest IH]; intros records' Hall H; simpl in H.
  - injection H as <-. reflexivity.
  - simpl in Hall. apply Bool.andb_true_iff in Hall as [Hr Hrest].
    destruct r as [| | | | | fields]; try discriminate.
    rewrite deduplicate_dict in H.
    destruct (dedup_entries fields); simpl in H; [| discriminate].
    destruct (dedup_each rest) as [rest' |]; simpl in H; [| discriminate].
    injection H as <-. simpl. apply (IH rest' Hrest). reflexivity.
Qed.

Lemma dedup_entry_table_stays (key : string) (v v' : value) :
  is_table v = true -> dedup_entry key v = Ok v' -> is_table v' = true.
Proof.
  intros Hv. unfold dedup_entry.
  destruct v as [| | | | records |]; try discriminate.
  simpl in Hv. destruct (is_dedup_key key).
  - destruct (dedup_items [] records) as [out |] eqn:Hout; simpl;
      [| discriminate].
    intros H; injection H as <-. simpl.
    destruct (dedup_items_cover records [] out Hout) as [_ [Hsub _]].
    apply forallb_forall. intros y Hy.
    rewrite forallb_forall in Hv. apply Hv. exact (Hsub y Hy).
  - rewrite deduplicate_list.
    destruct (dedup_each records) as [records' |] eqn:Hd; simpl;
      [| discriminate].
    intros H; injection H as <-. simpl.
    exact (dedup_each_records_stay records records' Hv Hd).
Qed.

Lemma dedup_entries_all_tables (parsed parsed' : dict) :
  all_tables parsed -> dedup_entries parsed = Ok parsed' ->
  all_tables parsed'.
Proof.
  intros Hall. revert parsed'.
  induction Hall as [| [key v] rest Hv _ IH]; intros parsed' H; simpl in H.
  - injection H as <-. constructor.
  - destruct (dedup_entry key v) as [v' |] eqn:Hentry; simpl in H;
      [| discriminate].
    destruct (dedup_entries rest) as [rest' |]; simpl in H; [| discriminate].
    injection H as <-. constructor.
    + exact (dedup_entry_table_stays key v v' Hv Hentry).
    + apply IH. reflexivity.
Qed.

(** The commands that the three views read are configured for their
    platform. *)
Lemma view_commands_configured (platform command : string) :
  version_command platform = Some command
  \/ inventory_command platform = Some command
  \/ interfaces_command platform = Some command ->
  In command (map fst (templates_for platform)).
Proof.
  unfold version_command, inventory_command, interfaces_command.
  destruct (String.eqb platform "cisco_ios") eqn:H1;
    [apply String.eqb_eq in H1; subst platform;
     intros [H | [H | H]]; injection H as <-; simpl; tauto |].
  destruct (String.eqb platform "cisco_nxos") eqn:H2;
    [apply String.eqb_eq in H2; subst platform;
     intros [H | [H | H]]; injection H as <-; simpl; tauto |].
  destruct (String.eqb platform "aruba_aoscx") eqn:H3;
    [apply String.eqb_eq in H3; subst platform;
     intros [H | [H | H]]; injection H as <-; simpl; tauto |].
  destruct (String.eqb platform "huawei_vrp") eqn:H4;
    [apply String.eqb_eq in H4; subst platform;
     intros [H | [H | H]]; injection H as <-; simpl; tauto |].
  destruct (String.eqb platform "huawei_yunshan") eqn:H5;
    [apply String.eqb_eq in H5; subst platform;
     intros [H | [H | H]]; injection H as <-; simpl; tauto |].
  simpl. intros [H | [H | H]]; discriminate.
Qed.

(** The table a view looks up in a parsed document is there, and it
    is a list of records. *)
Lemma view_table_of_parsed_document
    (parse_output : engine) (file_content file_name : string)
    (doc : document) (command : string) :
  parse_network_file parse_output file_content file_name = Ok doc ->
  version_command (platform doc) = Some command
  \/ inventory_command (platform doc) = Some command
  \/ interfaces_command (platform doc) = Some command ->
  exists records,
    Dict.get command (data doc) = Some (VList records)
    /\ forallb is_record records = true.
Proof.
  intros Hdoc Hview. unfold parse_network_file in Hdoc.
  destruct (templates_for_distinct (detect_platform file_content))
    as [Hnodup Hsummary].
  pose proof (view_commands_configured (detect_platform file_content) command)
    as Hconf.
  destruct (templates_for (detect_platform file_content)) as [| t ts] eqn:Ht.
  - injection Hdoc as <-. cbn [platform] in Hview.
    destruct (Hconf Hview).
  - match type of Hdoc with
    | context [cpu_memory_branch _ _ ?p0 _] => set (parsed0 := p0) in Hdoc
    end.
    assert (Hkeys0 : Dict.keys parsed0 = map fst (t :: ts)).
    { unfold parsed0.
      rewrite (fill_tables_keys
                 (fun c => parse_command parse_output
                             (detect_platform file_content) c file_content)
                 (t :: ts) [] Hnodup); [reflexivity |].
      intros c _ []. }
    assert (Hall0 : all_tables parsed0).
    { unfold parsed0.
      apply (fill_tables_all_tables
               (fun c => parse_command parse_output
                           (detect_platform file_content) c file_content));
        [intros c; apply parse_command_is_table | constructor]. }
    destruct (cpu_memory_branch _ _ parsed0 _) as [[parsed summary] | e]
      eqn:Hb; [cbn [bind] in Hdoc | discriminate].
    rewrite deduplicate_dict in Hdoc.
    destruct (dedup_entries parsed) as [parsed' | e] eqn:Hd;
      [cbn [bind] in Hdoc | discriminate].
    injection Hdoc as <-. cbn [platform data] in *.
    specialize (Hconf Hview).
    assert (Hin : In command (Dict.keys parsed')).
    { rewrite (dedup_entries_keys _ _ Hd).
      rewrite (cpu_memory_branch_keys _ _ _ _ _ _ Hb), Hkeys0.
      exact Hconf. }
    destruct (dict_in_keys_get command parsed' Hin) as [v Hv].
    assert (Hne : String.eqb command "Calculated_CPU_Memory" = false).
    { apply String.eqb_neq. intros ->. exact (Hsummary Hconf). }
    rewrite (dict_get_set_other _ _ _ _ Hne), Hv.
    pose proof (cpu_memory_branch_all_tables _ _ _ _ _ _ Hall0 Hb) as Hall1.
    pose proof (dedup_entries_all_tables _ _ Hall1 Hd) as Hall2.
    pose proof (all_tables_get _ _ _ Hall2 Hv) as Htable.
    destruct v as [| | | | records |]; try discriminate.
    exists records. split; [reflexivity | exact Htable].
Qed.

(** X14: the views read what the parser wrote: in every document that
    [parse_network_file] returns, the table that [get_summary],
    [get_inventory] or [get_interfaces] looks up for the document's
    platform is there, and it is a list of records, so the views never
    fall back to their empty default for a known platform. *)
Theorem views_find_their_tables
    (parse_output : engine) (file_content file_name : string)
    (doc : document) (command : string) :
  parse_network_file parse_output file_content file_name = Ok doc ->
  version_command (platform doc) = Some command
  \/ inventory_command (platform doc) = Some command
  \/ interfaces_command (platform doc) = Some command ->
  exists records,
    Dict.get command (data doc) = Some (VList records)
    /\ forallb is_record records = true.
Proof.
  exact (view_table_of_parsed_document parse_output file_content file_name
           doc command).
Qed.

Lemma views_find_their_tables_witness :
  exists records,
    Dict.get "display interface" (data huawei_document) = Some (VList records)
    /\ forallb is_record records = true.
Proof.
  apply (views_find_their_tables huawei_engine
           "Huawei YunShan OS, display version" "sw1.txt" huawei_document
           "display interface").
  - reflexivity.
  - right. right. reflexivity.
Defined.

(** ** The interface statistics *)

Lemma lower_idempotent (s : string) :
  PyStr.lower (PyStr.lower s) = PyStr.lower s.
Proof.
  induction s as [| c s IH]; simpl; [reflexivity |].
  rewrite lower_char_idempotent, IH. reflexivity.
Qed.

Lemma interface_label_shape (primary fallback : string) (iface : dict)
    (label : string) :
  interface_label primary fallback iface = Some label ->
  label <> EmptyString /\ PyStr.lower label = label.
Proof.
  unfold interface_label.
  destruct (Dict.get_default primary _ iface) as [| | | s | |];
    try discriminate.
  destruct (String.eqb (PyStr.lower s) "") eqn:He;
    intros H; injection H as <-.
  - split; [discriminate | reflexivity].
  - split; [apply String.eqb_neq; exact He | apply lower_idempotent].
Qed.

Lemma counter_add_total (label : string) (counts : counter) :
  counter_total (counter_add label counts) = counter_total counts + 1.
Proof.
  induction counts as [| [l n] rest IH]; simpl; [reflexivity |].
  destruct (String.eqb label l); simpl; [lia | rewrite IH; lia].
Qed.

Lemma counter_add_labels (label : string) (counts : counter) :
  forall l, In l (map fst (counter_add label counts)) ->
            l = label \/ In l (map fst counts).
Proof.
  induction counts as [| [k n] rest IH]; simpl; intros l Hin.
  - destruct Hin as [<- | []]. left. reflexivity.
  - destruct (String.eqb label k); simpl in Hin.
    + right. exact Hin.
    + destruct Hin as [<- | Hin]; [right; left; reflexivity |].
      destruct (IH l Hin) as [-> | Hin']; [left | right; right]; auto.
Qed.

Lemma counter_add_well_counted (label : string) (counts : counter) :
  label <> EmptyString -> PyStr.lower label = label ->
  well_counted counts -> well_counted (counter_add label counts).
Proof.
  intros Hne Hlow [Hnodup Hall].
  induction counts as [| [l n] rest IH]; simpl.
  - split; [repeat constructor; intros [] |].
    constructor; [simpl; repeat split; [exact Hne | exact Hlow | lia] |
                  constructor].
  - simpl in Hnodup. apply NoDup_cons_iff in Hnodup as [Hl Hnodup].
    inversion Hall as [| ? ? [Hl1 [Hl2 Hl3]] Hrest]; subst.
    simpl in Hl1, Hl2, Hl3.
    destruct (String.eqb label l) eqn:Heq.
    + split; [simpl; constructor; assumption |].
      constructor; [simpl; repeat split; [assumption | assumption | lia] |
                    exact Hrest].
    + destruct (IH Hnodup Hrest) as [Hnodup' Hall'].
      split.
      * simpl. constructor; [| exact Hnodup'].
        intros Hin. destruct (counter_add_labels label rest l Hin)
          as [-> | Hin']; [| exact (Hl Hin')].
        rewrite String.eqb_refl in Heq. discriminate.
      * constructor; [simpl; repeat split; assumption | exact Hall'].
Qed.

Lemma count_interfaces_invariant (interfaces : list dict) :
  forall links speeds links' speeds',
    count_interfaces interfaces links speeds = Some (links', speeds') ->
    well_counted links -> well_counted speeds ->
    counter_total links'
    = counter_total links + Z.of_nat (List.length interfaces)
    /\ counter_total speeds'
       = counter_total speeds + Z.of_nat (List.length interfaces)
    /\ well_counted links' /\ well_counted speeds'.
Proof.
  induction interfaces as [| iface rest IH];
    intros links speeds links' speeds' H Hl Hs.
  - simpl in H. injection H as <- <-. simpl.
    repeat split; try lia; try apply Hl; apply Hs.
  - cbn [count_interfaces] in H.
    destruct (interface_label "link_status" "status" iface) as [link |]
      eqn:Hlink; [| discriminate].
    destruct (interface_label "speed" "bandwidth" iface) as [speed |]
      eqn:Hspeed; [| discriminate].
    destruct (interface_label_shape _ _ _ _ Hlink) as [Hl1 Hl2].
    destruct (interface_label_shape _ _ _ _ Hspeed) as [Hs1 Hs2].
    destruct (IH _ _ _ _ H
                (counter_add_well_counted link links Hl1 Hl2 Hl)
                (counter_add_well_counted speed speeds Hs1 Hs2 Hs))
      as [Ht1 [Ht2 [Hw1 Hw2]]].
    rewrite counter_add_total in Ht1, Ht2.
    cbn [List.length]. rewrite Nat2Z.inj_succ.
    repeat split; try lia; try apply Hw1; apply Hw2.
Qed.

(** X15: when the counting loop of [get_interfaces] ends, each of its
    two counters adds up to the number of interfaces, and its labels
    are distinct, not empty and in lower case (an empty status or speed
    is counted as "unknown"), each with a count of 1 at least. *)
Theorem count_interfaces_totals
    (interfaces : list dict) (link_status_counts speed_counts : counter) :
  count_interfaces interfaces [] []
  = Some (link_status_counts, speed_counts) ->
  counter_total link_status_counts = Z.of_nat (List.length interfaces)
  /\ counter_total speed_counts = Z.of_nat (List.length interfaces)
  /\ well_counted link_status_counts
  /\ well_counted speed_counts.
Proof.
  intros H.
  assert (Hempty : well_counted []) by (split; constructor).
  destruct (count_interfaces_invariant interfaces [] [] _ _ H Hempty Hempty)
    as [Ht1 [Ht2 [Hw1 Hw2]]].
  simpl in Ht1, Ht2. repeat split; try assumption; try apply Hw1;
    apply Hw2.
Qed.

Lemma count_interfaces_totals_witness :
  counter_total [("up", 2); ("down", 1)]
  = Z.of_nat (List.length sample_interfaces)
  /\ counter_total [("1000mb/s", 1); ("unknown", 2)]
     = Z.of_nat (List.length sample_interfaces)
  /\ well_counted [("up", 2); ("down", 1)]
  /\ well_counted [("1000mb/s", 1); ("unknown", 2)].
Proof.
  apply (count_interfaces_totals sample_interfaces).
  reflexivity.
Defined.

(** ** The earlier platform table *)

(** X16: the platform table of [app/utils/parser.py] extends the one of
    the earlier module [parser.py] by one entry, and nothing else
    changes: on every text the two [detect_platform] functions agree,
    except where the later one answers "cisco_nxos", which the earlier
    one reported as "aruba_aoscx" or "unknown". *)
Theorem legacy_detect_platform_agrees (text : string) :
  Legacy.detect_platform text = detect_platform text
  \/ (detect_platform text = "cisco_nxos"
      /\ (Legacy.detect_platform text = "aruba_aoscx"
          \/ Legacy.detect_platform text = "unknown")).
Proof.
  unfold Legacy.detect_platform, detect_platform,
    Legacy.env_patterns, ENV_PATTERNS.
  cbn [detect_in].
  repeat match goal with
  | |- context [signature_matches ?p text] =>
      destruct (signature_matches p text)
  end; auto.
Qed.

(** ** The upload filter *)

Lemma rfind_range (c : ascii) (p : string) :
  -1 <= OsPath.rfind c p < Z.of_nat (String.length p).
Proof.
  induction p as [| a rest IH]; cbn [OsPath.rfind String.length].
  - lia.
  - destruct (0 <=? OsPath.rfind c rest) eqn:E.
    + apply Z.leb_le in E. lia.
    + destruct (Ascii.eqb c a); lia.
Qed.

Lemma rfind_none (c : ascii) (p : string) :
  PyStr.has_char c p = false <-> OsPath.rfind c p = -1.
Proof.
  induction p as [| a rest IH]; cbn [OsPath.rfind PyStr.has_char].
  - tauto.
  - pose proof (rfind_range c rest) as R.
    destruct (0 <=? OsPath.rfind c rest) eqn:E.
    + apply Z.leb_le in E. split.
      * intro H. apply Bool.orb_false_iff in H as [_ H].
        apply IH in H. lia.
      * lia.
    + apply Z.leb_gt in E.
      assert (OsPath.rfind c rest = -1) as F by lia.
      apply IH in F. rewrite F, Bool.orb_false_r.
      destruct (Ascii.eqb c a); split; intro;
        try reflexivity; try discriminate; lia.
Qed.

Lemma rfind_app (c : ascii) (a b : string) :
  OsPath.rfind c (a ++ b) =
  if 0 <=? OsPath.rfind c b
  then Z.of_nat (String.length a) + OsPath.rfind c b
  else OsPath.rfind c a.
Proof.
  induction a as [| x a IH]; cbn [append OsPath.rfind String.length].
  - pose proof (rfind_range c b).
    destruct (0 <=? OsPath.rfind c b) eqn:E; [lia |].
    apply Z.leb_gt in E. lia.
  - rewrite IH. destruct (0 <=? OsPath.rfind c b) eqn:E.
    + apply Z.leb_le in E.
      destruct (0 <=? Z.of_nat (String.length a) + OsPath.rfind c b) eqn:F.
      * lia.
      * apply Z.leb_gt in F. lia.
    + reflexivity.
Qed.

Lemma string_length_app (a b : string) :
  String.length (a ++ b) = (String.length a + String.length b)%nat.
Proof.
  induction a as [| x a IH]; cbn [append String.length Nat.add].
  - reflexivity.
  - rewrite IH. reflexivity.
Qed.

Lemma get_split (j : nat) (s : string) (c : ascii) :
  String.get j s = Some c ->
  exists front back,
    s = front ++ String c back /\ String.length front = j.
Proof.
  revert j. induction s as [| x s IH]; intros j H; [discriminate |].
  destruct j as [| j]; cbn [String.get] in H.
  - injection H as ->. exists EmptyString, s. split; reflexivity.
  - apply IH in H as (front & back & -> & <-).
    exists (String x front), back. split; reflexivity.
Qed.

Lemma get_lt (j : nat) (s : string) :
  (j < String.length s)%nat -> exists c, String.get j s = Some c.
Proof.
  revert j. induction s as [| x s IH]; intros j H;
    cbn [String.length] in H; [lia |].
  destruct j as [| j]; cbn [String.get].
  - exists x. reflexivity.
  - apply IH. lia.
Qed.

Lemma get_app_l (j : nat) (a b : string) :
  (j < String.length a)%nat -> String.get j (a ++ b) = String.get j a.
Proof.
  revert j. induction a as [| x a IH]; intros j H;
    cbn [String.length] in H; [lia |].
  destruct j as [| j]; cbn [append String.get].
  - reflexivity.
  - apply IH. lia.
Qed.

Lemma get_app_mid (front back : string) (c : ascii) :
  String.get (String.length front) (front ++ String c back) = Some c.
Proof.
  induction front as [| x front IH]; cbn [append String.length String.get].
  - reflexivity.
  - exact IH.
Qed.

Lemma substring_one (j : nat) (p : string) :
  substring j 1 p =
  match String.get j p with
  | Some c => String c EmptyString
  | None => EmptyString
  end.
Proof.
  revert j. induction p as [| x p IH]; intros j.
  - destruct j; reflexivity.
  - destruct j as [| j]; cbn [substring String.get].
    + destruct p; reflexivity.
    + apply IH.
Qed.

Lemma take_drop (n : nat) (p : string) :
  substring 0 n p ++ PyStr.drop n p = p.
Proof.
  revert p. induction n as [| n IH]; intros p.
  - destruct p; reflexivity.
  - destruct p as [| x p]; cbn [substring PyStr.drop append].
    + reflexivity.
    + rewrite IH. reflexivity.
Qed.

Lemma take_length (n : nat) (p : string) :
  (n <= String.length p)%nat -> String.length (substring 0 n p) = n.
Proof.
  revert p. induction n as [| n IH]; intros p H.
  - destruct p; reflexivity.
  - destruct p as [| x p]; cbn [String.length] in H; [lia |].
    cbn [substring String.length]. rewrite IH by lia. reflexivity.
Qed.

Lemma drop_app (a b : string) :
  PyStr.drop (String.length a) (a ++ b) = b.
Proof.
  induction a as [| x a IH]; cbn [String.length append PyStr.drop].
  - reflexivity.
  - exact IH.
Qed.

Lemma name_found_true (p : string) (start steps : nat) :
  OsPath.name_found p start steps = true ->
  exists j,
    (start <= j < start + steps)%nat /\ substring j 1 p <> ".".
Proof.
  revert start. induction steps as [| steps IH]; intros start H;
    cbn [OsPath.name_found] in H; [discriminate |].
  destruct (String.eqb_spec (substring start 1 p) ".") as [E | E];
    cbn [negb] in H.
  - apply IH in H as (j & Hj & Hn). exists j. split; [lia | assumption].
  - exists start. split; [lia | assumption].
Qed.

Lemma name_found_intro (p : string) (start steps j : nat) :
  (start <= j < start + steps)%nat ->
  substring j 1 p <> "." ->
  OsPath.name_found p start steps = true.
Proof.
  revert start. induction steps as [| steps IH]; intros start Hj Hn;
    [lia |].
  cbn [OsPath.name_found].
  destruct (String.eqb_spec (substring start 1 p) ".") as [E | E];
    cbn [negb]; [| reflexivity].
  apply IH; [| assumption].
  destruct (Nat.eq_dec j start) as [-> |]; [contradiction | lia].
Qed.

Lemma lower_char_dot (x : ascii) :
  PyStr.lower_char x = "."%char -> x = "."%char.
Proof.
  destruct x as [[] [] [] [] [] [] [] []]; vm_compute; intro H;
    first [reflexivity | discriminate H].
Qed.

Lemma lower_char_apart (x t sym : ascii) :
  PyStr.lower_char x = t ->
  PyStr.lower_char sym = sym ->
  t <> sym ->
  Ascii.eqb sym x = false.
Proof.
  intros Hx Hsym Ht. destruct (Ascii.eqb_spec sym x) as [E |];
    [| reflexivity].
  subst x. congruence.
Qed.

Lemma extension_allowed_iff (file_name : string) :
  extension_allowed file_name = true <->
  file_extension file_name = ".txt" \/ file_extension file_name = ".log".
Proof.
  unfold extension_allowed, ALLOWED_EXTENSIONS. cbn [existsb].
  rewrite Bool.orb_false_r, Bool.orb_true_iff, !String.eqb_eq. tauto.
Qed.

(** An allowed extension is a dot and three letters. *)
Lemma allowed_extension_shape (ext : string) :
  PyStr.lower ext = ".txt" \/ PyStr.lower ext = ".log" ->
  exists rest,
    ext = String "." rest
    /\ PyStr.has_char "." rest = false
    /\ PyStr.has_char "/" ext = false.
Proof.
  intros H.
  destruct ext as [| c0 [| c1 [| c2 [| c3 [| c4 ext]]]]];
    cbn [PyStr.lower] in H; try (destruct H; discriminate).
  assert (exists t1 t2 t3,
             PyStr.lower_char c0 = "."%char
             /\ PyStr.lower_char c1 = t1 /\ PyStr.lower_char c2 = t2
             /\ PyStr.lower_char c3 = t3
             /\ Forall (fun t => t <> "."%char /\ t <> "/"%char) [t1; t2; t3])
    as (t1 & t2 & t3 & H0 & H1 & H2 & H3 & Ht).
  { destruct H as [H | H]; injection H as H0 H1 H2 H3;
      eexists _, _, _;
      (split; [exact H0 |]); (split; [exact H1 |]);
      (split; [exact H2 |]); (split; [exact H3 |]);
      repeat (apply Forall_cons; [split; discriminate |]);
      apply Forall_nil. }
  apply lower_char_dot in H0. subst c0.
  inversion Ht as [| ? ? [D1 S1] Ht']; subst.
  inversion Ht' as [| ? ? [D2 S2] Ht'']; subst.
  inversion Ht'' as [| ? ? [D3 S3] _]; subst.
  exists (String c1 (String c2 (String c3 EmptyString))).
  split; [reflexivity |]. cbn [PyStr.has_char].
  rewrite (lower_char_apart c1 _ "." eq_refl eq_refl D1),
    (lower_char_apart c2 _ "." eq_refl eq_refl D2),
    (lower_char_apart c3 _ "." eq_refl eq_refl D3),
    (lower_char_apart c1 _ "/" eq_refl eq_refl S1),
    (lower_char_apart c2 _ "/" eq_refl eq_refl S2),
    (lower_char_apart c3 _ "/" eq_refl eq_refl S3).
  split; reflexivity.
Qed.

(** X17: the extension test of the upload.  The test that
    [upload_files] makes before it saves a file passes exactly when
    the name is a stem followed by ".txt" or ".log" in any letter
    case, where the last component of the stem has a character other
    than the dot: "a.TXT" passes, while "a.txt.bak", ".txt",
    "dir/..log" and "a.txt/b" fail and are skipped.  No file is saved
    or parsed unless its name has this shape. *)
Theorem upload_extension_test (file_name : string) :
  extension_allowed file_name = true <->
  exists stem ext,
    file_name = stem ++ ext
    /\ (PyStr.lower ext = ".txt" \/ PyStr.lower ext = ".log")
    /\ named stem.
Proof.
  split.
  - intro H. apply extension_allowed_iff in H.
    unfold file_extension, OsPath.splitext in H.
    pose proof (rfind_range "." file_name) as Rd.
    pose proof (rfind_range "/" file_name) as Rs.
    destruct
      ((OsPath.rfind "/" file_name <? OsPath.rfind "." file_name)
       && OsPath.name_found file_name
            (Z.to_nat (OsPath.rfind "/" file_name + 1))
            (Z.to_nat (OsPath.rfind "." file_name
                       - (OsPath.rfind "/" file_name + 1))))%bool eqn:C;
      cbn [snd] in H; [| destruct H; discriminate].
    apply Bool.andb_true_iff in C as [Clt Cname].
    apply Z.ltb_lt in Clt.
    apply name_found_true in Cname as (j & Hj & Hn).
    set (d := Z.to_nat (OsPath.rfind "." file_name)) in *.
    exists (substring 0 d file_name), (PyStr.drop d file_name).
    split; [symmetry; apply take_drop |]. split; [exact H |].
    destruct (get_lt j file_name) as [c Hc]; [lia |].
    rewrite substring_one, Hc in Hn.
    assert (String.length (substring 0 d file_name) = d) as Hlen
      by (apply take_length; lia).
    assert (String.get j (substring 0 d file_name) = Some c) as Hstem.
    { rewrite <- (get_app_l j _ (PyStr.drop d file_name)) by lia.
      rewrite take_drop. exact Hc. }
    destruct (get_split _ _ _ Hstem) as (front & back & Es & El).
    assert (PyStr.has_char "/" (String c back) = false) as Hfree.
    { destruct (PyStr.has_char "/" (String c back)) eqn:Hh;
        [exfalso | reflexivity].
      assert (0 <= OsPath.rfind "/" (String c back)) as Hpos.
      { pose proof (rfind_range "/" (String c back)).
        destruct (Z.eq_dec (OsPath.rfind "/" (String c back)) (-1)) as [E |];
          [| lia].
        apply rfind_none in E. congruence. }
      assert (Z.of_nat j <= OsPath.rfind "/" (substring 0 d file_name))
        as Hin.
      { rewrite Es, rfind_app.
        destruct (0 <=? OsPath.rfind "/" (String c back)) eqn:E;
          [lia | apply Z.leb_gt in E; lia]. }
      assert (Z.of_nat j <= OsPath.rfind "/" file_name) as Hall.
      { rewrite <- (take_drop d file_name) at 1. rewrite rfind_app.
        destruct (0 <=? OsPath.rfind "/" (PyStr.drop d file_name)) eqn:E;
          [apply Z.leb_le in E; lia | exact Hin]. }
      lia. }
    cbn [PyStr.has_char] in Hfree.
    apply Bool.orb_false_iff in Hfree as [Hc' Hback].
    exists front, c, back. repeat split.
    + exact Es.
    + intros ->. apply Hn. reflexivity.
    + intros ->. discriminate Hc'.
    + exact Hback.
  - intros (stem & ext & -> & Hext & front & c & back & -> & Hdot & Hsl
            & Hback).
    apply extension_allowed_iff.
    destruct (allowed_extension_shape ext Hext)
      as (rest & -> & Hrest & Hsep).
    set (stem := front ++ String c back).
    assert (OsPath.rfind "." (stem ++ String "." rest)
            = Z.of_nat (String.length stem)) as Hd.
    { rewrite rfind_app.
      assert (OsPath.rfind "." (String "." rest) = 0) as E.
      { cbn [OsPath.rfind]. apply rfind_none in Hrest. rewrite Hrest.
        reflexivity. }
      rewrite E. cbn. lia. }
    assert (OsPath.rfind "/" (stem ++ String "." rest)
            = OsPath.rfind "/" front) as Hs.
    { rewrite rfind_app. apply rfind_none in Hsep. rewrite Hsep.
      cbn [Z.leb Z.compare]. unfold stem. rewrite rfind_app.
      assert (OsPath.rfind "/" (String c back) = -1) as E.
      { apply rfind_none. cbn [PyStr.has_char]. rewrite Hback.
        destruct (Ascii.eqb_spec "/" c) as [<- |];
          [contradiction | reflexivity]. }
      rewrite E. reflexivity. }
    pose proof (rfind_range "/" front) as Rf.
    assert (String.length stem
            = (String.length front + S (String.length back))%nat) as Hlen
      by (unfold stem; rewrite string_length_app; reflexivity).
    unfold file_extension, OsPath.splitext. rewrite Hd, Hs.
    assert ((OsPath.rfind "/" front <? Z.of_nat (String.length stem)) = true)
      as Clt by (apply Z.ltb_lt; lia).
    rewrite Clt.
    rewrite (name_found_intro _ _ _ (String.length front)).
    + cbn [andb snd]. rewrite Nat2Z.id, drop_app. exact Hext.
    + lia.
    + rewrite substring_one, get_app_l
        by (rewrite Hlen; lia).
      unfold stem. rewrite get_app_mid. intros E. injection E as ->.
      contradiction.
Qed.

(** ** The version data of the summary view *)

Lemma string_app_nil_r (s : string) : s ++ EmptyString = s.
Proof.
  induction s as [| c s IH]; cbn [append]; [reflexivity |].
  rewrite IH. reflexivity.
Qed.

Lemma string_app_assoc (a b c : string) : (a ++ b) ++ c = a ++ (b ++ c).
Proof.
  induction a as [| x a IH]; cbn [append]; [reflexivity |].
  rewrite IH. reflexivity.
Qed.

Lemma rev_onto_app (s acc : string) :
  PyStr.rev_onto s acc = PyStr.rev s ++ acc.
Proof.
  unfold PyStr.rev. revert acc.
  induction s as [| c s IH]; intros acc; cbn [PyStr.rev_onto].
  - reflexivity.
  - rewrite (IH (String c acc)), (IH (String c EmptyString)).
    rewrite string_app_assoc. reflexivity.
Qed.

Lemma rev_app (a b : string) :
  PyStr.rev (a ++ b) = PyStr.rev b ++ PyStr.rev a.
Proof.
  induction a as [| x a IH]; cbn [append].
  - rewrite string_app_nil_r. reflexivity.
  - unfold PyStr.rev at 1 3. cbn [PyStr.rev_onto].
    rewrite !rev_onto_app, IH, string_app_assoc. reflexivity.
Qed.

Lemma rev_involutive (s : string) : PyStr.rev (PyStr.rev s) = s.
Proof.
  induction s as [| c s IH]; [reflexivity |].
  unfold PyStr.rev at 2. cbn [PyStr.rev_onto].
  rewrite rev_onto_app, rev_app, IH. reflexivity.
Qed.

Lemma lstrip_by_head_kept (p : ascii -> bool) (s : string) :
  head_kept p (PyStr.lstrip_by p s) = true.
Proof.
  induction s as [| c s IH]; cbn [PyStr.lstrip_by]; [reflexivity |].
  destruct (p c) eqn:Hc; [exact IH |].
  cbn [head_kept]. rewrite Hc. reflexivity.
Qed.

Lemma lstrip_by_kept (p : ascii -> bool) (s : string) :
  head_kept p s = true -> PyStr.lstrip_by p s = s.
Proof.
  destruct s as [| c s]; cbn [head_kept PyStr.lstrip_by]; [reflexivity |].
  destruct (p c); [discriminate | reflexivity].
Qed.

Lemma lstrip_by_suffix (p : ascii -> bool) (s : string) :
  exists dropped, s = dropped ++ PyStr.lstrip_by p s.
Proof.
  induction s as [| c s [dropped IH]]; cbn [PyStr.lstrip_by].
  - exists EmptyString. reflexivity.
  - destruct (p c).
    + exists (String c dropped). cbn [append]. rewrite <- IH. reflexivity.
    + exists EmptyString. reflexivity.
Qed.

Lemma head_kept_prefix (p : ascii -> bool) (a b : string) :
  head_kept p (a ++ b) = true -> head_kept p b = true ->
  head_kept p a = true.
Proof.
  destruct a as [| c a]; cbn [append head_kept]; [reflexivity |].
  intros H _. exact H.
Qed.

(** What [strip] returns has nothing left to strip. *)
Lemma strip_by_idempotent (p : ascii -> bool) (s : string) :
  PyStr.strip_by p (PyStr.strip_by p s) = PyStr.strip_by p s.
Proof.
  unfold PyStr.strip_by.
  set (t := PyStr.lstrip_by p s).
  set (u := PyStr.lstrip_by p (PyStr.rev t)).
  assert (head_kept p u = true) as Hu by apply lstrip_by_head_kept.
  assert (head_kept p (PyStr.rev u) = true) as Hr.
  { destruct (lstrip_by_suffix p (PyStr.rev t)) as [dropped Hd].
    fold u in Hd.
    assert (t = PyStr.rev u ++ PyStr.rev dropped) as Ht.
    { rewrite <- (rev_involutive t), Hd, rev_app. reflexivity. }
    destruct (PyStr.rev u) as [| c w] eqn:Hw; [reflexivity |].
    cbn [head_kept].
    pose proof (lstrip_by_head_kept p s) as Hk. fold t in Hk.
    rewrite Ht in Hk. exact Hk. }
  rewrite (lstrip_by_kept p (PyStr.rev u) Hr), rev_involutive.
  rewrite (lstrip_by_kept p u Hu). reflexivity.
Qed.

Lemma dict_get_in (key : string) (v : value) (d : dict) :
  Dict.get key d = Some v -> In (key, v) d.
Proof.
  induction d as [| [k w] rest IH]; cbn [Dict.get]; [discriminate |].
  destruct (String.eqb_spec key k) as [-> |].
  - intros H; injection H as ->. left. reflexivity.
  - intros H. right. exact (IH H).
Qed.

(** After the cleaning loop every text of [version_data] is stripped,
    also one that a later item of the same key would have set. *)
Lemma strip_values_stripped (version_data : dict) (key text : string) :
  Dict.get key (strip_values version_data) = Some (VStr text) ->
  PyStr.strip text = text.
Proof.
  unfold strip_values.
  assert (forall (items cleaned : dict),
             (forall k t, Dict.get k cleaned = Some (VStr t) ->
                          PyStr.strip t = t \/ In (k, VStr t) items) ->
             forall k t,
               Dict.get k
                 (fold_left
                    (fun cleaned item =>
                       match snd item with
                       | VStr text =>
                           Dict.set (fst item) (VStr (PyStr.strip text))
                             cleaned
                       | _ => cleaned
                       end) items cleaned) = Some (VStr t) ->
               PyStr.strip t = t) as Hloop.
  { induction items as [| [k0 v0] items IH]; intros cleaned Hinv k t;
      cbn [fold_left fst snd].
    - intros H. destruct (Hinv k t H) as [Hs | []]. exact Hs.
    - apply IH. intros k' t' H'.
      assert (forall w,
                 (forall t0, v0 <> VStr t0) ->
                 Dict.get k' cleaned = Some (VStr t') ->
                 w = cleaned ->
                 PyStr.strip t' = t' \/ In (k', VStr t') items) as Hskip.
      { intros w Hv Hget _.
        destruct (Hinv k' t' Hget) as [Hs | [E | Hin]];
          [left; exact Hs | | right; exact Hin].
        injection E as _ E. destruct (Hv t' E). }
      destruct v0 as [| n | f | t0 | l | d];
        try (apply (Hskip cleaned); [discriminate | exact H' | reflexivity]).
      destruct (String.eqb k' k0) eqn:Hk.
      + apply String.eqb_eq in Hk. subst k'.
        rewrite dict_get_set_same in H'. injection H' as <-.
        left. apply strip_by_idempotent.
      + rewrite (dict_get_set_other _ _ _ _ Hk) in H'.
        destruct (Hinv k' t' H') as [Hs | [E | Hin]];
          [left; exact Hs | | right; exact Hin].
        injection E as E _. subst k'. rewrite String.eqb_refl in Hk.
        discriminate. }
  apply Hloop. intros k t H. right. exact (dict_get_in _ _ _ H).
Qed.

Lemma parse_network_file_platform
    (parse_output : engine) (file_content file_name : string)
    (doc : document) :
  parse_network_file parse_output file_content file_name = Ok doc ->
  platform doc = detect_platform file_content.
Proof.
  intros Hdoc. unfold parse_network_file in Hdoc.
  destruct (templates_for (detect_platform file_content)) as [| t ts].
  - injection Hdoc as <-. reflexivity.
  - destruct (cpu_memory_branch _ _ _ _) as [[parsed summary] | e];
      [cbn [bind] in Hdoc | discriminate].
    rewrite deduplicate_dict in Hdoc.
    destruct (dedup_entries parsed) as [parsed' | e];
      [cbn [bind] in Hdoc | discriminate].
    injection Hdoc as <-. reflexivity.
Qed.

Lemma detect_platform_stripped (text : string) :
  PyStr.strip (detect_platform text) = detect_platform text.
Proof.
  destruct (detect_platform_names text) as [-> | Hin]; [reflexivity |].
  cbn [map fst ENV_PATTERNS In] in Hin.
  repeat (destruct Hin as [<- | Hin]; [reflexivity |]).
  destruct Hin.
Qed.

(** X18: the summary view of a parsed document.  For every document
    that [parse_network_file] returns, [get_summary] builds its
    [version_data] without an error, the detected platform is in it
    under "platform_name", and every text in it is stripped: no value
    of the summary starts or ends with white space, whatever the
    engine recorded. *)
Theorem summary_of_parsed_document
    (parse_output : engine) (file_content file_name : string)
    (doc : document) :
  parse_network_file parse_output file_content file_name = Ok doc ->
  exists version_data,
    summary_version_data (platform doc) (data doc) = Some version_data
    /\ Dict.get "platform_name" version_data = Some (VStr (platform doc))
    /\ (forall key text,
           Dict.get key version_data = Some (VStr text) ->
           PyStr.strip text = text).
Proof.
  intros Hdoc.
  pose proof (parse_network_file_platform _ _ _ _ Hdoc) as Hplatform.
  pose proof (detect_platform_stripped file_content) as Hstripped.
  rewrite <- Hplatform in Hstripped.
  assert (forall cleaned key text,
             (forall k t, Dict.get k cleaned = Some (VStr t) ->
                          PyStr.strip t = t) ->
             Dict.get key
               (Dict.set "platform_name" (VStr (platform doc)) cleaned)
             = Some (VStr text) ->
             PyStr.strip text = text) as Hset.
  { intros cleaned key text Hc H.
    destruct (String.eqb key "platform_name") eqn:Hk.
    - apply String.eqb_eq in Hk. subst key.
      rewrite dict_get_set_same in H. injection H as <-. exact Hstripped.
    - rewrite (dict_get_set_other _ _ _ _ Hk) in H. exact (Hc _ _ H). }
  unfold summary_version_data.
  assert (exists records,
             match version_command (platform doc) with
             | Some command => Dict.get_default command (VList []) (data doc)
             | None => VList []
             end = VList records
             /\ forallb is_record records = true)
    as (records & -> & Hrecords).
  { destruct (version_command (platform doc)) as [command |] eqn:Hc.
    - destruct (view_table_of_parsed_document _ _ _ _ command Hdoc)
        as (records & Hget & Hall); [left; exact Hc |].
      exists records. unfold Dict.get_default. rewrite Hget.
      split; [reflexivity | exact Hall].
    - exists []. split; reflexivity. }
  destruct records as [| first rest].
  - eexists. split; [reflexivity |]. split.
    + apply dict_get_set_same.
    + intros key text. apply Hset. intros k t H. discriminate H.
  - cbn [forallb] in Hrecords.
    apply Bool.andb_true_iff in Hrecords as [Hfirst _].
    destruct first as [| | | | | version_data]; try discriminate Hfirst.
    eexists. split; [reflexivity |]. split.
    + apply dict_get_set_same.
    + intros key text. apply Hset. intros k t.
      apply strip_values_stripped.
Qed.

Lemma summary_of_parsed_document_witness :
  exists version_data,
    summary_version_data (platform aruba_document) (data aruba_document)
    = Some version_data
    /\ Dict.get "platform_name" version_data
       = Some (VStr (platform aruba_document))
    /\ (forall key text,
           Dict.get key version_data = Some (VStr text) ->
           PyStr.strip text = text).
Proof.
  apply (summary_of_parsed_document aruba_engine
           "ArubaOS-CX show system" "sw2.log" aruba_document).
  reflexivity.
Defined.

(** ** The Huawei CPU field out of float range *)

Lemma ascii_digit_value (c : ascii) :
  PyStr.is_ascii_digit c = true -> 0 <= PyInt.digit_value c <= 9.
Proof.
  unfold PyStr.is_ascii_digit, PyStr.in_range, PyInt.digit_value.
  intros H. apply Bool.andb_true_iff in H as [Hlo Hhi].
  apply N.leb_le in Hlo, Hhi. lia.
Qed.

Lemma ascii_digit_not_zero (c : ascii) :
  PyStr.is_ascii_digit c = true -> Ascii.eqb c "0" = false ->
  1 <= PyInt.digit_value c.
Proof.
  intros Hd Hz. pose proof (ascii_digit_value c Hd) as Hr.
  destruct (Z.eq_dec (PyInt.digit_value c) 0) as [E |]; [| lia].
  exfalso. unfold PyInt.digit_value, PyStr.code in E.
  assert (N_of_ascii c = 48%N) as Hc by lia.
  apply (f_equal ascii_of_N) in Hc. rewrite ascii_N_embedding in Hc.
  subst c. discriminate Hz.
Qed.

Lemma ascii_digit_not_point (c : ascii) :
  PyStr.is_ascii_digit c = true -> Ascii.eqb c "." = false.
Proof.
  intros Hd. destruct (Ascii.eqb_spec c ".") as [-> |]; [| reflexivity].
  discriminate Hd.
Qed.

Lemma more_digits_lower (s : string) :
  forall acc,
    PyStr.all_chars PyStr.is_ascii_digit s = true -> 0 <= acc ->
    exists n,
      PyInt.more_digits acc s = Some n
      /\ acc * 10 ^ Z.of_nat (String.length s) <= n.
Proof.
  induction s as [| c t IH]; intros acc Hall Hacc;
    cbn [PyInt.more_digits String.length PyStr.all_chars] in *.
  - exists acc. split; [reflexivity |]. change (10 ^ Z.of_nat 0) with 1. lia.
  - apply Bool.andb_true_iff in Hall as [Hc Ht]. rewrite Hc.
    pose proof (ascii_digit_value c Hc) as Hv.
    destruct (IH (acc * 10 + PyInt.digit_value c) Ht) as (n & -> & Hn);
      [lia |].
    exists n. split; [reflexivity |].
    rewrite Nat2Z.inj_succ, Z.pow_succ_r by lia.
    pose proof (Z.pow_pos_nonneg 10 (Z.of_nat (String.length t))) as Hp.
    nia.
Qed.

Lemma half_even_lower (n d : Z) : n / d <= PyFloat.half_even n d.
Proof.
  unfold PyFloat.half_even.
  destruct (2 * (n mod d) ?= d); [destruct (Z.even (n / d)) | |]; lia.
Qed.

Lemma nearest_huge (neg : bool) (n : Z) :
  2 ^ 1024 <= n -> PyFloat.nearest neg n 1 = PyFloat.Inf neg.
Proof.
  intros Hn.
  assert (0 < n) as Hpos by (pose proof (Z.pow_pos_nonneg 2 1024); lia).
  assert (1024 <= Z.log2 n) as Hk.
  { rewrite <- (Z.log2_pow2 1024) by lia. apply Z.log2_le_mono. exact Hn. }
  destruct (Z.log2_spec n Hpos) as [Hlo _].
  unfold PyFloat.nearest. cbv zeta.
  change (Z.log2 1) with 0. rewrite Z.sub_0_r.
  set (k := Z.log2 n) in *.
  replace (n =? 0) with false by (symmetry; apply Z.eqb_neq; lia).
  assert (PyFloat.shl 1 k = 2 ^ k) as E0.
  { unfold PyFloat.shl. rewrite Z.max_r by lia. lia. }
  assert (PyFloat.shl n (- k) = n) as E1.
  { unfold PyFloat.shl. rewrite Z.max_l by lia. rewrite Z.pow_0_r. lia. }
  rewrite E0, E1.
  replace (2 ^ k <=? n) with true by (symmetry; apply Z.leb_le; exact Hlo).
  rewrite (Z.max_l (k - 52) (-1074)) by lia.
  assert (PyFloat.shl n (- (k - 52)) = n) as E2.
  { unfold PyFloat.shl. rewrite Z.max_l by lia. rewrite Z.pow_0_r. lia. }
  assert (PyFloat.shl 1 (k - 52) = 2 ^ (k - 52)) as E3.
  { unfold PyFloat.shl. rewrite Z.max_r by lia. lia. }
  rewrite E2, E3.
  set (d := 2 ^ (k - 52)).
  assert (0 < d) as Hd by (apply Z.pow_pos_nonneg; lia).
  assert (2 ^ 52 <= PyFloat.half_even n d) as Hm.
  { pose proof (half_even_lower n d) as Hh.
    assert (2 ^ 52 <= n / d); [| lia].
    apply Z.div_le_lower_bound; [exact Hd |].
    unfold d. rewrite <- Z.pow_add_r by lia.
    replace (k - 52 + 52) with k by lia. exact Hlo. }
  set (m := PyFloat.half_even n d) in *.
  assert (0 < 2 ^ 52) as H52 by (apply Z.pow_pos_nonneg; lia).
  replace (m =? 0) with false by (symmetry; apply Z.eqb_neq; lia).
  assert (52 <= Z.log2 m) as Hl.
  { rewrite <- (Z.log2_pow2 52) by lia. apply Z.log2_le_mono. exact Hm. }
  replace (1024 <=? Z.log2 m + (k - 52)) with true
    by (symmetry; apply Z.leb_le; lia).
  reflexivity.
Qed.

Lemma of_plain_text_huge (c : ascii) (digits : string) :
  PyStr.all_chars PyStr.is_ascii_digit (String c digits) = true ->
  Ascii.eqb c "0" = false ->
  (309 <= String.length digits)%nat ->
  PyFloat.of_plain_text (String c digits) = Ok (PyFloat.Inf false).
Proof.
  intros Hall Hzero Hlen. unfold PyFloat.of_plain_text.
  assert (forall s,
             PyStr.all_chars PyStr.is_ascii_digit s = true ->
             (fix cut (s : string) : string * option string :=
                match s with
                | EmptyString => (EmptyString, None)
                | String c r =>
                    if Ascii.eqb c "."%char then (EmptyString, Some r)
                    else let '(a, b) := cut r in (String c a, b)
                end) s = (s, None)) as Hcut.
  { induction s as [| x s IH]; intros Hs; [reflexivity |].
    cbn [PyStr.all_chars] in Hs.
    apply Bool.andb_true_iff in Hs as [Hx Hs].
    rewrite (ascii_digit_not_point x Hx), (IH Hs). reflexivity. }
  rewrite (Hcut _ Hall). cbv beta iota zeta.
  rewrite string_app_nil_r, Hall.
  cbn [PyStr.all_chars] in Hall.
  apply Bool.andb_true_iff in Hall as [Hc Hd].
  unfold PyInt.unsigned. rewrite Hc.
  pose proof (ascii_digit_not_zero c Hc Hzero) as Hv.
  destruct (more_digits_lower digits (PyInt.digit_value c) Hd) as (n & -> & Hn);
    [lia |].
  change (10 ^ Z.of_nat (String.length "")) with 1.
  rewrite nearest_huge; [reflexivity |].
  assert (2 ^ 1024 <= 10 ^ 309) as Hbig
    by (apply Z.leb_le; vm_compute; reflexivity).
  assert (10 ^ 309 <= 10 ^ Z.of_nat (String.length digits)) as Hpow
    by (apply Z.pow_le_mono_r; lia).
  nia.
Qed.

Lemma remove_first_point_digits (s : string) :
  PyStr.all_chars PyStr.is_ascii_digit s = true -> remove_first_point s = s.
Proof.
  induction s as [| c s IH]; intros H; [reflexivity |].
  cbn [PyStr.all_chars] in H. apply Bool.andb_true_iff in H as [Hc Hs].
  cbn [remove_first_point].
  rewrite (ascii_digit_not_point c Hc), (IH Hs). reflexivity.
Qed.

Lemma ascii_digits_all_isdigit (s : string) :
  PyStr.all_chars PyStr.is_ascii_digit s = true ->
  PyStr.all_chars PyStr.isdigit_char s = true.
Proof.
  induction s as [| c s IH]; intros H; [reflexivity |].
  cbn [PyStr.all_chars] in *. apply Bool.andb_true_iff in H as [Hc Hs].
  rewrite (IH Hs). unfold PyStr.isdigit_char. rewrite Hc. reflexivity.
Qed.

Lemma ascii_digits_isdigit (c : ascii) (s : string) :
  PyStr.all_chars PyStr.is_ascii_digit (String c s) = true ->
  PyStr.isdigit (String c s) = true.
Proof.
  intros H. exact (ascii_digits_all_isdigit (String c s) H).
Qed.

Lemma process_huawei_cpu_data_huge (record : dict) (c : ascii)
    (digits : string) :
  Dict.get "cpu_usage_rate" record = Some (VStr (String c digits)) ->
  PyStr.all_chars PyStr.is_ascii_digit (String c digits) = true ->
  Ascii.eqb c "0" = false ->
  (309 <= String.length digits)%nat ->
  process_huawei_cpu_data (VDict record) = Raise OverflowError.
Proof.
  intros Hget Hall Hzero Hlen.
  unfold process_huawei_cpu_data, cpu_keys. cbn [probe_cpu_keys].
  rewrite Hget.
  assert (looks_numeric (VStr (String c digits)) = true) as Hnum.
  { unfold looks_numeric. cbn [Py.str].
    rewrite (remove_first_point_digits _ Hall).
    exact (ascii_digits_isdigit c digits Hall). }
  rewrite Hnum. cbn [Py.float].
  rewrite (of_plain_text_huge c digits Hall Hzero Hlen). reflexivity.
Qed.

(** X19: a Huawei CPU field out of float range stops the whole parse.
    When the first record of "display cpu-usage" has, under
    "cpu_usage_rate", a text of 310 decimal digits or more that does
    not start with 0, [float] gives an infinity, [int] raises
    [OverflowError], and [process_huawei_cpu_data] catches
    [ValueError] only: the function raises, and so does
    [parse_network_file], which returns no document for the file. *)
Theorem parse_network_file_raises_on_huge_huawei_cpu
    (parse_output : engine) (file_content file_name : string)
    (record : dict) (rest : list dict) (c : ascii) (digits : string) :
  detect_platform file_content = "huawei_vrp"
  \/ detect_platform file_content = "huawei_yunshan" ->
  parse_output (detect_platform file_content) "display cpu-usage"
    file_content = Ok (record :: rest) ->
  Dict.get "cpu_usage_rate" record = Some (VStr (String c digits)) ->
  PyStr.all_chars PyStr.is_ascii_digit (String c digits) = true ->
  Ascii.eqb c "0" = false ->
  (309 <= String.length digits)%nat ->
  process_huawei_cpu_data (VDict record) = Raise OverflowError
  /\ parse_network_file parse_output file_content file_name
     = Raise OverflowError.
Proof.
  intros Hplat Htable Hget Hall Hzero Hlen.
  pose proof (process_huawei_cpu_data_huge record c digits Hget Hall Hzero
                Hlen) as Hraise.
  split; [exact Hraise |].
  assert (Py.truthy (VDict record) = true) as Htruthy
    by (destruct record; [discriminate Hget | reflexivity]).
  unfold parse_network_file.
  destruct Hplat as [Hp | Hp]; rewrite Hp in *; simpl.
  all: unfold cpu_memory_branch; simpl.
  all: unfold first_record at 1; unfold Dict.get_default at 1; simpl.
  all: unfold parse_command at 1; rewrite Htable.
  all: cbn [map]; rewrite Htruthy, Hraise; reflexivity.
Qed.

Lemma parse_network_file_raises_on_huge_huawei_cpu_witness :
  process_huawei_cpu_data (VDict huge_cpu_record) = Raise OverflowError
  /\ parse_network_file huge_cpu_engine
       "Huawei YunShan OS, display cpu-usage" "sw3.txt"
     = Raise OverflowError.
Proof.
  apply (parse_network_file_raises_on_huge_huawei_cpu huge_cpu_engine
           "Huawei YunShan OS, display cpu-usage" "sw3.txt"
           huge_cpu_record [] "1" (repeat_char "0" 309)).
  - right. reflexivity.
  - reflexivity.
  - reflexivity.
  - vm_compute. reflexivity.
  - reflexivity.
  - vm_compute. apply le_n.
Defined.
